(** * AlloLLMEval: the orchestration core, embedded and verified

    The Python package consists of
    - [utils/validation.py]: [validate_type], [validate_config_schema];
    - [core/base.py]: the abstract executor [PromptExecutorBase];
    - [core/metrics.py]: [MetricStatus], [MetricOutput], [MetricEvaluatorBase];
    - [core/test_runner.py]: [TestConfig], [TestResult], [TestRunner].

    Python objects live in a store and are passed by reference, so the
    embedding is a store-passing one: a heap of objects addressed by
    locations, a state and exception monad over it, and one Rocq function
    per Python function.  Concrete executors and evaluators are outside the
    package; they enter as a class table whose methods are arbitrary heap
    transformers. *)

From Stdlib Require Import ZArith Floats.
From stdpp Require Import base option list strings.

Local Open Scope string_scope.
Local Open Scope list_scope.

(** ** Values and objects *)

(** Locations and class names; abbreviations, so that the list and string
    lemmas apply to them as they are. *)
Abbreviation loc := nat.
Abbreviation class_name := string.

(** [class MetricStatus(Enum)], metrics.py lines 7-11. *)
Inductive MetricStatus := PASSED | WARNING | FAILED | INCONCLUSIVE.

Definition MetricStatus_value (s : MetricStatus) : string :=
  match s with
  | PASSED => "passed"
  | WARNING => "warning"
  | FAILED => "failed"
  | INCONCLUSIVE => "inconclusive"
  end.

Definition MetricStatus_members : list MetricStatus :=
  [PASSED; WARNING; FAILED; INCONCLUSIVE].

(** Immediate values are carried around as they are; dictionaries and class
    instances are heap objects and a value only holds their location. *)
Inductive pyval :=
  | VNone
  | VBool (b : bool)
  | VInt (n : Z)
  | VFloat (x : float)
  | VStr (s : string)
  | VDatetime (t : Z)
  | VEnum (m : MetricStatus)
  | VClass (c : class_name)
  | VRef (l : loc).

(** A [dict] with string keys.  Python dictionaries iterate in insertion
    order, and [validate_config_schema] observes that order, so the items are
    kept as an ordered association list. *)
Abbreviation dict := (list (string * pyval)).

Inductive obj :=
  | ODict (items : dict)
  | OInstance (mro : list class_name) (attrs : dict).

Abbreviation heap := (list obj).

Inductive exn :=
  | ValueError (msg : string)
  | TypeError (msg : string)
  | AttributeError (msg : string)
  | NotImplementedError
  | OtherError (cls msg : string).

(** ** Dictionaries *)

Module Dict.

(** [d.get(k)] / [d[k]] *)
Fixpoint get (k : string) (d : dict) : option pyval :=
  match d with
  | [] => None
  | (k', v) :: d' => if String.eqb k k' then Some v else get k d'
  end.

(** [k in d] *)
Definition mem (k : string) (d : dict) : bool :=
  match get k d with Some _ => true | None => false end.

(** [d[k] = v]: an existing key keeps its position, a new one goes last. *)
Fixpoint set (k : string) (v : pyval) (d : dict) : dict :=
  match d with
  | [] => [(k, v)]
  | (k', v') :: d' =>
      if String.eqb k k' then (k, v) :: d' else (k', v') :: set k v d'
  end.

(** [d.update(src)] *)
Definition update (d src : dict) : dict :=
  fold_left (fun acc kv => set kv.1 kv.2 acc) src d.

Definition keys (d : dict) : list string := map fst d.

(** [{**a, **b}]: a new dictionary, filled from [a] and then from [b]. *)
Definition unpack2 (a b : dict) : dict := update (update [] a) b.

End Dict.

(** ** Store, call trace and the state-and-exception monad *)

Inductive outcome (A : Type) :=
  | Ok (a : A)
  | Raise (e : exn).
Arguments Ok {A} a.
Arguments Raise {A} e.

(** One entry per method call made through dynamic dispatch: receiver, method
    name, positional and keyword arguments, the heap when the call was made,
    what the call returned or raised, and the heap when it ended.  The trace
    is how the runner's interaction with the executor and the evaluator is
    observed. *)
Record call := Call {
  callee : pyval;
  meth : string;
  args : list pyval;
  kwargs : dict;
  at_heap : heap;
  result : outcome pyval;
  heap_after : heap;
}.

Record state := State {
  st_heap : heap;
  st_clock : nat;          (* how many times [datetime.now()] has been read *)
  st_calls : list call;
}.

Definition M (A : Type) : Type := state -> outcome A * state.

Definition ret {A} (a : A) : M A := fun s => (Ok a, s).

Definition raise {A} (e : exn) : M A := fun s => (Raise e, s).

Definition bind {A B} (m : M A) (k : A -> M B) : M B :=
  fun s =>
    match m s with
    | (Ok a, s') => k a s'
    | (Raise e, s') => (Raise e, s')
    end.

Declare Scope py_scope.
Delimit Scope py_scope with py.
Notation "x <- m ;; k" := (bind m (fun x => k))
  (at level 100, m at next level, right associativity) : py_scope.
Notation "m ;;; k" := (bind m (fun _ => k))
  (at level 100, right associativity) : py_scope.
Open Scope py_scope.

Definition get_heap : M heap := fun s => (Ok (st_heap s), s).

Definition put_heap (h : heap) : M unit :=
  fun s => (Ok tt, State h (st_clock s) (st_calls s)).

(** Object creation: the new object takes the next free location. *)
Definition alloc (o : obj) : M pyval :=
  h <- get_heap ;;
  put_heap (h ++ [o]) ;;;
  ret (VRef (length h)).

(** ** Run-time types *)

(** [type(v).__mro__], by class name.  A dangling location has no class.
    The class of a class object is its metaclass: [EnumType] for the
    enumerations ([MetricStatus], and [Enum] itself), [type] for the other
    classes of the package, none of which declares a metaclass.  Classes are
    known by name only, so a class defined elsewhere with a metaclass of its
    own is outside the model. *)
Definition mro_of (h : heap) (v : pyval) : list class_name :=
  match v with
  | VNone => ["NoneType"; "object"]
  | VBool _ => ["bool"; "int"; "object"]
  | VInt _ => ["int"; "object"]
  | VFloat _ => ["float"; "object"]
  | VStr _ => ["str"; "object"]
  | VDatetime _ => ["datetime"; "date"; "object"]
  | VEnum _ => ["MetricStatus"; "Enum"; "object"]
  | VClass c =>
      if String.eqb c "MetricStatus" || String.eqb c "Enum"
      then ["EnumType"; "type"; "object"]
      else ["type"; "object"]
  | VRef l =>
      match h !! l with
      | Some (ODict _) => ["dict"; "object"]
      | Some (OInstance mro _) => mro
      | None => []
      end
  end.

(** [type(v).__name__] *)
Definition type_name (h : heap) (v : pyval) : string :=
  hd "object" (mro_of h v).

Definition in_mro (c : class_name) (mro : list class_name) : bool :=
  existsb (String.eqb c) mro.

(** [isinstance(v, c)] for a class [c] known by name. *)
Definition is_instance (h : heap) (v : pyval) (c : class_name) : bool :=
  in_mro c (mro_of h v).

Definition isinstance (v : pyval) (c : class_name) : M bool :=
  h <- get_heap ;; ret (is_instance h v c).

(** [isinstance(v, t)] where [t] is itself a run-time value.  Python raises
    [TypeError] when [t] is not a class.  The second argument is a single
    class, compared by name along the MRO of the value: the values of the
    model include no tuple of classes and no union, which [isinstance] also
    accepts, and no class with an [__instancecheck__] or [__subclasshook__]
    of its own (the abstract classes of [collections.abc], say). *)
Definition isinstance_val (v t : pyval) : M bool :=
  match t with
  | VClass c => isinstance v c
  | _ => raise (TypeError
           "isinstance() arg 2 must be a type, a tuple of types, or a union")
  end.

(** [t.__name__] *)
Definition name_of (t : pyval) : M string :=
  match t with
  | VClass c => ret c
  | _ => h <- get_heap ;;
         raise (AttributeError
           ("'" +:+ type_name h t +:+ "' object has no attribute '__name__'"))
  end.

(** Truth value of [v], as [not v] and [v or w] test it.  Instances of the
    classes of this package define neither [__bool__] nor [__len__] and are
    always true. *)
Definition truth (h : heap) (v : pyval) : bool :=
  match v with
  | VNone => false
  | VBool b => b
  | VInt n => negb (n =? 0)%Z
  | VFloat x => negb (PrimFloat.eqb x 0%float)
  | VStr s => negb (String.eqb s "")
  | VDatetime _ | VEnum _ | VClass _ => true
  | VRef l =>
      match h !! l with
      | Some (ODict items) => negb (Nat.eqb (length items) 0)
      | _ => true
      end
  end.

Definition truthy (v : pyval) : M bool :=
  h <- get_heap ;; ret (truth h v).

(** ** Attributes *)

Definition no_attribute {A} (v : pyval) (name : string) : M A :=
  h <- get_heap ;;
  raise (AttributeError
    ("'" +:+ type_name h v +:+ "' object has no attribute '" +:+ name +:+ "'")).

(** [v.name] for a data attribute. *)
Definition getattr (v : pyval) (name : string) : M pyval :=
  h <- get_heap ;;
  match v with
  | VRef l =>
      match h !! l with
      | Some (OInstance _ attrs) =>
          match Dict.get name attrs with
          | Some x => ret x
          | None => no_attribute v name
          end
      | _ => no_attribute v name
      end
  | _ => no_attribute v name
  end.

(** [v.name = x]: the one place where the package writes to an existing
    object, used by the constructors on [self]. *)
Definition setattr (v : pyval) (name : string) (x : pyval) : M unit :=
  h <- get_heap ;;
  match v with
  | VRef l =>
      match h !! l with
      | Some (OInstance mro attrs) =>
          put_heap (<[l := OInstance mro (Dict.set name x attrs)]> h)
      | _ => no_attribute v name
      end
  | _ => no_attribute v name
  end.

(** [v.__class__.__name__] *)
Definition class_name_of (v : pyval) : M string :=
  h <- get_heap ;; ret (type_name h v).

(** ** Argument binding *)

Fixpoint bind_keywords (params : list string) (kw : dict)
  : option (list pyval) :=
  match params with
  | [] => Some []
  | p :: ps =>
      match Dict.get p kw, bind_keywords ps kw with
      | Some v, Some vs => Some (v :: vs)
      | _, _ => None
      end
  end.

(** Bind positional arguments, then keyword arguments, to the parameters that
    follow [self].  [None] stands for Python's [TypeError] on a call that does
    not fit the signature. *)
Definition bind_params (params : list string) (args : list pyval) (kw : dict)
  : option (list pyval) :=
  let rest := drop (length args) params in
  if (length args <=? length params)%nat
     && forallb (fun k => in_mro k rest) (Dict.keys kw)
  then match bind_keywords rest kw with
       | Some vs => Some (args ++ vs)
       | None => None
       end
  else None.

(** ** utils/validation.py *)

(** [validate_type(value, expected_type)], lines 7-13. *)
Definition validate_type (value expected_type : pyval) : M pyval :=
  b <- isinstance_val value expected_type ;;
  if negb b then
    en <- name_of expected_type ;;
    vn <- class_name_of value ;;
    raise (TypeError ("Expected type " +:+ en +:+ ", got " +:+ vn))
  else ret value.

(** The body of the [for key, value_type in schema.items()] loop of
    [validate_config_schema], lines 18-25, over the items still to visit. *)
Fixpoint validate_items (config : dict) (items : dict) : M unit :=
  match items with
  | [] => ret tt
  | (key, value_type) :: rest =>
      if negb (Dict.mem key config) then
        raise (ValueError ("Missing required config key: " +:+ key))
      else
        match Dict.get key config with
        | None => raise (OtherError "KeyError" key)
        | Some v =>
            b <- isinstance_val v value_type ;;
            if negb b then
              tn <- name_of value_type ;;
              vn <- class_name_of v ;;
              raise (TypeError
                ("Config key '" +:+ key +:+ "' should be of type " +:+ tn
                 +:+ ", got " +:+ vn))
            else validate_items config rest
        end
  end.

(** [validate_config_schema(config, schema)], lines 16-25.  Both arguments
    are dictionaries, as annotated; their values are arbitrary. *)
Definition validate_config_schema (config schema : dict) : M unit :=
  validate_items config schema.

(** ** Dataclasses

    [@dataclass] generates an [__init__] that stores each argument in the
    field of the same name; none of the three dataclasses of the package
    defines [__post_init__], so nothing is checked. *)

(** [TestConfig(executor_config, metric_config)], test_runner.py lines 8-13. *)
Definition new_TestConfig (executor_config metric_config : pyval) : M pyval :=
  alloc (OInstance ["TestConfig"; "object"]
           [("executor_config", executor_config);
            ("metric_config", metric_config)]).

(** [MetricOutput(score, status, visualization, details, threshold)],
    metrics.py lines 14-20. *)
Definition new_MetricOutput
    (score status visualization details threshold : pyval) : M pyval :=
  alloc (OInstance ["MetricOutput"; "object"]
           [("score", score); ("status", status);
            ("visualization", visualization);
            ("details", details); ("threshold", threshold)]).

(** [TestResult(metric_output, executor_output, configs_used, metadata,
    timestamp)], test_runner.py lines 16-24. *)
Definition new_TestResult
    (metric_output executor_output configs_used metadata timestamp : pyval)
  : M pyval :=
  alloc (OInstance ["TestResult"; "object"]
           [("metric_output", metric_output);
            ("executor_output", executor_output);
            ("configs_used", configs_used);
            ("metadata", metadata);
            ("timestamp", timestamp)]).

(** ** core/base.py *)

Definition PromptExecutorBase_mro : list class_name :=
  ["PromptExecutorBase"; "Generic"; "object"].

(** [PromptExecutorBase._validate_schema], lines 18-21. *)
Definition PromptExecutorBase_validate_schema (self : pyval) : M unit :=
  cs <- getattr self "config_schema" ;;
  b <- isinstance cs "dict" ;;
  if negb b then raise (ValueError "Config schema must be a dictionary")
  else ret tt.

(** [PromptExecutorBase.__init__], lines 14-16. *)
Definition PromptExecutorBase_init (self config_schema : pyval) : M unit :=
  setattr self "config_schema" config_schema ;;;
  PromptExecutorBase_validate_schema self.

(** The constructor call [PromptExecutorBase(config_schema)]. *)
Definition new_PromptExecutorBase (config_schema : pyval) : M pyval :=
  self <- alloc (OInstance PromptExecutorBase_mro []) ;;
  PromptExecutorBase_init self config_schema ;;;
  ret self.

(** [PromptExecutorBase.execute], lines 23-25. *)
Definition PromptExecutorBase_execute (self input_data config : pyval)
  : M pyval :=
  raise NotImplementedError.

(** ** core/metrics.py *)

Definition MetricEvaluatorBase_mro : list class_name :=
  ["MetricEvaluatorBase"; "object"].

(** [MetricEvaluatorBase._validate_config], lines 30-33. *)
Definition MetricEvaluatorBase_validate_config (self : pyval) : M unit :=
  c <- getattr self "config" ;;
  b <- isinstance c "dict" ;;
  if negb b then raise (ValueError "Config must be a dictionary")
  else ret tt.

(** [MetricEvaluatorBase.__init__], lines 26-28. *)
Definition MetricEvaluatorBase_init (self config : pyval) : M unit :=
  setattr self "config" config ;;;
  MetricEvaluatorBase_validate_config self.

(** The constructor call [MetricEvaluatorBase(config)]. *)
Definition new_MetricEvaluatorBase (config : pyval) : M pyval :=
  self <- alloc (OInstance MetricEvaluatorBase_mro []) ;;
  MetricEvaluatorBase_init self config ;;;
  ret self.

(** [MetricEvaluatorBase.evaluate], lines 35-45. *)
Definition MetricEvaluatorBase_evaluate
    (self executor input_data base_output executor_config test_config
       evaluation_params : pyval) : M pyval :=
  raise NotImplementedError.

(** ** Classes and dynamic dispatch *)

(** A method body, applied to [self], the positional and the keyword
    arguments. *)
Definition method := pyval -> list pyval -> dict -> M pyval.

(** Code from outside the package: it sees and changes the heap, and returns
    or raises. *)
Definition user_code :=
  pyval -> list pyval -> dict -> heap -> outcome pyval * heap.

Definition run_user (f : user_code) : method :=
  fun self args kw s =>
    let '(r, h') := f self args kw (st_heap s) in
    (r, State h' (st_clock s) (st_calls s)).

Definition signature_error {A} (name : string) : M A :=
  raise (TypeError
    (name +:+ "() got arguments that do not match its signature")).

Definition execute_params : list string := ["input_data"; "config"].

Definition evaluate_params : list string :=
  ["executor"; "input_data"; "base_output"; "executor_config"; "test_config";
   "evaluation_params"].

Definition PromptExecutorBase_execute_method : method :=
  fun self args kw =>
    match bind_params execute_params args kw with
    | Some [input_data; config] =>
        PromptExecutorBase_execute self input_data config
    | _ => signature_error "execute"
    end.

Definition MetricEvaluatorBase_evaluate_method : method :=
  fun self args kw =>
    match bind_params evaluate_params args kw with
    | Some [executor; input_data; base_output; executor_config; test_config;
            evaluation_params] =>
        MetricEvaluatorBase_evaluate self executor input_data base_output
          executor_config test_config evaluation_params
    | _ => signature_error "evaluate"
    end.

Record bound_method := Bound {
  bm_self : pyval;
  bm_name : string;
  bm_func : method;
}.

(** The state once a call that ended in [s] has been recorded. *)
Definition recorded (s : state) (c : call) : state :=
  State (st_heap s) (st_clock s) (st_calls s ++ [c]).

(** Calling a bound method: the body runs, and the call is recorded with
    what it returned or raised. *)
Definition call_method (b : bound_method) (args : list pyval) (kw : dict)
  : M pyval :=
  fun s =>
    let '(r, s') := bm_func b (bm_self b) args kw s in
    (r, recorded s'
          (Call (bm_self b) (bm_name b) args kw (st_heap s) r (st_heap s'))).

(** ** Reading the store

    The views below are what the statements are written in: the field of an
    instance, the items of a dictionary, as found in a given heap. *)

Definition field (h : heap) (v : pyval) (name : string) : option pyval :=
  match v with
  | VRef l =>
      match h !! l with
      | Some (OInstance _ attrs) => Dict.get name attrs
      | _ => None
      end
  | _ => None
  end.

Definition items_of (h : heap) (v : pyval) : option dict :=
  match v with
  | VRef l =>
      match h !! l with
      | Some (ODict items) => Some items
      | _ => None
      end
  | _ => None
  end.

(** ** core/test_runner.py *)

Definition TestRunner_mro : list class_name := ["TestRunner"; "object"].

(** [TestRunner._validate_components], lines 36-43. *)
Definition TestRunner_validate_components (self : pyval) : M unit :=
  executor <- getattr self "executor" ;;
  b1 <- isinstance executor "PromptExecutorBase" ;;
  if negb b1 then
    raise (ValueError "Executor must be an instance of PromptExecutorBase")
  else
    evaluator <- getattr self "evaluator" ;;
    b2 <- isinstance evaluator "MetricEvaluatorBase" ;;
    if negb b2 then
      raise (ValueError "Evaluator must be an instance of MetricEvaluatorBase")
    else
      config <- getattr self "config" ;;
      b3 <- isinstance config "TestConfig" ;;
      if negb b3 then
        raise (ValueError "Config must be an instance of TestConfig")
      else ret tt.

(** [TestRunner.__init__], lines 30-34. *)
Definition TestRunner_init (self executor evaluator config : pyval) : M unit :=
  setattr self "executor" executor ;;;
  setattr self "evaluator" evaluator ;;;
  setattr self "config" config ;;;
  TestRunner_validate_components self.

(** The constructor call [TestRunner(executor, evaluator, config)]. *)
Definition new_TestRunner (executor evaluator config : pyval) : M pyval :=
  self <- alloc (OInstance TestRunner_mro []) ;;
  TestRunner_init self executor evaluator config ;;;
  ret self.

Definition not_a_mapping {A} (v : pyval) : M A :=
  h <- get_heap ;;
  raise (TypeError ("'" +:+ type_name h v +:+ "' object is not a mapping")).

(** One [**v] of a dictionary display: the items of [v] are written into the
    dictionary under construction.  Python raises [TypeError] when [v] is not
    a mapping. *)
Definition unpack_into (acc : dict) (v : pyval) : M dict :=
  h <- get_heap ;;
  match v with
  | VRef l =>
      match h !! l with
      | Some (ODict items) => ret (Dict.update acc items)
      | _ => not_a_mapping v
      end
  | _ => not_a_mapping v
  end.

(** The dictionary display [{**a.name, **b.name}]. *)
Definition merged_dict (a b : pyval) (name : string) : M pyval :=
  x <- getattr a name ;;
  d1 <- unpack_into [] x ;;
  y <- getattr b name ;;
  d2 <- unpack_into d1 y ;;
  alloc (ODict d2).

(** [TestRunner._merge_configs], lines 45-53. *)
Definition TestRunner_merge_configs
    (self base_config override_config : pyval) : M pyval :=
  t <- truthy override_config ;;
  if negb t then ret base_config
  else
    merged_executor_config <-
      merged_dict base_config override_config "executor_config" ;;
    merged_metric_config <-
      merged_dict base_config override_config "metric_config" ;;
    new_TestConfig merged_executor_config merged_metric_config.

(** [evaluation_params or {}], line 79. *)
Definition or_empty_dict (v : pyval) : M pyval :=
  t <- truthy v ;;
  if t then ret v else alloc (ODict []).

Section Package.

(** The classes defined outside the package, by name: the body of each
    method a class defines itself. *)
Variable user_method : class_name -> string -> option user_code.

(** [datetime.now()] at its n-th reading, and [datetime.isoformat]. *)
Variable wall_clock : nat -> Z.
Variable isoformat : Z -> string.

(** [datetime.now()]: the clock is read, and has ticked. *)
Definition datetime_now : M Z :=
  fun s =>
    (Ok (wall_clock (st_clock s)),
     State (st_heap s) (S (st_clock s)) (st_calls s)).

(** The methods a class defines in its own body. *)
Definition class_method (c : class_name) (name : string) : option method :=
  if String.eqb c "PromptExecutorBase" then
    if String.eqb name "execute" then Some PromptExecutorBase_execute_method
    else None
  else if String.eqb c "MetricEvaluatorBase" then
    if String.eqb name "evaluate" then Some MetricEvaluatorBase_evaluate_method
    else None
  else option_map run_user (user_method c name).

(** Method resolution: the first class of the MRO that defines [name]. *)
Fixpoint find_method (mro : list class_name) (name : string)
  : option method :=
  match mro with
  | [] => None
  | c :: cs =>
      match class_method c name with
      | Some f => Some f
      | None => find_method cs name
      end
  end.

(** Where a resolved method comes from: one of the two abstract methods of
    the package, or code from outside. *)
Inductive origin (f : method) : Prop :=
  | origin_execute : f = PromptExecutorBase_execute_method -> origin f
  | origin_evaluate : f = MetricEvaluatorBase_evaluate_method -> origin f
  | origin_user c name u :
      user_method c name = Some u -> f = run_user u -> origin f.

(** [recv.name] for a method. *)
Definition getmethod (recv : pyval) (name : string) : M bound_method :=
  h <- get_heap ;;
  match find_method (mro_of h recv) name with
  | Some f => ret (Bound recv name f)
  | None => no_attribute recv name
  end.

(** [TestRunner._get_metadata], lines 55-61. *)
Definition TestRunner_get_metadata (self : pyval) : M pyval :=
  executor <- getattr self "executor" ;;
  executor_type <- class_name_of executor ;;
  evaluator <- getattr self "evaluator" ;;
  evaluator_type <- class_name_of evaluator ;;
  now <- datetime_now ;;
  alloc (ODict [("executor_type", VStr executor_type);
                ("evaluator_type", VStr evaluator_type);
                ("timestamp", VStr (isoformat now))]).

(** [TestRunner.run], lines 63-88. *)
Definition TestRunner_run
    (self input_data evaluation_params override_config : pyval) : M pyval :=
  base_config <- getattr self "config" ;;
  effective_config <-
    TestRunner_merge_configs self base_config override_config ;;
  executor <- getattr self "executor" ;;
  execute <- getmethod executor "execute" ;;
  executor_config <- getattr effective_config "executor_config" ;;
  base_output <- call_method execute [input_data; executor_config] [] ;;
  evaluator <- getattr self "evaluator" ;;
  evaluate <- getmethod evaluator "evaluate" ;;
  executor' <- getattr self "executor" ;;
  executor_config' <- getattr effective_config "executor_config" ;;
  test_config <- getattr effective_config "metric_config" ;;
  evaluation_params' <- or_empty_dict evaluation_params ;;
  metric_result <-
    call_method evaluate []
      [("executor", executor'); ("input_data", input_data);
       ("base_output", base_output);
       ("executor_config", executor_config');
       ("test_config", test_config);
       ("evaluation_params", evaluation_params')] ;;
  metadata <- TestRunner_get_metadata self ;;
  timestamp <- datetime_now ;;
  new_TestResult metric_result base_output effective_config metadata
    (VDatetime timestamp).

(** The keyword arguments of the [evaluate] call. *)
Definition evaluate_kwargs
    (executor input_data base_output executor_config test_config
       evaluation_params : pyval) : dict :=
  [("executor", executor); ("input_data", input_data);
   ("base_output", base_output); ("executor_config", executor_config);
   ("test_config", test_config); ("evaluation_params", evaluation_params)].

(** The record [run] returns. *)
Definition TestResult_obj
    (metric_output executor_output configs_used metadata timestamp : pyval)
  : obj :=
  OInstance ["TestResult"; "object"]
    [("metric_output", metric_output); ("executor_output", executor_output);
     ("configs_used", configs_used); ("metadata", metadata);
     ("timestamp", timestamp)].

(** The anatomy of a run that returns: the configuration is merged, the
    executor found on [self] is called, then the evaluator found on [self],
    the metadata is built and the result allocated. *)
Inductive run_ok (self input_data evaluation_params override_config : pyval)
    (s : state) : pyval -> state -> Prop :=
  | RunOk base effective s1 executor execute executor_config base_output s2
      evaluator evaluate executor' executor_config' test_config params s3
      metric_result s4 metadata s5 :
      field (st_heap s) self "config" = Some base ->
      TestRunner_merge_configs self base override_config s
        = (Ok effective, s1) ->
      field (st_heap s1) self "executor" = Some executor ->
      find_method (mro_of (st_heap s1) executor) "execute" = Some execute ->
      field (st_heap s1) effective "executor_config" = Some executor_config ->
      execute executor [input_data; executor_config] [] s1
        = (Ok base_output, s2) ->
      let c1 := Call executor "execute" [input_data; executor_config] []
                  (st_heap s1) (Ok base_output) (st_heap s2) in
      field (st_heap s2) self "evaluator" = Some evaluator ->
      find_method (mro_of (st_heap s2) evaluator) "evaluate" = Some evaluate ->
      field (st_heap s2) self "executor" = Some executor' ->
      field (st_heap s2) effective "executor_config" = Some executor_config' ->
      field (st_heap s2) effective "metric_config" = Some test_config ->
      or_empty_dict evaluation_params (recorded s2 c1) = (Ok params, s3) ->
      let kw := evaluate_kwargs executor' input_data base_output
                  executor_config' test_config params in
      evaluate evaluator [] kw s3 = (Ok metric_result, s4) ->
      let c2 := Call evaluator "evaluate" [] kw
                  (st_heap s3) (Ok metric_result) (st_heap s4) in
      TestRunner_get_metadata self (recorded s4 c2) = (Ok metadata, s5) ->
      run_ok self input_data evaluation_params override_config s
        (VRef (length (st_heap s5)))
        (State
           (st_heap s5 ++
              [TestResult_obj metric_result base_output effective metadata
                 (VDatetime (wall_clock (st_clock s5)))])
           (S (st_clock s5)) (st_calls s5)).

End Package.

(** ** Vocabulary of the statements *)

(** A Python dictionary never holds a key twice. *)
Definition wf_dict (d : dict) : Prop := NoDup (Dict.keys d).

(** [v] is a [TestConfig] whose two fields are the dictionaries [ec], [mc]. *)
Record TestConfig_at (h : heap) (v : pyval) (ec mc : dict) : Prop := {
  tc_instance : is_instance h v "TestConfig" = true;
  tc_executor_config :
    exists x, field h v "executor_config" = Some x /\ items_of h x = Some ec;
  tc_metric_config :
    exists x, field h v "metric_config" = Some x /\ items_of h x = Some mc;
  tc_executor_wf : wf_dict ec;
  tc_metric_wf : wf_dict mc;
}.

(** The locations a [TestConfig] occupies: the instance and its two
    dictionaries. *)
Definition config_locs (h : heap) (v : pyval) : list loc :=
  match v with
  | VRef l =>
      l :: match field h v "executor_config" with
           | Some (VRef a) => [a]
           | _ => []
           end
        ++ match field h v "metric_config" with
           | Some (VRef b) => [b]
           | _ => []
           end
  | _ => []
  end.

(** A schema entry [(key, value_type)] is met by [config]: the key is
    there and its value is an instance of the class [value_type]. *)
Definition conforms (h : heap) (config : dict) (entry : string * pyval)
  : Prop :=
  exists v c,
    Dict.get entry.1 config = Some v /\ entry.2 = VClass c /\
    is_instance h v c = true.

(** A score in the closed interval [0,1], and a member of [MetricStatus]. *)
Definition unit_score (v : pyval) : bool :=
  match v with
  | VFloat x => (0 <=? x)%float && (x <=? 1)%float
  | VInt n => (0 <=? n)%Z && (n <=? 1)%Z
  | _ => false
  end.

Definition is_MetricStatus (v : pyval) : bool :=
  match v with
  | VEnum _ => true
  | _ => false
  end.

(** [r] is a [MetricOutput] that keeps the documented ranges. *)
Definition in_range_MetricOutput (h : heap) (r : pyval) : Prop :=
  exists score status,
    field h r "score" = Some score /\ unit_score score = true /\
    field h r "status" = Some status /\ is_MetricStatus status = true.

(** [m] is [a] overridden by [b], key by key: every key of either, and the
    value of [b] wherever [b] has the key. *)
Definition overrides (a b m : dict) : Prop :=
  (forall k, k ∈ Dict.keys m <-> k ∈ Dict.keys a \/ k ∈ Dict.keys b) /\
  (forall k v, Dict.get k b = Some v -> Dict.get k m = Some v) /\
  (forall k, Dict.get k b = None -> Dict.get k m = Dict.get k a).

(** The heap [h'] extends [h]: every object of [h] is still there, unchanged. *)
Definition extends (h h' : heap) : Prop := h `prefix_of` h'.

(** The calls made since the trace was [before]. *)
Definition new_calls (before after : state) : list call :=
  drop (length (st_calls before)) (st_calls after).

(** The store [h] becomes [h'] along the calls [cs]: between two calls it
    only grows; what happens during a call is the call's doing. *)
Fixpoint threads (h : heap) (cs : list call) (h' : heap) : Prop :=
  match cs with
  | [] => extends h h'
  | c :: cs => extends h (at_heap c) /\ threads (heap_after c) cs h'
  end.

(** The call [c] left the object [o] at [l] alone. *)
Definition call_keeps (l : loc) (o : obj) (c : call) : Prop :=
  at_heap c !! l = Some o -> heap_after c !! l = Some o.

(** The object the merge builds. *)
Definition merged_TestConfig (h : heap) : obj :=
  OInstance ["TestConfig"; "object"]
    [("executor_config", VRef (length h));
     ("metric_config", VRef (S (length h)))].

(** An action is quiet when, whatever it returns, it only adds objects to
    the store and calls nothing. *)
Definition quiet_step (s s' : state) : Prop :=
  extends (st_heap s) (st_heap s') /\ st_calls s' = st_calls s.

Definition quiet {A} (m : M A) : Prop := forall s, quiet_step s (m s).2.

(** An action is threaded when the calls it makes are added to the trace
    and the store evolves along them. *)
Definition threaded {A} (m : M A) : Prop :=
  forall s, exists cs,
    st_calls (m s).2 = st_calls s ++ cs /\
    threads (st_heap s) cs (st_heap (m s).2).

(** ** Test doubles

    The doubles of the end-to-end scenario: an executor that echoes its input,
    an evaluator that always passes with score 1.0, and an executor that
    writes into the configuration it is handed, to exercise aliasing. *)

Module Doubles.

Definition EchoExecutor_mro : list class_name :=
  "EchoExecutor" :: PromptExecutorBase_mro.

Definition PassEvaluator_mro : list class_name :=
  "PassEvaluator" :: MetricEvaluatorBase_mro.

Definition StampExecutor_mro : list class_name :=
  "StampExecutor" :: PromptExecutorBase_mro.

(** [def execute(self, input_data, config): return "ECHO:" + input_data] *)
Definition echo_execute : user_code :=
  fun self args kw h =>
    match bind_params execute_params args kw with
    | Some [VStr s; _] => (Ok (VStr ("ECHO:" +:+ s)), h)
    | _ => (Raise (TypeError "can only concatenate str to str"), h)
    end.

(** [def evaluate(self, ...): return MetricOutput(1.0, PASSED, None, {}, {})] *)
Definition pass_evaluate : user_code :=
  fun self args kw h =>
    match bind_params evaluate_params args kw with
    | Some _ =>
        let body :=
          details <- alloc (ODict []) ;;
          threshold <- alloc (ODict []) ;;
          new_MetricOutput (VFloat 1%float) (VEnum PASSED) VNone details
            threshold in
        let '(r, s) := body (State h 0 []) in
        (r, st_heap s)
    | None => (Raise (TypeError "evaluate() got unexpected arguments"), h)
    end.

(** [def execute(self, input_data, config): config["seen"] = True; return None] *)
Definition stamp_execute : user_code :=
  fun self args kw h =>
    match bind_params execute_params args kw with
    | Some [_; VRef l] =>
        match h !! l with
        | Some (ODict items) =>
            (Ok VNone, <[l := ODict (Dict.set "seen" (VBool true) items)]> h)
        | _ => (Raise (TypeError "object does not support item assignment"), h)
        end
    | _ => (Raise (TypeError "object does not support item assignment"), h)
    end.

(** The class table of the end-to-end scenario. *)
Definition methods (c : class_name) (name : string) : option user_code :=
  if String.eqb c "EchoExecutor" && String.eqb name "execute"
  then Some echo_execute
  else if String.eqb c "PassEvaluator" && String.eqb name "evaluate"
  then Some pass_evaluate
  else None.

(** The same with the stamping executor added. *)
Definition methods_stamp (c : class_name) (name : string) : option user_code :=
  if String.eqb c "StampExecutor" && String.eqb name "execute"
  then Some stamp_execute
  else methods c name.

(** A clock that ticks once per reading.  [isoformat] belongs to the
    [datetime] library; the runner only stores what it returns, and a fixed
    string stands for it here. *)
Definition clock (n : nat) : Z := (1700000000 + Z.of_nat n)%Z.
Definition iso (t : Z) : string := "2023-11-14T22:13:20".

(** The store before the runner is built: an executor and an evaluator,
    the base configuration [{"model": "a"}, {}] and the override
    [{"temperature": 0.5}, {}]. *)
Definition heap0 : heap :=
  [ ODict [];
    OInstance EchoExecutor_mro [("config_schema", VRef 0)];
    ODict [];
    OInstance PassEvaluator_mro [("config", VRef 2)];
    ODict [("model", VStr "a")];
    ODict [];
    OInstance ["TestConfig"; "object"]
      [("executor_config", VRef 4); ("metric_config", VRef 5)];
    ODict [("temperature", VFloat 0.5%float)];
    ODict [];
    OInstance ["TestConfig"; "object"]
      [("executor_config", VRef 7); ("metric_config", VRef 8)];
    OInstance StampExecutor_mro [("config_schema", VRef 0)] ].

Definition executor : pyval := VRef 1.
Definition evaluator : pyval := VRef 3.
Definition base : pyval := VRef 6.
Definition override : pyval := VRef 9.
Definition stamper : pyval := VRef 10.

Definition state0 : state := State heap0 0 [].

(** The store once [TestRunner(executor, evaluator, base)] has been built;
    the runner is at location 11. *)
Definition state1 : state :=
  Eval vm_compute in (new_TestRunner executor evaluator base state0).2.
Definition runner : pyval := VRef 11.

(** The same with the stamping executor bound. *)
Definition state1' : state :=
  Eval vm_compute in (new_TestRunner stamper evaluator base state0).2.

Abbreviation run := (TestRunner_run methods clock iso).
Abbreviation run_stamp := (TestRunner_run methods_stamp clock iso).

(** The store after [run("hello")], and after [run("hello")] with the
    override. *)
Definition state2 : state :=
  Eval vm_compute in (run runner (VStr "hello") VNone VNone state1).2.
Definition state2_override : state :=
  Eval vm_compute in (run runner (VStr "hello") VNone override state1).2.

(** A store holding an instance of each abstract base class, at locations
    11 and 12, and at 13 an instance of a subclass [BareExecutor] that
    defines no method of its own. *)
Definition state_abstract : state :=
  Eval vm_compute in
    let s :=
      (new_MetricEvaluatorBase (VRef 2)
         (new_PromptExecutorBase (VRef 0) state0).2).2 in
    (alloc (OInstance ("BareExecutor" :: PromptExecutorBase_mro)
              [("config_schema", VRef 0)]) s).2.

(** Two configurations with a nested mapping under the same key:
    [{"opts": {"a": 1, "b": 2}, "model": "m"}] and [{"opts": {"b": 3}}]. *)
Definition state_nested : state :=
  State
    [ ODict [("a", VInt 1); ("b", VInt 2)];
      ODict [("opts", VRef 0); ("model", VStr "m")];
      ODict [];
      OInstance ["TestConfig"; "object"]
        [("executor_config", VRef 1); ("metric_config", VRef 2)];
      ODict [("b", VInt 3)];
      ODict [("opts", VRef 4)];
      ODict [];
      OInstance ["TestConfig"; "object"]
        [("executor_config", VRef 5); ("metric_config", VRef 6)] ]
    0 [].

End Doubles.

(** ** Outcomes of calls and readings of the clock *)

(** The call [c] returned. *)
Definition returned (c : call) : Prop := exists x, result c = Ok x.

(** An action is orderly when the calls it makes are added to the trace and
    a call that raises ends it: every call before the last one returned, and
    when the last one raised, the action raises the same exception and leaves
    the store as that call left it. *)
Definition orderly {A} (m : M A) : Prop :=
  forall s, exists cs,
    st_calls (m s).2 = st_calls s ++ cs /\
    (Forall returned cs \/
     exists cs' c e,
       cs = cs' ++ [c] /\ Forall returned cs' /\ result c = Raise e /\
       (m s).1 = Raise e /\ st_heap (m s).2 = heap_after c).

(** An action reads the clock [n] times when it returns, and not at all when
    it raises. *)
Definition clocked (n : nat) {A} (m : M A) : Prop :=
  forall s,
    st_clock (m s).2 =
      match (m s).1 with
      | Ok _ => n + st_clock s
      | Raise _ => st_clock s
      end.

(** The dictionary [_get_metadata] builds for an executor [e] and an
    evaluator [v] when the clock shows [now]. *)
Definition metadata_items (h : heap) (e v : pyval) (now : string) : dict :=
  [("executor_type", VStr (type_name h e));
   ("evaluator_type", VStr (type_name h v));
   ("timestamp", VStr now)].

(** The runner object [TestRunner.__init__] leaves behind. *)
Definition TestRunner_obj (executor evaluator config : pyval) : obj :=
  OInstance TestRunner_mro
    [("executor", executor); ("evaluator", evaluator); ("config", config)].

(** ** Corner cases

    A runner over the two abstract base classes, whose [execute] raises; a
    runner over the echoing executor and the abstract evaluator, whose
    [evaluate] raises; a run that is handed an empty dictionary as
    [evaluation_params]; and an override with two empty dictionaries. *)

Module Corners.

(** [TestRunner(PromptExecutorBase({}), MetricEvaluatorBase({}), base)]:
    the runner is at location 14. *)
Definition state_bare : state :=
  Eval vm_compute in
    (new_TestRunner (VRef 11) (VRef 12) Doubles.base Doubles.state_abstract).2.
Definition runner_bare : pyval := VRef 14.

(** [TestRunner(EchoExecutor({}), MetricEvaluatorBase({}), base)]: the
    runner is at location 14 as well. *)
Definition state_half : state :=
  Eval vm_compute in
    (new_TestRunner Doubles.executor (VRef 12) Doubles.base
       Doubles.state_abstract).2.
Definition runner_half : pyval := VRef 14.

(** The two runs of [run("hello")], which raise. *)
Definition state_bare_run : state :=
  Eval vm_compute in
    (Doubles.run runner_bare (VStr "hello") VNone VNone state_bare).2.
Definition state_half_run : state :=
  Eval vm_compute in
    (Doubles.run runner_half (VStr "hello") VNone VNone state_half).2.

(** [run("hello", evaluation_params=d)] on the runner of the end-to-end
    scenario, where [d] is the empty dictionary at location 5. *)
Definition empty_params : pyval := VRef 5.
Definition state_empty_params : state :=
  Eval vm_compute in
    (Doubles.run Doubles.runner (VStr "hello") empty_params VNone
       Doubles.state1).2.

(** [TestConfig({}, {})] built in the store of the end-to-end scenario: the
    two dictionaries are at locations 12 and 13, the configuration at 14. *)
Definition state_empty_override : state :=
  Eval vm_compute in
    ((d1 <- alloc (ODict []) ;; d2 <- alloc (ODict []) ;; new_TestConfig d1 d2)
       Doubles.state1).2.
Definition empty_override : pyval := VRef 14.

(** [run("hello")] on the runner built with the stamping executor. *)
Definition state_stamp_run : state :=
  Eval vm_compute in
    (Doubles.run_stamp (VRef 11) (VStr "hello") VNone VNone Doubles.state1').2.

End Corners.

(** ** Facts about dictionaries *)

Module DictFacts.
Import Dict.

Lemma get_set_same k v d : get k (set k v d) = Some v.
Proof.
  induction d as [|[k' v'] d IH]; simpl.
  - by rewrite String.eqb_refl.
  - destruct (String.eqb k k') eqn:E; simpl; rewrite ?String.eqb_refl, ?E; auto.
Qed.

Lemma get_set_other k k' v d : k <> k' -> get k' (set k v d) = get k' d.
Proof.
  intros Hne. induction d as [|[k0 v0] d IH]; simpl.
  - destruct (String.eqb_spec k' k); congruence.
  - destruct (String.eqb_spec k k0) as [->|]; simpl.
    + destruct (String.eqb_spec k' k0); congruence.
    + destruct (String.eqb_spec k' k0); auto.
Qed.

Lemma get_None k d : get k d = None <-> k ∉ keys d.
Proof.
  induction d as [|[k' v'] d IH]; simpl.
  - split; [intros _; apply not_elem_of_nil | done].
  - rewrite not_elem_of_cons. destruct (String.eqb_spec k k'); [|tauto].
    split; [done | tauto].
Qed.

Lemma get_Some_keys k v d : get k d = Some v -> k ∈ keys d.
Proof.
  intros H. destruct (decide (k ∈ keys d)); [done|].
  apply get_None in n. congruence.
Qed.

Lemma keys_set k v d k' : k' ∈ keys (set k v d) <-> k' = k \/ k' ∈ keys d.
Proof.
  induction d as [|[k0 v0] d IH]; simpl.
  - rewrite list_elem_of_singleton. split; [tauto|].
    intros [?|H]; [done | by apply not_elem_of_nil in H].
  - destruct (String.eqb_spec k k0) as [->|]; simpl; rewrite !elem_of_cons.
    + tauto.
    + rewrite IH. tauto.
Qed.

Lemma wf_set k v d : NoDup (keys d) -> NoDup (keys (set k v d)).
Proof.
  induction d as [|[k0 v0] d IH]; simpl; intros Hd.
  - apply NoDup_singleton.
  - destruct (String.eqb_spec k k0) as [->|]; simpl; [done|].
    apply NoDup_cons in Hd as [Hk Hd]. apply NoDup_cons. split; auto.
    fold (keys (set k v d)). rewrite keys_set. intros [?|?]; [congruence | done].
Qed.

Lemma keys_update d src k :
  k ∈ keys (update d src) <-> k ∈ keys d \/ k ∈ keys src.
Proof.
  unfold update. revert d. induction src as [|[k0 v0] src IH]; intros d; simpl.
  - split; [tauto | intros [?|H]; [done | by apply not_elem_of_nil in H]].
  - rewrite IH, keys_set, elem_of_cons. tauto.
Qed.

Lemma wf_update d src : NoDup (keys d) -> NoDup (keys (update d src)).
Proof.
  unfold update. revert d. induction src as [|[k0 v0] src IH]; intros d Hd; simpl.
  - done.
  - apply IH, wf_set, Hd.
Qed.

(** An update from a source that lacks [k] leaves [k] as it was. *)
Lemma get_update_absent d src k :
  get k src = None -> get k (update d src) = get k d.
Proof.
  unfold update. revert d. induction src as [|[k0 v0] src IH]; intros d; simpl.
  - done.
  - destruct (String.eqb_spec k k0) as [->|Hne]; [done|].
    intros H. rewrite IH by done. by apply get_set_other.
Qed.

(** An update writes the value the source has for [k]. *)
Lemma get_update_present d src k v :
  NoDup (keys src) -> get k src = Some v -> get k (update d src) = Some v.
Proof.
  unfold update. revert d. induction src as [|[k0 v0] src IH]; intros d Hs; simpl.
  - done.
  - apply NoDup_cons in Hs as [Hk Hs].
    destruct (String.eqb_spec k k0) as [->|Hne].
    + intros [= ->]. fold (update (set k0 v d) src).
      rewrite get_update_absent by (by apply get_None).
      apply get_set_same.
    + intros H. by apply IH.
Qed.

(** Filling an empty dictionary from a well-formed one copies it, in order. *)
Lemma update_onto d src :
  NoDup (keys (d ++ src)) -> update d src = d ++ src.
Proof.
  unfold update. revert d. induction src as [|[k0 v0] src IH]; intros d Hd; simpl.
  - by rewrite app_nil_r.
  - assert (set k0 v0 d = d ++ [(k0, v0)]) as ->.
    { unfold keys in Hd. rewrite map_app in Hd. simpl in Hd.
      apply NoDup_app in Hd as (_ & Hd & _).
      assert (k0 ∉ map fst d) as Hk by (intros ?; eapply Hd; [done | left]).
      clear -Hk. induction d as [|[k1 v1] d IH]; simpl; [done|].
      simpl in Hk. apply not_elem_of_cons in Hk as [? ?].
      destruct (String.eqb_spec k0 k1); [done|]. by rewrite IH. }
    rewrite IH; rewrite <- app_assoc; done.
Qed.

Lemma update_empty src : NoDup (keys src) -> update [] src = src.
Proof. intros H. by rewrite update_onto. Qed.

End DictFacts.

(** ** Facts about the monad and the primitives *)

Lemma bind_cases {A B} (m : M A) (k : A -> M B) s r s' :
  bind m k s = (r, s') ->
  (exists a s1, m s = (Ok a, s1) /\ k a s1 = (r, s')) \/
  (exists e, m s = (Raise e, s') /\ r = Raise e).
Proof.
  unfold bind. destruct (m s) as [[a|e] s1]; intros H.
  - left. eauto.
  - right. inversion H; subst. eauto.
Qed.

Lemma bind_Ok {A B} (m : M A) (k : A -> M B) s b s' :
  bind m k s = (Ok b, s') ->
  exists a s1, m s = (Ok a, s1) /\ k a s1 = (Ok b, s').
Proof.
  intros H. apply bind_cases in H as [H|(e & _ & ?)]; [done | congruence].
Qed.

Lemma bind_step {A B} (m : M A) (k : A -> M B) s a s1 :
  m s = (Ok a, s1) -> bind m k s = k a s1.
Proof. unfold bind. by intros ->. Qed.

Lemma bind_raise {A B} (m : M A) (k : A -> M B) s e s1 :
  m s = (Raise e, s1) -> bind m k s = (Raise e, s1).
Proof. unfold bind. by intros ->. Qed.

Lemma no_attribute_raises {A} v name s :
  exists msg, @no_attribute A v name s = (Raise (AttributeError msg), s).
Proof. unfold no_attribute, bind, get_heap, raise. eauto. Qed.

(** Reading an attribute is reading the store: it returns the field and
    changes nothing, or raises [AttributeError] and changes nothing. *)
Lemma getattr_spec v name s :
  match field (st_heap s) v name with
  | Some x => getattr v name s = (Ok x, s)
  | None => exists msg, getattr v name s = (Raise (AttributeError msg), s)
  end.
Proof.
  unfold getattr, field, bind, get_heap.
  destruct v; try apply no_attribute_raises.
  destruct (st_heap s !! l) as [[|mro attrs]|]; try apply no_attribute_raises.
  destruct (Dict.get name attrs); [done | apply no_attribute_raises].
Qed.

Lemma getattr_cases v name s r s' :
  getattr v name s = (r, s') ->
  s' = s /\
  ((exists x, r = Ok x /\ field (st_heap s) v name = Some x) \/
   (exists e, r = Raise e)).
Proof.
  intros H. pose proof (getattr_spec v name s) as Hs.
  destruct (field (st_heap s) v name) as [x|].
  - rewrite Hs in H. inversion H; subst. eauto.
  - destruct Hs as [msg Hs]. rewrite Hs in H. inversion H; subst. eauto.
Qed.

Lemma getattr_Ok v name s x s' :
  getattr v name s = (Ok x, s') ->
  s' = s /\ field (st_heap s) v name = Some x.
Proof.
  intros H. apply getattr_cases in H as [-> [(y & [= ->] & ?)|(e & ?)]]; done.
Qed.

Lemma getattr_field v name s x :
  field (st_heap s) v name = Some x -> getattr v name s = (Ok x, s).
Proof. intros H. pose proof (getattr_spec v name s) as Hs. by rewrite H in Hs. Qed.

Lemma alloc_spec o s :
  alloc o s =
    (Ok (VRef (length (st_heap s))),
     State (st_heap s ++ [o]) (st_clock s) (st_calls s)).
Proof. done. Qed.

Lemma truthy_spec v s : truthy v s = (Ok (truth (st_heap s) v), s).
Proof. done. Qed.

Lemma isinstance_spec v c s :
  isinstance v c s = (Ok (is_instance (st_heap s) v c), s).
Proof. done. Qed.

(** ** Facts about the store *)

Lemma extends_refl h : extends h h.
Proof. by unfold extends. Qed.

Lemma extends_app h ext : extends h (h ++ ext).
Proof. by apply prefix_app_r. Qed.

Lemma extends_trans h1 h2 h3 : extends h1 h2 -> extends h2 h3 -> extends h1 h3.
Proof. unfold extends. by intros ? ?; etrans. Qed.

Lemma extends_lookup h h' l (o : obj) :
  extends h h' -> h !! l = Some o -> h' !! l = Some o.
Proof. intros [ext ->] H. by apply lookup_app_l_Some. Qed.

Lemma extends_field h h' v name x :
  extends h h' -> field h v name = Some x -> field h' v name = Some x.
Proof.
  intros He. unfold field. destruct v; try done.
  destruct (h !! l) as [o|] eqn:E; [|done].
  by rewrite (extends_lookup _ _ _ _ He E).
Qed.

Lemma extends_items_of h h' v d :
  extends h h' -> items_of h v = Some d -> items_of h' v = Some d.
Proof.
  intros He. unfold items_of. destruct v; try done.
  destruct (h !! l) as [o|] eqn:E; [|done].
  by rewrite (extends_lookup _ _ _ _ He E).
Qed.

Lemma lookup_fresh (h ext : heap) i :
  (h ++ ext) !! (length h + i) = ext !! i.
Proof. induction h as [|o h IH]; simpl; done. Qed.

Lemma field_is_instance h v name x :
  field h v name = Some x ->
  exists l mro attrs, v = VRef l /\ h !! l = Some (OInstance mro attrs).
Proof.
  unfold field. destruct v; try done.
  destruct (h !! l) as [[|mro attrs]|] eqn:E; try done. eauto.
Qed.

(** An instance is always true: the classes at hand define neither
    [__bool__] nor [__len__]. *)
Lemma truth_instance h v name x : field h v name = Some x -> truth h v = true.
Proof.
  intros (l & mro & attrs & -> & E)%field_is_instance. simpl. by rewrite E.
Qed.

(** ** Merging configurations *)

Lemma unpack_into_dict acc v d s :
  items_of (st_heap s) v = Some d ->
  unpack_into acc v s = (Ok (Dict.update acc d), s).
Proof.
  unfold items_of, unpack_into, bind, get_heap. destruct v; try done.
  destruct (st_heap s !! l) as [[items|]|]; try done. by intros [= ->].
Qed.

Lemma merged_dict_spec a b name x y da db s :
  field (st_heap s) a name = Some x -> items_of (st_heap s) x = Some da ->
  field (st_heap s) b name = Some y -> items_of (st_heap s) y = Some db ->
  merged_dict a b name s =
    (Ok (VRef (length (st_heap s))),
     State (st_heap s ++ [ODict (Dict.unpack2 da db)]) (st_clock s) (st_calls s)).
Proof.
  intros Hx Hda Hy Hdb. unfold merged_dict.
  rewrite (bind_step _ _ _ _ _ (getattr_field _ _ _ _ Hx)).
  rewrite (bind_step _ _ _ _ _ (unpack_into_dict [] _ _ _ Hda)).
  rewrite (bind_step _ _ _ _ _ (getattr_field _ _ _ _ Hy)).
  rewrite (bind_step _ _ _ _ _ (unpack_into_dict _ _ _ _ Hdb)).
  apply alloc_spec.
Qed.

Lemma overrides_unpack2 a b :
  wf_dict a -> wf_dict b -> overrides a b (Dict.unpack2 a b).
Proof.
  unfold wf_dict, Dict.unpack2. intros Ha Hb.
  rewrite DictFacts.update_empty by done. repeat split.
  - by apply DictFacts.keys_update.
  - by apply DictFacts.keys_update.
  - intros k v. by apply DictFacts.get_update_present.
  - intros k. by apply DictFacts.get_update_absent.
Qed.

Lemma wf_unpack2 a b : wf_dict a -> wf_dict (Dict.unpack2 a b).
Proof.
  unfold wf_dict, Dict.unpack2. intros Ha.
  rewrite DictFacts.update_empty by done. by apply DictFacts.wf_update.
Qed.

Lemma merge_configs_spec self base override eb mb eo mo s :
  TestConfig_at (st_heap s) base eb mb ->
  TestConfig_at (st_heap s) override eo mo ->
  TestRunner_merge_configs self base override s =
    (Ok (VRef (S (S (length (st_heap s))))),
     State (st_heap s ++
              [ODict (Dict.unpack2 eb eo); ODict (Dict.unpack2 mb mo);
               merged_TestConfig (st_heap s)])
           (st_clock s) (st_calls s)).
Proof.
  intros [_ (xb & Hxb & Hdb) (yb & Hyb & Heb) _ _]
         [_ (xo & Hxo & Hdo) (yo & Hyo & Heo) _ _].
  unfold TestRunner_merge_configs.
  rewrite (bind_step _ _ _ _ _ (truthy_spec _ _)).
  rewrite (truth_instance _ _ _ _ Hxo). cbn [negb].
  rewrite (bind_step _ _ _ _ _
             (merged_dict_spec _ _ _ _ _ _ _ _ Hxb Hdb Hxo Hdo)).
  set (s1 := State _ _ _).
  assert (extends (st_heap s) (st_heap s1)) as He by apply extends_app.
  rewrite (bind_step _ _ _ _ _
             (merged_dict_spec _ _ "metric_config" _ _ _ _ s1
                (extends_field _ _ _ _ _ He Hyb) (extends_items_of _ _ _ _ He Heb)
                (extends_field _ _ _ _ _ He Hyo) (extends_items_of _ _ _ _ He Heo))).
  unfold new_TestConfig. rewrite alloc_spec. subst s1. simpl.
  rewrite !length_app, <- !app_assoc. simpl.
  unfold merged_TestConfig. by rewrite !Nat.add_1_r.
Qed.

(** ** Quiet actions *)

Create HintDb quiet.

Lemma quiet_step_refl s : quiet_step s s.
Proof. split; [apply extends_refl | done]. Qed.

Lemma quiet_step_trans s1 s2 s3 :
  quiet_step s1 s2 -> quiet_step s2 s3 -> quiet_step s1 s3.
Proof.
  intros (H1 & T1) (H2 & T2). split; [by eapply extends_trans|].
  by rewrite T2.
Qed.

Lemma quiet_ret {A} (a : A) : quiet (ret a).
Proof. intros s. apply quiet_step_refl. Qed.

Lemma quiet_raise {A} e : quiet (@raise A e).
Proof. intros s. apply quiet_step_refl. Qed.

Lemma quiet_bind {A B} (m : M A) (k : A -> M B) :
  quiet m -> (forall a, quiet (k a)) -> quiet (bind m k).
Proof.
  intros Hm Hk s. unfold bind. specialize (Hm s).
  destruct (m s) as [[a|e] s1]; simpl in *; [|done].
  eapply quiet_step_trans; [done | apply Hk].
Qed.

Lemma quiet_get_heap : quiet get_heap.
Proof. intros s. apply quiet_step_refl. Qed.

Lemma quiet_alloc o : quiet (alloc o).
Proof. intros s. rewrite alloc_spec. split; [apply extends_app | done]. Qed.

Lemma quiet_no_attribute {A} v name : quiet (@no_attribute A v name).
Proof.
  intros s. destruct (@no_attribute_raises A v name s) as [msg ->].
  apply quiet_step_refl.
Qed.

Lemma quiet_getattr v name : quiet (getattr v name).
Proof.
  intros s. destruct (getattr v name s) as [r s'] eqn:E.
  apply getattr_cases in E as [-> _]. apply quiet_step_refl.
Qed.

Lemma quiet_truthy v : quiet (truthy v).
Proof. intros s. apply quiet_step_refl. Qed.

Lemma quiet_isinstance v c : quiet (isinstance v c).
Proof. intros s. apply quiet_step_refl. Qed.

Lemma quiet_class_name_of v : quiet (class_name_of v).
Proof. intros s. apply quiet_step_refl. Qed.

Lemma quiet_if {A} (b : bool) (m1 m2 : M A) :
  quiet m1 -> quiet m2 -> quiet (if b then m1 else m2).
Proof. by destruct b. Qed.

#[local] Hint Resolve quiet_ret quiet_raise quiet_get_heap quiet_alloc
  quiet_no_attribute quiet_getattr quiet_truthy quiet_isinstance
  quiet_class_name_of quiet_if : quiet.

Ltac quiet_tac :=
  repeat first
    [ solve [eauto with quiet]
    | apply quiet_bind; [|intros ?]
    | match goal with
      | |- quiet (match ?x with _ => _ end) => destruct x
      end ].

Lemma quiet_unpack_into acc v : quiet (unpack_into acc v).
Proof. unfold unpack_into. quiet_tac. Qed.
#[local] Hint Resolve quiet_unpack_into : quiet.

Lemma quiet_merged_dict a b name : quiet (merged_dict a b name).
Proof. unfold merged_dict. quiet_tac. Qed.
#[local] Hint Resolve quiet_merged_dict : quiet.

(** Whatever it returns, the merge only adds objects to the store. *)
Lemma quiet_merge_configs self base override :
  quiet (TestRunner_merge_configs self base override).
Proof. unfold TestRunner_merge_configs, new_TestConfig. quiet_tac. Qed.

Lemma quiet_or_empty_dict v : quiet (or_empty_dict v).
Proof. unfold or_empty_dict. quiet_tac. Qed.
#[local] Hint Resolve quiet_merge_configs quiet_or_empty_dict : quiet.

(** ** Argument binding *)

Lemma bind_keywords_length kw ps vs :
  bind_keywords ps kw = Some vs -> length vs = length ps.
Proof.
  revert vs. induction ps as [|p ps IH]; simpl; intros vs.
  - by intros [= <-].
  - destruct (Dict.get p kw); [|done].
    destruct (bind_keywords ps kw) as [ws|]; [|done].
    intros [= <-]. simpl. f_equal. by apply IH.
Qed.

Lemma bind_params_length ps args kw vs :
  bind_params ps args kw = Some vs -> length vs = length ps.
Proof.
  unfold bind_params.
  destruct (length args <=? length ps)%nat eqn:Hle; simpl; [|done].
  apply Nat.leb_le in Hle.
  destruct (forallb _ _); [|done].
  destruct (bind_keywords _ kw) as [ws|] eqn:Ew; [|done].
  intros [= <-]. rewrite length_app, (bind_keywords_length _ _ _ Ew), length_drop.
  lia.
Qed.

(** ** Dispatch and the anatomy of [run] *)

Section PackageFacts.

Variable user_method : class_name -> string -> option user_code.
Variable wall_clock : nat -> Z.
Variable isoformat : Z -> string.

Local Abbreviation run := (TestRunner_run user_method wall_clock isoformat).
Local Abbreviation get_metadata := (TestRunner_get_metadata wall_clock isoformat).

Lemma class_method_origin c name f :
  class_method user_method c name = Some f -> origin user_method f.
Proof.
  unfold class_method.
  destruct (String.eqb c "PromptExecutorBase").
  { destruct (String.eqb name "execute"); [|done].
    intros [= <-]. by apply origin_execute. }
  destruct (String.eqb c "MetricEvaluatorBase").
  { destruct (String.eqb name "evaluate"); [|done].
    intros [= <-]. by apply origin_evaluate. }
  destruct (user_method c name) as [u|] eqn:E; [|done].
  intros [= <-]. by eapply origin_user.
Qed.

Lemma find_method_origin mro name f :
  find_method user_method mro name = Some f -> origin user_method f.
Proof.
  induction mro as [|c mro IH]; simpl; [done|].
  destruct (class_method user_method c name) as [g|] eqn:E; [|done].
  intros [= <-]. by eapply class_method_origin.
Qed.

Lemma signature_error_raises {A} name s :
  exists msg, @signature_error A name s = (Raise (TypeError msg), s).
Proof. unfold signature_error, raise. eauto. Qed.

(** The abstract [execute] raises and changes nothing.  A call that fits the
    signature gets [NotImplementedError], any other call [TypeError]. *)
Lemma base_execute_raises self args kw s :
  exists e, PromptExecutorBase_execute_method self args kw s = (Raise e, s) /\
    (is_Some (bind_params execute_params args kw) -> e = NotImplementedError).
Proof.
  unfold PromptExecutorBase_execute_method.
  destruct (bind_params execute_params args kw) as [vs|] eqn:E.
  - apply bind_params_length in E.
    destruct vs as [|a [|b [|c vs]]]; try done. by exists NotImplementedError.
  - destruct (@signature_error_raises pyval "execute" s) as [msg ->].
    eexists. split; [done | by intros [? [=]]].
Qed.

Lemma base_evaluate_raises self args kw s :
  exists e, MetricEvaluatorBase_evaluate_method self args kw s = (Raise e, s) /\
    (is_Some (bind_params evaluate_params args kw) -> e = NotImplementedError).
Proof.
  unfold MetricEvaluatorBase_evaluate_method.
  destruct (bind_params evaluate_params args kw) as [vs|] eqn:E.
  - apply bind_params_length in E.
    destruct vs as [|a [|b [|c [|d [|e [|f [|g vs]]]]]]]; try done.
    by exists NotImplementedError.
  - destruct (@signature_error_raises pyval "evaluate" s) as [msg ->].
    eexists. split; [done | by intros [? [=]]].
Qed.


Lemma quiet_datetime_now : quiet (datetime_now wall_clock).
Proof. intros s. split; [apply extends_refl | done]. Qed.

Lemma quiet_get_metadata self : quiet (get_metadata self).
Proof.
  unfold TestRunner_get_metadata. pose proof quiet_datetime_now. quiet_tac.
Qed.

(** A method body, wherever it comes from, records nothing in the trace. *)
Lemma method_calls f self args kw s :
  origin user_method f -> st_calls (f self args kw s).2 = st_calls s.
Proof.
  intros [->| ->|c name u _ ->].
  - by destruct (base_execute_raises self args kw s) as (e & -> & _).
  - by destruct (base_evaluate_raises self args kw s) as (e & -> & _).
  - unfold run_user. by destruct (u self args kw (st_heap s)).
Qed.

Lemma getmethod_cases recv name s r s' :
  getmethod user_method recv name s = (r, s') ->
  s' = s /\
  ((exists f, r = Ok (Bound recv name f) /\
      find_method user_method (mro_of (st_heap s) recv) name = Some f) \/
   (exists e, r = Raise e)).
Proof.
  unfold getmethod, bind, get_heap.
  destruct (find_method user_method _ name) as [f|]; simpl.
  - intros [= <- <-]. eauto.
  - destruct (@no_attribute_raises bound_method recv name s) as [msg ->].
    intros [= <- <-]. eauto.
Qed.

Lemma getmethod_Ok recv name s b s' :
  getmethod user_method recv name s = (Ok b, s') ->
  s' = s /\ exists f, b = Bound recv name f /\
    find_method user_method (mro_of (st_heap s) recv) name = Some f.
Proof.
  intros H.
  apply getmethod_cases in H as [-> [(f & [= ->] & ?)|(e & ?)]]; [|done].
  eauto.
Qed.

Lemma getmethod_found recv name s f :
  find_method user_method (mro_of (st_heap s) recv) name = Some f ->
  getmethod user_method recv name s = (Ok (Bound recv name f), s).
Proof. unfold getmethod, bind, get_heap. simpl. by intros ->. Qed.

Lemma getmethod_origin recv name s b s1 :
  getmethod user_method recv name s = (Ok b, s1) ->
  origin user_method (bm_func b).
Proof.
  intros (-> & f & -> & Hf)%getmethod_Ok. by eapply find_method_origin.
Qed.

Lemma quiet_getmethod recv name : quiet (getmethod user_method recv name).
Proof.
  intros s. destruct (getmethod user_method recv name s) as [r s1] eqn:E.
  apply getmethod_cases in E as [-> _]. apply quiet_step_refl.
Qed.

(** A call ends where its body ends, with one more entry in the trace. *)
Lemma call_method_cases b args kw s r t :
  call_method b args kw s = (r, t) ->
  exists s',
    bm_func b (bm_self b) args kw s = (r, s') /\
    t = recorded s'
          (Call (bm_self b) (bm_name b) args kw (st_heap s) r (st_heap s')).
Proof.
  unfold call_method. destruct (bm_func b (bm_self b) args kw s) as [r' s'].
  intros [= <- <-]. eauto.
Qed.

Lemma call_method_body recv name f args kw s r s' :
  f recv args kw s = (r, s') ->
  call_method (Bound recv name f) args kw s
  = (r, recorded s' (Call recv name args kw (st_heap s) r (st_heap s'))).
Proof. unfold call_method. simpl. by intros ->. Qed.

(** A run returns exactly when its steps do. *)
Lemma run_ok_iff self input_data evaluation_params override_config s res s' :
  run self input_data evaluation_params override_config s = (Ok res, s') <->
  run_ok user_method wall_clock isoformat
    self input_data evaluation_params override_config s res s'.
Proof.
  split.
  - unfold TestRunner_run. intros H.
    apply bind_Ok in H as (base & ? & [-> Hbase]%getattr_Ok & H).
    apply bind_Ok in H as (eff & s1 & Hmerge & H).
    apply bind_Ok in H as (executor & ? & [-> Hex]%getattr_Ok & H).
    apply bind_Ok in H as (bm & ? & (-> & f & -> & Hf)%getmethod_Ok & H).
    apply bind_Ok in H as (ec & ? & [-> Hec]%getattr_Ok & H).
    apply bind_Ok in H as (out & ? & (s2 & Hcall & ->)%call_method_cases & H).
    cbn [bm_self bm_name bm_func] in Hcall, H.
    apply bind_Ok in H as (evaluator & ? & [-> Hev]%getattr_Ok & H).
    apply bind_Ok in H as (bm & ? & (-> & g & -> & Hg)%getmethod_Ok & H).
    apply bind_Ok in H as (executor' & ? & [-> Hex']%getattr_Ok & H).
    apply bind_Ok in H as (ec' & ? & [-> Hec']%getattr_Ok & H).
    apply bind_Ok in H as (mc & ? & [-> Hmc]%getattr_Ok & H).
    apply bind_Ok in H as (ep & s3 & Hep & H).
    apply bind_Ok in H as (mres & ? & (s4 & Hcall2 & ->)%call_method_cases & H).
    cbn [bm_self bm_name bm_func] in Hcall2, H.
    apply bind_Ok in H as (meta & s5 & Hmeta & H).
    unfold bind, datetime_now, new_TestResult in H. rewrite alloc_spec in H.
    simpl in H. injection H as <- <-.
    eapply RunOk; eauto.
  - intros [base eff s1 executor f ec out s2 evaluator g executor' ec' mc ep s3
             mres s4 meta s5 Hbase Hmerge Hex Hf Hec Hcall c1 Hev Hg Hex' Hec'
             Hmc Hep kw Hcall2 c2 Hmeta].
    unfold TestRunner_run.
    rewrite (bind_step _ _ _ _ _ (getattr_field _ _ _ _ Hbase)).
    rewrite (bind_step _ _ _ _ _ Hmerge).
    rewrite (bind_step _ _ _ _ _ (getattr_field _ _ _ _ Hex)).
    rewrite (bind_step _ _ _ _ _ (getmethod_found _ _ _ _ Hf)).
    rewrite (bind_step _ _ _ _ _ (getattr_field _ _ _ _ Hec)).
    rewrite (bind_step _ _ _ _ _ (call_method_body _ "execute" _ _ _ _ _ _ Hcall)).
    fold c1.
    rewrite (bind_step _ _ _ _ _
               (getattr_field self "evaluator" (recorded s2 c1) _ Hev)).
    rewrite (bind_step _ _ _ _ _
               (getmethod_found evaluator "evaluate" (recorded s2 c1) _ Hg)).
    rewrite (bind_step _ _ _ _ _
               (getattr_field self "executor" (recorded s2 c1) _ Hex')).
    rewrite (bind_step _ _ _ _ _
               (getattr_field eff "executor_config" (recorded s2 c1) _ Hec')).
    rewrite (bind_step _ _ _ _ _
               (getattr_field eff "metric_config" (recorded s2 c1) _ Hmc)).
    rewrite (bind_step _ _ _ _ _ Hep).
    rewrite (bind_step _ _ _ _ _
               (call_method_body _ "evaluate" _ _ _ _ _ _ Hcall2)).
    fold c2.
    rewrite (bind_step _ _ _ _ _ Hmeta).
    done.
Qed.

Lemma or_empty_dict_spec v s :
  or_empty_dict v s =
    if truth (st_heap s) v then (Ok v, s)
    else (Ok (VRef (length (st_heap s))),
          State (st_heap s ++ [ODict []]) (st_clock s) (st_calls s)).
Proof.
  unfold or_empty_dict. rewrite (bind_step _ _ _ _ _ (truthy_spec _ _)).
  by destruct (truth (st_heap s) v).
Qed.

(** *** How the store evolves along the calls *)

Lemma threads_extends_l h0 h cs h' :
  extends h0 h -> threads h cs h' -> threads h0 cs h'.
Proof.
  destruct cs as [|c cs]; simpl.
  - apply extends_trans.
  - intros He [Hc Hrest]. split; [by eapply extends_trans | done].
Qed.

Lemma threads_app h cs1 h1 cs2 h2 :
  threads h cs1 h1 -> threads h1 cs2 h2 -> threads h (cs1 ++ cs2) h2.
Proof.
  revert h. induction cs1 as [|c cs1 IH]; simpl; intros h.
  - apply threads_extends_l.
  - intros [Hc H1] H2. split; [done | by apply IH].
Qed.

(** What every call leaves alone is left alone along the whole thread. *)
Lemma threads_keep h cs h' l o :
  threads h cs h' ->
  Forall (call_keeps l o) cs ->
  h !! l = Some o -> h' !! l = Some o.
Proof.
  revert h. induction cs as [|c cs IH]; simpl; intros h.
  - intros He _. by apply extends_lookup.
  - intros [Hc Hrest] [Hkeep Hall]%Forall_cons Hl.
    apply (IH (heap_after c)); [done..|].
    apply Hkeep. by eapply extends_lookup.
Qed.

Lemma quiet_threaded {A} (m : M A) : quiet m -> threaded m.
Proof.
  intros Hq s. destruct (Hq s) as [He Hc]. exists [].
  by rewrite Hc, app_nil_r.
Qed.

Lemma threaded_bind {A B} (m : M A) (k : A -> M B) (P : A -> Prop) :
  threaded m ->
  (forall s a s1, m s = (Ok a, s1) -> P a) ->
  (forall a, P a -> threaded (k a)) ->
  threaded (bind m k).
Proof.
  intros Hm HP Hk s. unfold bind. destruct (Hm s) as (cs1 & Hc1 & Ht1).
  destruct (m s) as [[a|e] s1] eqn:E; simpl in *; [|by exists cs1].
  destruct (Hk a (HP _ _ _ E) s1) as (cs2 & Hc2 & Ht2).
  exists (cs1 ++ cs2). split.
  - by rewrite Hc2, Hc1, app_assoc.
  - by eapply threads_app.
Qed.

Lemma threaded_call_method b args kw :
  origin user_method (bm_func b) -> threaded (call_method b args kw).
Proof.
  intros Ho s.
  destruct (call_method b args kw s) as [r t] eqn:E.
  apply call_method_cases in E as (s' & Hbody & ->).
  pose proof (method_calls _ (bm_self b) args kw s Ho) as Hcalls.
  rewrite Hbody in Hcalls. simpl in *.
  eexists [_]. split; [by rewrite Hcalls|].
  simpl. split; apply extends_refl.
Qed.

(** The store of a run evolves along its calls: the runner itself only adds
    objects; whatever else changes, changes during a call. *)
Lemma run_threaded self input_data evaluation_params override_config :
  threaded (run self input_data evaluation_params override_config).
Proof.
  unfold TestRunner_run.
  pose proof quiet_getmethod. pose proof quiet_get_metadata.
  pose proof quiet_datetime_now.
  assert (forall a b c d e, quiet (new_TestResult a b c d e))
    by (intros; unfold new_TestResult; quiet_tac).
  assert (forall A (m : M A), quiet m -> threaded m) as Q
    by (intros; by apply quiet_threaded).
  repeat first
    [ solve [apply Q; quiet_tac]
    | apply (threaded_bind (getmethod user_method _ _) _
               (fun b => origin user_method (bm_func b)));
      [ apply Q; quiet_tac
      | intros ? ? ?; apply getmethod_origin
      | intros ? ? ]
    | apply (threaded_bind (call_method _ _ _) _ (fun _ => True));
      [ by apply threaded_call_method | done | intros ? _ ]
    | apply (threaded_bind _ _ (fun _ => True));
      [ apply Q; quiet_tac | done | intros ? _ ] ].
Qed.

Lemma new_calls_app s s' cs :
  st_calls s' = st_calls s ++ cs -> new_calls s s' = cs.
Proof. unfold new_calls. intros ->. by rewrite drop_app_length. Qed.

(** An object that every call of a run left alone is, after the run, where
    and what it was before. *)
Lemma run_frame self input_data evaluation_params override_config s r s' l o :
  run self input_data evaluation_params override_config s = (r, s') ->
  Forall (call_keeps l o) (new_calls s s') ->
  st_heap s !! l = Some o -> st_heap s' !! l = Some o.
Proof.
  intros Hrun Hkeep Hl.
  destruct (run_threaded self input_data evaluation_params override_config s)
    as (cs & Hcalls & Hthreads).
  rewrite Hrun in Hcalls, Hthreads. simpl in *.
  rewrite (new_calls_app _ _ _ Hcalls) in Hkeep.
  by eapply threads_keep.
Qed.

(** The calls a run makes, whatever its outcome: none, or [execute] alone,
    or [execute] and then [evaluate], the latter with the value of
    [evaluation_params or {}] under the keyword [evaluation_params]. *)
Lemma run_calls self input_data evaluation_params override_config s r s' :
  run self input_data evaluation_params override_config s = (r, s') ->
  new_calls s s' = [] \/
  (exists c1, new_calls s s' = [c1] /\ meth c1 = "execute") \/
  (exists c1 c2 s2 params s3,
     new_calls s s' = [c1; c2] /\ meth c1 = "execute" /\ meth c2 = "evaluate" /\
     or_empty_dict evaluation_params s2 = (Ok params, s3) /\
     at_heap c2 = st_heap s3 /\
     Dict.get "evaluation_params" (kwargs c2) = Some params).
Proof.
  assert (forall t, st_calls t = st_calls s -> new_calls s t = []) as Exit0.
  { intros t Ht. apply new_calls_app. by rewrite app_nil_r. }
  unfold TestRunner_run. intros H.
  apply bind_cases in H as [(base & ? & [-> _]%getattr_cases & H)
                           |(e & [-> _]%getattr_cases & _)];
    [|left; by apply Exit0].
  pose proof (quiet_merge_configs self base override_config s) as [_ T1].
  apply bind_cases in H as [(eff & s1 & Hm & H)|(e & Hm & _)];
    rewrite Hm in T1; simpl in T1; [|left; by apply Exit0].
  apply bind_cases in H as [(executor & ? & [-> _]%getattr_cases & H)
                           |(e & [-> _]%getattr_cases & _)];
    [|left; by apply Exit0].
  apply bind_cases in H as [(bm & ? & [-> Hb]%getmethod_cases & H)
                           |(e & [-> _]%getmethod_cases & _)];
    [|left; by apply Exit0].
  destruct Hb as [(f & [= ->] & Hf)|(e & [=])].
  apply bind_cases in H as [(ec & ? & [-> _]%getattr_cases & H)
                           |(e & [-> _]%getattr_cases & _)];
    [|left; by apply Exit0].
  (* the call to [execute] *)
  assert (forall r1 t, call_method (Bound executor "execute" f)
            [input_data; ec] [] s1 = (r1, t) ->
            exists c1, st_calls t = st_calls s ++ [c1] /\ meth c1 = "execute")
    as T2.
  { intros r1 t (s2 & Hbody & ->)%call_method_cases.
    pose proof (method_calls f executor [input_data; ec] [] s1
                  (find_method_origin _ _ _ Hf)) as Hcalls.
    simpl in Hbody. rewrite Hbody in Hcalls. simpl in *.
    eexists. split; [by rewrite Hcalls, T1 | done]. }
  assert (forall t c1, st_calls t = st_calls s ++ [c1] -> meth c1 = "execute" ->
            exists c1, new_calls s t = [c1] /\ meth c1 = "execute") as Exit1.
  { intros t c1 Ht Hm1. exists c1. split; [by apply new_calls_app | done]. }
  apply bind_cases in H as [(out & t2 & Hc & H)|(e & Hc & _)];
    apply T2 in Hc as (c1 & Hc & Hm1); [|right; left; by eapply Exit1].
  apply bind_cases in H as [(evaluator & ? & [-> _]%getattr_cases & H)
                           |(e & [-> _]%getattr_cases & _)];
    [|right; left; by eapply Exit1].
  apply bind_cases in H as [(bm & ? & [-> Hb]%getmethod_cases & H)
                           |(e & [-> _]%getmethod_cases & _)];
    [|right; left; by eapply Exit1].
  destruct Hb as [(g & [= ->] & Hg)|(e & [=])].
  apply bind_cases in H as [(executor' & ? & [-> _]%getattr_cases & H)
                           |(e & [-> _]%getattr_cases & _)];
    [|right; left; by eapply Exit1].
  apply bind_cases in H as [(ec' & ? & [-> _]%getattr_cases & H)
                           |(e & [-> _]%getattr_cases & _)];
    [|right; left; by eapply Exit1].
  apply bind_cases in H as [(mc & ? & [-> _]%getattr_cases & H)
                           |(e & [-> _]%getattr_cases & _)];
    [|right; left; by eapply Exit1].
  pose proof (quiet_or_empty_dict evaluation_params t2) as [_ T3].
  apply bind_cases in H as [(params & s3 & Hp & H)|(e & Hp & _)];
    rewrite Hp in T3; simpl in T3;
    [|right; left; eapply Exit1; [|done]; congruence].
  (* the call to [evaluate] *)
  set (kw := [("executor", executor'); ("input_data", input_data);
              ("base_output", out); ("executor_config", ec');
              ("test_config", mc); ("evaluation_params", params)]) in *.
  assert (forall r2 t, call_method (Bound evaluator "evaluate" g) [] kw s3
                       = (r2, t) ->
            exists c2, st_calls t = st_calls s ++ [c1; c2] /\
              meth c2 = "evaluate" /\ at_heap c2 = st_heap s3 /\ kwargs c2 = kw)
    as T4.
  { intros r2 t (s4 & Hbody & ->)%call_method_cases.
    pose proof (method_calls g evaluator [] kw s3
                  (find_method_origin _ _ _ Hg)) as Hcalls.
    simpl in Hbody. rewrite Hbody in Hcalls. simpl in *.
    eexists.
    split; [rewrite Hcalls, T3, Hc, <- app_assoc; simpl; reflexivity | done]. }
  assert (forall t c2, st_calls t = st_calls s ++ [c1; c2] ->
            meth c2 = "evaluate" -> at_heap c2 = st_heap s3 -> kwargs c2 = kw ->
            exists c1 c2 s2 params s3,
              new_calls s t = [c1; c2] /\ meth c1 = "execute" /\
              meth c2 = "evaluate" /\
              or_empty_dict evaluation_params s2 = (Ok params, s3) /\
              at_heap c2 = st_heap s3 /\
              Dict.get "evaluation_params" (kwargs c2) = Some params) as Done.
  { intros t c2 Ht Hm2 Hat Hkw. exists c1, c2, t2, params, s3.
    split; [by apply new_calls_app|]. by rewrite Hkw. }
  apply bind_cases in H as [(mres & t4 & Hc2 & H)|(e & Hc2 & _)];
    apply T4 in Hc2 as (c2 & Hc2 & Hm2 & Hat & Hkw);
    [|right; right; by eapply Done].
  pose proof (quiet_get_metadata self t4) as [_ T5].
  apply bind_cases in H as [(meta & s5 & Hmeta & H)|(e & Hmeta & _)];
    rewrite Hmeta in T5; simpl in T5;
    [|right; right; eapply Done; [|done..]; congruence].
  right; right. eapply Done; [|done..].
  unfold bind, datetime_now, new_TestResult in H. rewrite alloc_spec in H.
  simpl in H. injection H as _ <-. simpl. congruence.
Qed.

(** *** Facts read off a run that returned *)

Lemma field_last h mro attrs name :
  field (h ++ [OInstance mro attrs]) (VRef (length h)) name
  = Dict.get name attrs.
Proof. unfold field. by rewrite list_lookup_middle. Qed.

(** The trace, the arguments and the result of a run that returned. *)
Lemma run_ok_facts self input_data evaluation_params override_config s res s' :
  run_ok user_method wall_clock isoformat
    self input_data evaluation_params override_config s res s' ->
  exists base effective s1 executor execute executor_config base_output s2
         c1 c2,
    field (st_heap s) self "config" = Some base /\
    TestRunner_merge_configs self base override_config s = (Ok effective, s1) /\
    field (st_heap s1) self "executor" = Some executor /\
    find_method user_method (mro_of (st_heap s1) executor) "execute"
      = Some execute /\
    field (st_heap s1) effective "executor_config" = Some executor_config /\
    execute executor [input_data; executor_config] [] s1
      = (Ok base_output, s2) /\
    c1 = Call executor "execute" [input_data; executor_config] []
           (st_heap s1) (Ok base_output) (st_heap s2) /\
    new_calls s s' = [c1; c2] /\
    meth c2 = "evaluate" /\
    field (st_heap s2) self "evaluator" = Some (callee c2) /\
    Dict.get "base_output" (kwargs c2) = Some base_output /\
    field (st_heap s') res "executor_output" = Some base_output /\
    field (st_heap s') res "configs_used" = Some effective.
Proof.
  intros [base eff s1 executor f ec out s2 evaluator g executor' ec' mc ep s3
            mres s4 meta s5 Hbase Hmerge Hex Hf Hec Hcall c1 Hev Hg Hex' Hec'
            Hmc Hep kw Hcall2 c2 Hmeta].
  exists base, eff, s1, executor, f, ec, out, s2, c1, c2.
  repeat split; try done.
  - apply new_calls_app. simpl.
    pose proof (quiet_merge_configs self base override_config s) as [_ T1].
    rewrite Hmerge in T1.
    pose proof (method_calls f executor [input_data; ec] [] s1
                  (find_method_origin _ _ _ Hf)) as T2.
    rewrite Hcall in T2.
    pose proof (quiet_or_empty_dict evaluation_params (recorded s2 c1))
      as [_ T3].
    rewrite Hep in T3.
    pose proof (method_calls g evaluator [] kw s3
                  (find_method_origin _ _ _ Hg)) as T4.
    rewrite Hcall2 in T4.
    pose proof (quiet_get_metadata self (recorded s4 c2)) as [_ T5].
    rewrite Hmeta in T5. simpl in *.
    rewrite T5, T4, T3, T2, T1. by rewrite <- app_assoc.
  - simpl. by rewrite list_lookup_middle.
  - simpl. by rewrite list_lookup_middle.
Qed.

(** ** The claims about merging *)

(** C1: for a base and an override [TestConfig], [_merge_configs] returns a
    [TestConfig] whose [executor_config] has exactly the keys of the base's
    and of the override's, with the override's value on every key the override
    has, and the same independently for [metric_config].  The merge is
    shallow: the merged value under an overridden key is the override's value
    itself, and the store only grows by the two merged dictionaries and the
    new [TestConfig], so no nested mapping is built or touched.  A run with
    that override hands the merged [executor_config] to [execute] and returns
    the merged configuration as [configs_used]. *)
Theorem merge_configs_overrides_shallowly
    self base override eb mb eo mo s :
  TestConfig_at (st_heap s) base eb mb ->
  TestConfig_at (st_heap s) override eo mo ->
  exists effective em mm s1,
    TestRunner_merge_configs self base override s = (Ok effective, s1) /\
    TestConfig_at (st_heap s1) effective em mm /\
    overrides eb eo em /\
    overrides mb mo mm /\
    st_heap s1 =
      st_heap s ++ [ODict em; ODict mm; merged_TestConfig (st_heap s)] /\
    forall input_data evaluation_params res s',
      field (st_heap s) self "config" = Some base ->
      run self input_data evaluation_params override s = (Ok res, s') ->
      field (st_heap s') res "configs_used" = Some effective /\
      exists c1 c2 x,
        new_calls s s' = [c1; c2] /\ meth c1 = "execute" /\
        args c1 = [input_data; x] /\ items_of (at_heap c1) x = Some em.
Proof.
  intros Hb Ho.
  pose proof (merge_configs_spec self base override eb mb eo mo s Hb Ho) as Hm.
  set (h := st_heap s) in *.
  eexists _, (Dict.unpack2 eb eo), (Dict.unpack2 mb mo), _.
  split; [exact Hm|]. simpl.
  assert (TestConfig_at
            (h ++ [ODict (Dict.unpack2 eb eo); ODict (Dict.unpack2 mb mo);
                   merged_TestConfig h])
            (VRef (S (S (length h)))) (Dict.unpack2 eb eo) (Dict.unpack2 mb mo))
    as Heff.
  { destruct Hb as [_ _ _ Hwe Hwm].
    pose proof (lookup_fresh h [ODict (Dict.unpack2 eb eo);
                  ODict (Dict.unpack2 mb mo); merged_TestConfig h]) as Hl.
    pose proof (Hl 0) as Hl0. pose proof (Hl 1) as Hl1.
    pose proof (Hl 2) as Hl2.
    rewrite Nat.add_0_r in Hl0. rewrite Nat.add_1_r in Hl1.
    replace (length h + 2) with (S (S (length h))) in Hl2 by lia.
    simpl in Hl0, Hl1, Hl2.
    split.
    - unfold is_instance. simpl. by rewrite Hl2.
    - exists (VRef (length h)). unfold field, items_of. by rewrite Hl2, Hl0.
    - exists (VRef (S (length h))). unfold field, items_of. by rewrite Hl2, Hl1.
    - by apply wf_unpack2.
    - by apply wf_unpack2. }
  split; [exact Heff|].
  split; [apply overrides_unpack2; by destruct Hb, Ho|].
  split; [apply overrides_unpack2; by destruct Hb, Ho|].
  split; [done|].
  intros input_data evaluation_params res s' Hcfg Hrun. subst h.
  apply run_ok_iff, run_ok_facts in Hrun
    as (base' & eff & s1 & executor & f & ec & out & s2 & c1 & c2 & Hbase'
        & Hmerge & _ & _ & Hec & _ & -> & Hcalls & _ & _ & _ & _ & Hused).
  rewrite Hcfg in Hbase'. injection Hbase' as <-.
  rewrite Hm in Hmerge. injection Hmerge as <- <-.
  split; [done|].
  eexists _, c2, ec. split; [exact Hcalls|]. split; [done|]. split; [done|].
  cbn [at_heap st_heap] in *.
  destruct Heff as [_ (x & Hx & Hitems) _ _ _].
  rewrite Hec in Hx. by injection Hx as <-.
Qed.

(** ** The claims about [run] *)

Lemma merge_configs_none self base s :
  TestRunner_merge_configs self base VNone s = (Ok base, s).
Proof. done. Qed.

Lemma TestConfig_at_stable h h' v ec mc :
  TestConfig_at h v ec mc ->
  (forall l o, l ∈ config_locs h v -> h !! l = Some o -> h' !! l = Some o) ->
  TestConfig_at h' v ec mc.
Proof.
  intros [Hi (x & Hx & Hec) (y & Hy & Hmc) Hwe Hwm] Hkeep.
  destruct (field_is_instance _ _ _ _ Hx) as (l & mro & attrs & -> & Hl).
  assert (h' !! l = Some (OInstance mro attrs)) as Hl'.
  { apply Hkeep; [|done]. simpl. left. }
  assert (forall z d name, field h (VRef l) name = Some z ->
            items_of h z = Some d ->
            z ∈ (fun a => VRef a) <$> config_locs h (VRef l) ->
            field h' (VRef l) name = Some z /\ items_of h' z = Some d) as Hsame.
  { intros z d name Hz Hd Hin. split.
    - unfold field in *. by rewrite Hl' , <- Hz, Hl.
    - unfold items_of in *. destruct z as [| | | | | | | |a]; try done.
      destruct (h !! a) as [[items|]|] eqn:Ea; try done.
      apply list_elem_of_fmap in Hin as (a' & [= <-] & Hin).
      by rewrite (Hkeep _ _ Hin Ea). }
  assert (forall z d, items_of h z = Some d -> exists a, z = VRef a) as Hloc.
  { intros z d. unfold items_of. destruct z; try done. eauto. }
  split; [| | |done|done].
  - unfold is_instance in *. simpl in *. by rewrite Hl'; rewrite Hl in Hi.
  - exists x. apply Hsame; [done..|].
    destruct (Hloc _ _ Hec) as (a & ->). apply list_elem_of_fmap_2.
    unfold config_locs. rewrite Hx. simpl.
    apply list_elem_of_further, list_elem_of_here.
  - exists y. apply Hsame; [done..|].
    destruct (Hloc _ _ Hmc) as (b & ->). apply list_elem_of_fmap_2.
    unfold config_locs. rewrite Hy.
    apply list_elem_of_further, elem_of_app. right. apply list_elem_of_here.
Qed.

(** C2, as the code has it: a run without override returns, as
    [configs_used], the very [TestConfig] bound to the runner.  The runner
    itself adds, removes and changes nothing, but it shares the base with
    the code it calls: [execute] is handed the base's own [executor_config],
    and every object that the two calls of the run left alone is after the
    run what it was before.  So the base configuration and its two
    dictionaries hold after the run the keys and values they held before it
    provided [execute] and [evaluate] leave them alone. *)
Theorem run_without_override_uses_base
    self input_data evaluation_params base s res s' :
  field (st_heap s) self "config" = Some base ->
  run self input_data evaluation_params VNone s = (Ok res, s') ->
  field (st_heap s') res "configs_used" = Some base /\
  (exists c1 c2 x,
     new_calls s s' = [c1; c2] /\ meth c1 = "execute" /\
     args c1 = [input_data; x] /\ at_heap c1 = st_heap s /\
     field (st_heap s) base "executor_config" = Some x) /\
  (forall l o,
     st_heap s !! l = Some o -> Forall (call_keeps l o) (new_calls s s') ->
     st_heap s' !! l = Some o) /\
  forall ec mc,
    TestConfig_at (st_heap s) base ec mc ->
    (forall l o, l ∈ config_locs (st_heap s) base ->
       st_heap s !! l = Some o -> Forall (call_keeps l o) (new_calls s s')) ->
    TestConfig_at (st_heap s') base ec mc.
Proof.
  intros Hcfg Hrun.
  assert (forall l o,
            st_heap s !! l = Some o ->
            Forall (call_keeps l o) (new_calls s s') ->
            st_heap s' !! l = Some o) as Hframe.
  { intros l o Hl Hkeep. by eapply run_frame. }
  apply run_ok_iff, run_ok_facts in Hrun
    as (base' & eff & s1 & executor & f & x & out & s2 & c1 & c2 & Hbase'
        & Hmerge & _ & _ & Hec & _ & -> & Hcalls & _ & _ & _ & _ & Hused).
  rewrite Hcfg in Hbase'. injection Hbase' as <-.
  rewrite merge_configs_none in Hmerge. injection Hmerge as <- <-.
  split; [done|]. split; [|split; [done|]].
  - eexists _, c2, x. by repeat split.
  - intros ec mc Hat Hkeep. eapply TestConfig_at_stable; [done|].
    intros l o Hin Hl. apply Hframe; [done|]. by apply Hkeep.
Qed.




(** ** The abstract methods *)

Lemma find_method_inherited pre base_mro name f :
  (forall c, c ∈ pre -> class_method user_method c name = None \/
                        class_method user_method c name = Some f) ->
  find_method user_method base_mro name = Some f ->
  find_method user_method (pre ++ base_mro) name = Some f.
Proof.
  intros Hpre Hbase. induction pre as [|c pre IH]; simpl; [done|].
  destruct (Hpre c) as [-> | ->]; [left|..]; try done.
  apply IH. intros c' Hc'. apply Hpre. by right.
Qed.

Lemma class_method_not_overridden c name :
  user_method c name = None ->
  class_method user_method c name = None \/
  class_method user_method c name = class_method user_method
    (if String.eqb name "execute" then "PromptExecutorBase"
     else "MetricEvaluatorBase") name.
Proof.
  intros Hu. unfold class_method at 1 2.
  destruct (String.eqb_spec c "PromptExecutorBase") as [->|].
  - destruct (String.eqb name "execute") eqn:E; [right|left; done].
    unfold class_method. simpl. by rewrite E.
  - destruct (String.eqb_spec c "MetricEvaluatorBase") as [->|].
    + destruct (String.eqb_spec name "evaluate") as [->|]; [right|left; done].
      done.
    + left. by rewrite Hu.
Qed.

(** C8: on an executor whose class does not override [execute], and on an
    evaluator whose class does not override [evaluate], the call resolves to
    the abstract method and raises [NotImplementedError], for every list of
    arguments that fits the signature.  The store and the clock are as before
    the call; the trace holds the call and nothing else.  The same holds of
    the two method bodies applied directly. *)
Theorem abstract_methods_not_implemented executor evaluator pre_x pre_v s :
  mro_of (st_heap s) executor = pre_x ++ PromptExecutorBase_mro ->
  (forall c, c ∈ pre_x -> user_method c "execute" = None) ->
  mro_of (st_heap s) evaluator = pre_v ++ MetricEvaluatorBase_mro ->
  (forall c, c ∈ pre_v -> user_method c "evaluate" = None) ->
  (forall args kw,
     is_Some (bind_params execute_params args kw) ->
     (m <- getmethod user_method executor "execute" ;; call_method m args kw) s
     = (Raise NotImplementedError,
        recorded s
          (Call executor "execute" args kw (st_heap s)
             (Raise NotImplementedError) (st_heap s)))) /\
  (forall args kw,
     is_Some (bind_params evaluate_params args kw) ->
     (m <- getmethod user_method evaluator "evaluate" ;;
      call_method m args kw) s
     = (Raise NotImplementedError,
        recorded s
          (Call evaluator "evaluate" args kw (st_heap s)
             (Raise NotImplementedError) (st_heap s)))) /\
  (forall self input_data config t,
     PromptExecutorBase_execute self input_data config t
     = (Raise NotImplementedError, t)) /\
  (forall self ex input_data base_output executor_config test_config
          evaluation_params t,
     MetricEvaluatorBase_evaluate self ex input_data base_output
       executor_config test_config evaluation_params t
     = (Raise NotImplementedError, t)).
Proof.
  intros Hmx Hx Hmv Hv. repeat split.
  - intros args kw Hfit.
    assert (find_method user_method (mro_of (st_heap s) executor) "execute"
            = Some PromptExecutorBase_execute_method) as Hf.
    { rewrite Hmx. apply find_method_inherited; [|done].
      intros c Hc. by apply (class_method_not_overridden c "execute"), Hx. }
    rewrite (bind_step _ _ _ _ _ (getmethod_found _ _ _ _ Hf)).
    destruct (base_execute_raises executor args kw s) as (e & Hbody & He).
    rewrite (call_method_body _ "execute" _ _ _ _ _ _ Hbody).
    by rewrite He.
  - intros args kw Hfit.
    assert (find_method user_method (mro_of (st_heap s) evaluator) "evaluate"
            = Some MetricEvaluatorBase_evaluate_method) as Hf.
    { rewrite Hmv. apply find_method_inherited; [|done].
      intros c Hc. by apply (class_method_not_overridden c "evaluate"), Hv. }
    rewrite (bind_step _ _ _ _ _ (getmethod_found _ _ _ _ Hf)).
    destruct (base_evaluate_raises evaluator args kw s) as (e & Hbody & He).
    rewrite (call_method_body _ "evaluate" _ _ _ _ _ _ Hbody).
    by rewrite He.
Qed.

End PackageFacts.

(** ** Schema validation *)

Lemma isinstance_val_cases v t s :
  (exists c, t = VClass c /\
     isinstance_val v t s = (Ok (is_instance (st_heap s) v c), s)) \/
  ((forall c, t <> VClass c) /\
   exists msg, isinstance_val v t s = (Raise (TypeError msg), s)).
Proof.
  destruct t; try (right; split; [done | by eexists]).
  left. eauto.
Qed.

(** One entry that is not met stops the loop: [ValueError] when the key is
    missing, [TypeError] when it is there. *)
Lemma validate_items_offender config key t rest s :
  ~ conforms (st_heap s) config (key, t) ->
  match Dict.get key config with
  | None =>
      validate_items config ((key, t) :: rest) s
      = (Raise (ValueError ("Missing required config key: " +:+ key)), s)
  | Some _ =>
      exists msg,
        validate_items config ((key, t) :: rest) s = (Raise (TypeError msg), s)
  end.
Proof.
  intros Hnot. simpl. unfold Dict.mem.
  destruct (Dict.get key config) as [v|] eqn:Ev; simpl; [|done].
  destruct (isinstance_val_cases v t s) as [(c & -> & Hi)|(_ & msg & Hi)].
  - rewrite (bind_step _ _ _ _ _ Hi).
    destruct (is_instance (st_heap s) v c) eqn:Eb; simpl.
    + destruct Hnot. by exists v, c.
    + by eexists.
  - rewrite (bind_raise _ _ _ _ _ Hi). by eexists.
Qed.

(** An entry that is met lets the loop go on. *)
Lemma validate_items_conforms config key t rest s :
  conforms (st_heap s) config (key, t) ->
  validate_items config ((key, t) :: rest) s = validate_items config rest s.
Proof.
  intros (v & c & Hv & Ht & Hi). simpl in *. subst t. unfold Dict.mem.
  rewrite Hv. simpl. rewrite (bind_step _ _ _ _ _ (isinstance_spec _ _ _)).
  by rewrite Hi.
Qed.

Lemma conforms_dec h config entry :
  conforms h config entry \/ ~ conforms h config entry.
Proof.
  destruct entry as [key t]. unfold conforms. simpl.
  destruct (Dict.get key config) as [v|]; [|right; by intros (? & ? & ? & _)].
  destruct t; try (right; by intros (? & ? & _ & ? & _)).
  destruct (is_instance h v c) eqn:E; [left; eauto|].
  right. intros (v' & c' & [= <-] & [= <-] & ?). congruence.
Qed.

Lemma validate_items_state config items s :
  (validate_items config items s).2 = s.
Proof.
  induction items as [|[key t] rest IH]; [done|].
  destruct (conforms_dec (st_heap s) config (key, t)) as [Hc|Hn].
  - by rewrite validate_items_conforms.
  - pose proof (validate_items_offender config key t rest s Hn) as Ho.
    destruct (Dict.get key config); [destruct Ho as [msg ->]|rewrite Ho]; done.
Qed.

Lemma validate_items_ok config items s :
  validate_items config items s = (Ok tt, s) <->
  Forall (conforms (st_heap s) config) items.
Proof.
  induction items as [|[key t] rest IH].
  - split; [by constructor | done].
  - destruct (conforms_dec (st_heap s) config (key, t)) as [Hc|Hn].
    + rewrite validate_items_conforms by done. rewrite IH, Forall_cons. tauto.
    + pose proof (validate_items_offender config key t rest s Hn) as Ho.
      split; [|by intros [? _]%Forall_cons].
      destruct (Dict.get key config);
        [destruct Ho as [msg ->]|rewrite Ho]; done.
Qed.

Lemma validate_items_passed config pre items s :
  Forall (conforms (st_heap s) config) pre ->
  validate_items config (pre ++ items) s = validate_items config items s.
Proof.
  induction 1 as [|[key t] pre Hc _ IH]; [done|].
  simpl app. by rewrite validate_items_conforms.
Qed.

Lemma validate_items_agree config config' items s :
  (forall k, k ∈ Dict.keys items -> Dict.get k config' = Dict.get k config) ->
  validate_items config' items s = validate_items config items s.
Proof.
  revert s. induction items as [|[key t] rest IH]; intros s Hagree; [done|].
  simpl. unfold Dict.mem. rewrite (Hagree key) by (simpl; left).
  destruct (Dict.get key config) as [v|]; simpl; [|done].
  unfold bind. destruct (isinstance_val v t s) as [[[]|e] s1]; simpl; try done.
  apply IH. intros k Hk. apply Hagree. simpl. by right.
Qed.

(** When one key alone is at fault, it is the one reported. *)
Lemma validate_items_single_offender config schema key t s :
  wf_dict schema ->
  (key, t) ∈ schema ->
  (forall entry, entry ∈ schema -> entry.1 <> key ->
     conforms (st_heap s) config entry) ->
  ~ conforms (st_heap s) config (key, t) ->
  match Dict.get key config with
  | None =>
      validate_items config schema s
      = (Raise (ValueError ("Missing required config key: " +:+ key)), s)
  | Some _ =>
      exists msg, validate_items config schema s = (Raise (TypeError msg), s)
  end.
Proof.
  intros Hwf Hin Hothers Hnot.
  apply list_elem_of_split in Hin as (pre & post & ->).
  rewrite validate_items_passed; [by apply validate_items_offender|].
  apply Forall_forall. intros entry Hentry.
  apply Hothers; [apply elem_of_app; by left|].
  intros Hkey. unfold wf_dict, Dict.keys in Hwf.
  rewrite map_app in Hwf. apply NoDup_app in Hwf as (_ & Hdisj & _).
  apply (Hdisj key).
  - rewrite <- Hkey. by apply (list_elem_of_fmap_2 fst).
  - simpl. left.
Qed.

(** C5: [validate_config_schema] changes nothing, and returns normally
    exactly when every key of the schema is in the configuration with a
    value that is an instance of the declared class.  The keys of the schema
    are checked one by one in iteration order, and a key that is not met
    causes the error of its kind once the keys before it are met:
    [ValueError] (missing key) when it is absent from the configuration,
    [TypeError] (type mismatch) when it is present with a value of the wrong
    type; a key that alone is at fault is the one reported.  Keys of the
    configuration outside the schema never cause failure: two configurations
    that agree on the keys of the schema get the same outcome. *)
Theorem validate_config_schema_first_offender config schema s :
  (validate_config_schema config schema s).2 = s /\
  (validate_config_schema config schema s = (Ok tt, s) <->
   forall key t, (key, t) ∈ schema ->
     exists v c, Dict.get key config = Some v /\ t = VClass c /\
                 is_instance (st_heap s) v c = true) /\
  (forall pre key t post,
     schema = pre ++ (key, t) :: post ->
     Forall (conforms (st_heap s) config) pre ->
     ~ conforms (st_heap s) config (key, t) ->
     match Dict.get key config with
     | None =>
         validate_config_schema config schema s
         = (Raise (ValueError ("Missing required config key: " +:+ key)), s)
     | Some _ =>
         exists msg,
           validate_config_schema config schema s = (Raise (TypeError msg), s)
     end) /\
  (forall key t,
     wf_dict schema -> (key, t) ∈ schema ->
     (forall entry, entry ∈ schema -> entry.1 <> key ->
        conforms (st_heap s) config entry) ->
     ~ conforms (st_heap s) config (key, t) ->
     match Dict.get key config with
     | None =>
         validate_config_schema config schema s
         = (Raise (ValueError ("Missing required config key: " +:+ key)), s)
     | Some _ =>
         exists msg,
           validate_config_schema config schema s = (Raise (TypeError msg), s)
     end) /\
  (forall config',
     (forall k, k ∈ Dict.keys schema ->
        Dict.get k config' = Dict.get k config) ->
     validate_config_schema config' schema s
     = validate_config_schema config schema s).
Proof.
  unfold validate_config_schema. repeat split.
  - apply validate_items_state.
  - intros H%validate_items_ok key t Hin.
    rewrite Forall_forall in H. apply (H (key, t) Hin).
  - intros H. apply validate_items_ok, Forall_forall.
    intros [key t] Hin. by apply H.
  - intros pre key t post -> Hpre Hnot.
    rewrite validate_items_passed by done.
    by apply validate_items_offender.
  - intros key t. apply validate_items_single_offender.
  - intros config' Hagree. by apply validate_items_agree.
Qed.

(** With two keys at fault the loop stops at the first: under the schema
    [{"a": int, "b": str}] the configuration [{"a": "x"}] is rejected for
    the type of ["a"], and the absence of ["b"] is never looked at. *)
Example validate_two_faults :
  validate_config_schema [("a", VStr "x")]
    [("a", VClass "int"); ("b", VClass "str")] Doubles.state0
  = (Raise (TypeError "Config key 'a' should be of type int, got str"),
     Doubles.state0).
Proof. vm_compute; reflexivity. Qed.

Example validate_ok :
  validate_config_schema
    [("model", VStr "a"); ("n", VInt 3); ("extra", VNone)]
    [("model", VClass "str"); ("n", VClass "int")] Doubles.state0
  = (Ok tt, Doubles.state0).
Proof. vm_compute; reflexivity. Qed.

Example validate_missing :
  validate_config_schema [("model", VStr "a")]
    [("model", VClass "str"); ("n", VClass "int")] Doubles.state0
  = (Raise (ValueError "Missing required config key: n"), Doubles.state0).
Proof. vm_compute; reflexivity. Qed.

Example validate_mismatch :
  validate_config_schema [("model", VStr "a"); ("n", VStr "3")]
    [("model", VClass "str"); ("n", VClass "int")] Doubles.state0
  = (Raise (TypeError "Config key 'n' should be of type int, got str"),
     Doubles.state0).
Proof. vm_compute; reflexivity. Qed.

(** [bool] is a subclass of [int], and a dictionary in the store is a
    [dict]. *)
Example validate_subclass :
  validate_config_schema [("flag", VBool true); ("opts", VRef 4)]
    [("flag", VClass "int"); ("opts", VClass "dict")] Doubles.state0
  = (Ok tt, Doubles.state0).
Proof. vm_compute; reflexivity. Qed.

(** ** Constructors *)

Lemma setattr_last h mro attrs name x clock calls :
  setattr (VRef (length h)) name x (State (h ++ [OInstance mro attrs]) clock calls)
  = (Ok tt, State (h ++ [OInstance mro (Dict.set name x attrs)]) clock calls).
Proof.
  unfold setattr, bind, get_heap, put_heap. simpl.
  rewrite list_lookup_middle by done. simpl.
  rewrite insert_app_r_alt by done. by rewrite Nat.sub_diag.
Qed.

Lemma getattr_last h mro attrs name x clock calls :
  Dict.get name attrs = Some x ->
  getattr (VRef (length h)) name (State (h ++ [OInstance mro attrs]) clock calls)
  = (Ok x, State (h ++ [OInstance mro attrs]) clock calls).
Proof.
  intros Hx. apply getattr_field. simpl.
  by rewrite list_lookup_middle.
Qed.

(** A new instance changes nobody's class: for a class [c] the new object
    is not an instance of, [isinstance(v, c)] answers as before. *)
Lemma is_instance_fresh h mro attrs v c :
  in_mro c mro = false ->
  is_instance (h ++ [OInstance mro attrs]) v c = is_instance h v c.
Proof.
  intros Hc. unfold is_instance. destruct v as [| | | | | | | |l]; try done.
  simpl. destruct (h !! l) as [o|] eqn:E.
  - by rewrite (lookup_app_l_Some _ _ _ _ E).
  - apply lookup_ge_None_1 in E. destruct (decide (l = length h)) as [->|].
    + by rewrite list_lookup_middle.
    + by rewrite lookup_ge_None_2 by (rewrite length_app; simpl; lia).
Qed.

Lemma items_of_is_dict h v d :
  items_of h v = Some d -> is_instance h v "dict" = true.
Proof.
  unfold items_of, is_instance. destruct v; try done. simpl.
  by destruct (h !! l) as [[|]|].
Qed.

Lemma PromptExecutorBase_init_fresh h v clock calls :
  PromptExecutorBase_init (VRef (length h)) v
    (State (h ++ [OInstance PromptExecutorBase_mro []]) clock calls)
  = (if is_instance h v "dict" then Ok tt
     else Raise (ValueError "Config schema must be a dictionary"),
     State (h ++ [OInstance PromptExecutorBase_mro [("config_schema", v)]])
       clock calls).
Proof.
  unfold PromptExecutorBase_init, PromptExecutorBase_validate_schema.
  rewrite (bind_step _ _ _ _ _ (setattr_last _ _ _ _ _ _ _)).
  cbn [Dict.set].
  rewrite (bind_step _ _ _ _ _
             (getattr_last h _ [("config_schema", v)] "config_schema" v _ _
                eq_refl)).
  rewrite (bind_step _ _ _ _ _ (isinstance_spec _ _ _)).
  cbn [st_heap Dict.set]. rewrite is_instance_fresh by done.
  by destruct (is_instance h v "dict").
Qed.

Lemma MetricEvaluatorBase_init_fresh h v clock calls :
  MetricEvaluatorBase_init (VRef (length h)) v
    (State (h ++ [OInstance MetricEvaluatorBase_mro []]) clock calls)
  = (if is_instance h v "dict" then Ok tt
     else Raise (ValueError "Config must be a dictionary"),
     State (h ++ [OInstance MetricEvaluatorBase_mro [("config", v)]])
       clock calls).
Proof.
  unfold MetricEvaluatorBase_init, MetricEvaluatorBase_validate_config.
  rewrite (bind_step _ _ _ _ _ (setattr_last _ _ _ _ _ _ _)).
  cbn [Dict.set].
  rewrite (bind_step _ _ _ _ _
             (getattr_last h _ [("config", v)] "config" v _ _ eq_refl)).
  rewrite (bind_step _ _ _ _ _ (isinstance_spec _ _ _)).
  cbn [st_heap Dict.set]. rewrite is_instance_fresh by done.
  by destruct (is_instance h v "dict").
Qed.

(** C6: [PromptExecutorBase(config_schema)] returns a new executor holding
    [config_schema] when that is a [dict], and raises [ValueError] otherwise;
    [MetricEvaluatorBase(config)] does the same with [config].  Every
    dictionary of the store is a [dict]; [None], numbers and strings are
    not. *)
Theorem constructors_require_mapping v s :
  (if is_instance (st_heap s) v "dict"
   then new_PromptExecutorBase v s
        = (Ok (VRef (length (st_heap s))),
           State (st_heap s ++
                    [OInstance PromptExecutorBase_mro [("config_schema", v)]])
                 (st_clock s) (st_calls s))
   else exists s',
        new_PromptExecutorBase v s
        = (Raise (ValueError "Config schema must be a dictionary"), s')) /\
  (if is_instance (st_heap s) v "dict"
   then new_MetricEvaluatorBase v s
        = (Ok (VRef (length (st_heap s))),
           State (st_heap s ++ [OInstance MetricEvaluatorBase_mro [("config", v)]])
                 (st_clock s) (st_calls s))
   else exists s',
        new_MetricEvaluatorBase v s
        = (Raise (ValueError "Config must be a dictionary"), s')) /\
  (forall d, items_of (st_heap s) v = Some d ->
     is_instance (st_heap s) v "dict" = true) /\
  (match v with
   | VNone | VBool _ | VInt _ | VFloat _ | VStr _ =>
       is_instance (st_heap s) v "dict" = false
   | _ => True
   end).
Proof.
  split; [|split; [|split]].
  - unfold new_PromptExecutorBase.
    rewrite (bind_step _ _ _ _ _ (alloc_spec _ _)).
    unfold bind. rewrite PromptExecutorBase_init_fresh.
    destruct (is_instance (st_heap s) v "dict"); [done | by eexists].
  - unfold new_MetricEvaluatorBase.
    rewrite (bind_step _ _ _ _ _ (alloc_spec _ _)).
    unfold bind. rewrite MetricEvaluatorBase_init_fresh.
    destruct (is_instance (st_heap s) v "dict"); [done | by eexists].
  - intros d. apply items_of_is_dict.
  - by destruct v.
Qed.

(** The runner object once its three attributes are set. *)
Lemma TestRunner_init_fresh h executor evaluator config clock calls :
  TestRunner_init (VRef (length h)) executor evaluator config
    (State (h ++ [OInstance TestRunner_mro []]) clock calls)
  = (if negb (is_instance h executor "PromptExecutorBase") then
       Raise (ValueError "Executor must be an instance of PromptExecutorBase")
     else if negb (is_instance h evaluator "MetricEvaluatorBase") then
       Raise (ValueError "Evaluator must be an instance of MetricEvaluatorBase")
     else if negb (is_instance h config "TestConfig") then
       Raise (ValueError "Config must be an instance of TestConfig")
     else Ok tt,
     State (h ++ [OInstance TestRunner_mro
                    [("executor", executor); ("evaluator", evaluator);
                     ("config", config)]]) clock calls).
Proof.
  unfold TestRunner_init, TestRunner_validate_components.
  rewrite (bind_step _ _ _ _ _ (setattr_last _ _ _ _ _ _ _)).
  rewrite (bind_step _ _ _ _ _ (setattr_last _ _ _ _ _ _ _)).
  rewrite (bind_step _ _ _ _ _ (setattr_last _ _ _ _ _ _ _)).
  cbn [Dict.set String.eqb Ascii.eqb Bool.eqb].
  set (attrs := [("executor", executor); ("evaluator", evaluator);
                 ("config", config)]).
  rewrite (bind_step _ _ _ _ _
             (getattr_last h _ attrs "executor" executor _ _ eq_refl)).
  rewrite (bind_step _ _ _ _ _ (isinstance_spec _ _ _)).
  cbn [st_heap]. rewrite is_instance_fresh by done.
  destruct (is_instance h executor "PromptExecutorBase"); [|done]. cbn [negb].
  rewrite (bind_step _ _ _ _ _
             (getattr_last h _ attrs "evaluator" evaluator _ _ eq_refl)).
  rewrite (bind_step _ _ _ _ _ (isinstance_spec _ _ _)).
  cbn [st_heap]. rewrite is_instance_fresh by done.
  destruct (is_instance h evaluator "MetricEvaluatorBase"); [|done]. cbn [negb].
  rewrite (bind_step _ _ _ _ _
             (getattr_last h _ attrs "config" config _ _ eq_refl)).
  rewrite (bind_step _ _ _ _ _ (isinstance_spec _ _ _)).
  cbn [st_heap]. rewrite is_instance_fresh by done.
  by destruct (is_instance h config "TestConfig").
Qed.

(** C7: [TestRunner(executor, evaluator, config)] raises [ValueError] when
    the executor is not an instance of [PromptExecutorBase], or the evaluator
    is not an instance of [MetricEvaluatorBase], or the configuration is not a
    [TestConfig]; when all three are, it returns a new runner whose
    attributes are exactly those three values. *)
Theorem TestRunner_requires_components executor evaluator config s :
  if is_instance (st_heap s) executor "PromptExecutorBase"
     && is_instance (st_heap s) evaluator "MetricEvaluatorBase"
     && is_instance (st_heap s) config "TestConfig"
  then new_TestRunner executor evaluator config s
       = (Ok (VRef (length (st_heap s))),
          State (st_heap s ++
                   [OInstance TestRunner_mro
                      [("executor", executor); ("evaluator", evaluator);
                       ("config", config)]])
                (st_clock s) (st_calls s))
  else exists msg s',
       new_TestRunner executor evaluator config s
       = (Raise (ValueError msg), s').
Proof.
  unfold new_TestRunner. rewrite (bind_step _ _ _ _ _ (alloc_spec _ _)).
  unfold bind. rewrite TestRunner_init_fresh.
  destruct (is_instance (st_heap s) executor "PromptExecutorBase");
    [|by eexists _, _].
  destruct (is_instance (st_heap s) evaluator "MetricEvaluatorBase");
    [|by eexists _, _].
  destruct (is_instance (st_heap s) config "TestConfig");
    [done | by eexists _, _].
Qed.

(** ** Metric outputs *)

(** C4, as the code has it: [MetricOutput] is a plain dataclass.  Building
    one always succeeds and stores the five values as given, so the record
    has a score in [0,1] and a status of [MetricStatus] exactly when it was
    built from such values.  [MetricStatus] has the four members [PASSED],
    [WARNING], [FAILED], [INCONCLUSIVE], with distinct values. *)
Theorem MetricOutput_stores_what_it_is_given
    score status visualization details threshold s :
  let r := VRef (length (st_heap s)) in
  let s' := (new_MetricOutput score status visualization details threshold s).2 in
  new_MetricOutput score status visualization details threshold s = (Ok r, s') /\
  field (st_heap s') r "score" = Some score /\
  field (st_heap s') r "status" = Some status /\
  field (st_heap s') r "visualization" = Some visualization /\
  field (st_heap s') r "details" = Some details /\
  field (st_heap s') r "threshold" = Some threshold /\
  (in_range_MetricOutput (st_heap s') r <->
   unit_score score = true /\ is_MetricStatus status = true) /\
  (forall m : MetricStatus, m ∈ MetricStatus_members) /\
  NoDup (MetricStatus_value <$> MetricStatus_members).
Proof.
  intros r s'. subst r s'. unfold new_MetricOutput. rewrite alloc_spec.
  cbn [fst snd st_heap]. rewrite !field_last.
  do 6 (split; [done|]). split; [split|split].
  - intros (sc & st & Hsc & Hu & Hst & Hm). rewrite field_last in Hsc, Hst.
    injection Hsc as <-. by injection Hst as <-.
  - intros [Hu Hm]. exists score, status. by rewrite !field_last.
  - intros []; unfold MetricStatus_members;
      rewrite ?elem_of_cons; auto 10.
  - unfold MetricStatus_members. simpl.
    repeat (apply NoDup_cons; split;
            [rewrite ?elem_of_cons, elem_of_nil; intuition discriminate|]).
    apply NoDup_nil_2.
Qed.

(** C4 as stated fails: a [MetricOutput] with score 2.0 is built without
    complaint. *)
Lemma MetricOutput_score_not_checked :
  ~ (forall score status visualization details threshold s r s',
       new_MetricOutput score status visualization details threshold s
       = (Ok r, s') ->
       in_range_MetricOutput (st_heap s') r).
Proof.
  intros H.
  destruct (H (VFloat 2%float) (VEnum PASSED) VNone VNone VNone
              Doubles.state0 _ _ eq_refl)
    as (sc & st & Hsc & Hu & _).
  vm_compute in Hsc. injection Hsc as <-. vm_compute in Hu. discriminate.
Qed.

(** ** The claims at the test doubles *)

Ltac wf_dict_tac :=
  unfold wf_dict; simpl;
  repeat (apply NoDup_cons; split;
          [rewrite ?elem_of_cons, elem_of_nil; intuition discriminate|]);
  apply NoDup_nil_2.

Ltac TestConfig_at_tac :=
  split; [vm_compute; reflexivity
         | eexists; split; vm_compute; reflexivity
         | eexists; split; vm_compute; reflexivity
         | wf_dict_tac
         | wf_dict_tac].

Lemma base_is_TestConfig :
  TestConfig_at (st_heap Doubles.state1) Doubles.base [("model", VStr "a")] [].
Proof. TestConfig_at_tac. Qed.

Lemma override_is_TestConfig :
  TestConfig_at (st_heap Doubles.state1) Doubles.override
    [("temperature", VFloat 0.5%float)] [].
Proof. TestConfig_at_tac. Qed.

(** The calls of the two runs of the end-to-end scenario only add objects to
    the store, so they leave every object alone. *)
Lemma doubles_calls_only_extend :
  Forall (fun c => extends (at_heap c) (heap_after c))
    (new_calls Doubles.state1 Doubles.state2) /\
  Forall (fun c => extends (at_heap c) (heap_after c))
    (new_calls Doubles.state1 Doubles.state2_override).
Proof.
  split; vm_compute; repeat (constructor; [eexists; vm_compute; reflexivity|]);
    constructor.
Qed.

Lemma extends_call_keeps l o c :
  extends (at_heap c) (heap_after c) -> call_keeps l o c.
Proof. intros He Hl. by eapply extends_lookup. Qed.

Lemma doubles_calls_keep l o :
  Forall (call_keeps l o) (new_calls Doubles.state1 Doubles.state2) /\
  Forall (call_keeps l o) (new_calls Doubles.state1 Doubles.state2_override).
Proof.
  destruct doubles_calls_only_extend as [H1 H2].
  split; (eapply Forall_impl; [done|]); intros c; apply extends_call_keeps.
Qed.

(** The override scenario: [{"model": "a"}] overridden by
    [{"temperature": 0.5}]. *)
Lemma merge_configs_overrides_shallowly_witness :
  exists effective em mm s1,
    TestRunner_merge_configs Doubles.runner Doubles.base Doubles.override
      Doubles.state1 = (Ok effective, s1) /\
    TestConfig_at (st_heap s1) effective em mm /\
    overrides [("model", VStr "a")] [("temperature", VFloat 0.5%float)] em /\
    overrides [] [] mm /\
    st_heap s1 =
      st_heap Doubles.state1 ++
        [ODict em; ODict mm; merged_TestConfig (st_heap Doubles.state1)] /\
    forall input_data evaluation_params res s',
      field (st_heap Doubles.state1) Doubles.runner "config" = Some Doubles.base ->
      Doubles.run Doubles.runner input_data evaluation_params Doubles.override
        Doubles.state1 = (Ok res, s') ->
      field (st_heap s') res "configs_used" = Some effective /\
      exists c1 c2 x,
        new_calls Doubles.state1 s' = [c1; c2] /\ meth c1 = "execute" /\
        args c1 = [input_data; x] /\ items_of (at_heap c1) x = Some em.
Proof.
  apply (merge_configs_overrides_shallowly Doubles.methods Doubles.clock
           Doubles.iso Doubles.runner Doubles.base Doubles.override
           [("model", VStr "a")] [] [("temperature", VFloat 0.5%float)] []
           Doubles.state1 base_is_TestConfig override_is_TestConfig).
Defined.

Example override_scenario :
  (TestRunner_merge_configs Doubles.runner Doubles.base Doubles.override
     Doubles.state1).1 = Ok (VRef 14) /\
  items_of
    (st_heap (TestRunner_merge_configs Doubles.runner Doubles.base
                Doubles.override Doubles.state1).2) (VRef 12)
  = Some [("model", VStr "a"); ("temperature", VFloat 0.5%float)].
Proof. split; vm_compute; reflexivity. Qed.

Lemma run_hello :
  Doubles.run Doubles.runner (VStr "hello") VNone VNone Doubles.state1
  = (Ok (VRef 17), Doubles.state2).
Proof. vm_compute; reflexivity. Qed.

Lemma run_hello_override :
  Doubles.run Doubles.runner (VStr "hello") VNone Doubles.override
    Doubles.state1
  = (Ok (VRef 20), Doubles.state2_override).
Proof. vm_compute; reflexivity. Qed.

Lemma run_without_override_uses_base_witness :
  field (st_heap Doubles.state2) (VRef 17) "configs_used" = Some Doubles.base /\
  TestConfig_at (st_heap Doubles.state2) Doubles.base [("model", VStr "a")] [].
Proof.
  destruct (run_without_override_uses_base Doubles.methods Doubles.clock
              Doubles.iso Doubles.runner (VStr "hello") VNone Doubles.base
              Doubles.state1 (VRef 17) Doubles.state2 eq_refl run_hello)
    as (Hused & _ & _ & Hframe).
  split; [exact Hused|].
  apply Hframe; [exact base_is_TestConfig|].
  intros l o _ _. apply doubles_calls_keep.
Defined.

Lemma base_is_TestConfig_stamp :
  TestConfig_at (st_heap Doubles.state1') Doubles.base [("model", VStr "a")] [].
Proof. TestConfig_at_tac. Qed.

Lemma run_stamp_hello :
  Doubles.run_stamp (VRef 11) (VStr "hello") VNone VNone Doubles.state1'
  = (Ok (VRef 17), Corners.state_stamp_run).
Proof. vm_compute; reflexivity. Qed.

(** C2 as stated fails: the keys and values of [configs_used] need not be
    those of the base bound at construction.  An executor that writes into
    the configuration it is handed writes into the base's own
    [executor_config]: with the base [{"model": "a"}, {}] and an executor
    whose [execute] sets [config["seen"] = True], the [configs_used] of a run
    without override has the executor configuration
    [{"model": "a", "seen": True}]. *)
Lemma configs_used_may_differ_from_bound_base :
  ~ (forall user_method wall_clock isoformat
            self input_data evaluation_params base ec mc s res s',
       field (st_heap s) self "config" = Some base ->
       TestConfig_at (st_heap s) base ec mc ->
       TestRunner_run user_method wall_clock isoformat
         self input_data evaluation_params VNone s = (Ok res, s') ->
       exists used,
         field (st_heap s') res "configs_used" = Some used /\
         TestConfig_at (st_heap s') used ec mc).
Proof.
  intros H.
  destruct (H Doubles.methods_stamp Doubles.clock Doubles.iso
              (VRef 11) (VStr "hello") VNone Doubles.base
              [("model", VStr "a")] [] Doubles.state1' (VRef 17)
              Corners.state_stamp_run eq_refl base_is_TestConfig_stamp
              run_stamp_hello)
    as (used & Hused & [_ (x & Hx & Hitems) _ _ _]).
  vm_compute in Hused. injection Hused as <-.
  vm_compute in Hx. injection Hx as <-.
  vm_compute in Hitems. discriminate.
Qed.




Lemma abstract_methods_not_implemented_witness :
  (m <- getmethod Doubles.methods (VRef 11) "execute" ;;
   call_method m [VStr "hello"; VRef 4] []) Doubles.state_abstract
  = (Raise NotImplementedError,
     recorded Doubles.state_abstract
       (Call (VRef 11) "execute" [VStr "hello"; VRef 4] []
          (st_heap Doubles.state_abstract) (Raise NotImplementedError)
          (st_heap Doubles.state_abstract))).
Proof.
  refine (proj1 (abstract_methods_not_implemented Doubles.methods
                   (VRef 11) (VRef 12) [] [] Doubles.state_abstract
                   eq_refl _ eq_refl _) _ _ _).
  - intros c Hc. by apply elem_of_nil in Hc.
  - intros c Hc. by apply elem_of_nil in Hc.
  - by eexists.
Defined.

(** ** Scenarios *)

(** The end-to-end scenario: [run("hello")] with the echoing executor and
    the always-passing evaluator. *)
Example end_to_end_scenario :
  let h := st_heap Doubles.state2 in
  field h (VRef 17) "executor_output" = Some (VStr "ECHO:hello") /\
  (exists m, field h (VRef 17) "metric_output" = Some m /\
             field h m "status" = Some (VEnum PASSED) /\
             field h m "score" = Some (VFloat 1%float)) /\
  (exists md items,
     field h (VRef 17) "metadata" = Some md /\ items_of h md = Some items /\
     Dict.get "executor_type" items = Some (VStr "EchoExecutor") /\
     Dict.get "evaluator_type" items = Some (VStr "PassEvaluator")).
Proof.
  split; [vm_compute; reflexivity|]. split.
  - eexists. repeat split; vm_compute; reflexivity.
  - eexists _, _. repeat split; vm_compute; reflexivity.
Qed.

(** Without override the executor is handed the base's own dictionary: an
    executor that writes into its configuration writes into the base, and
    [configs_used] is that same object. *)
Example stamping_executor_without_override :
  let out := Doubles.run_stamp (VRef 11) (VStr "hello") VNone VNone
               Doubles.state1' in
  out.1 = Ok (VRef 17) /\
  field (st_heap out.2) (VRef 17) "configs_used" = Some Doubles.base /\
  items_of (st_heap out.2) (VRef 4)
  = Some [("model", VStr "a"); ("seen", VBool true)].
Proof. repeat split; vm_compute; reflexivity. Qed.

(** With an override the executor is handed the merged dictionary, and the
    base stays as it was. *)
Example stamping_executor_with_override :
  let out := Doubles.run_stamp (VRef 11) (VStr "hello") VNone Doubles.override
               Doubles.state1' in
  out.1 = Ok (VRef 20) /\
  items_of (st_heap out.2) (VRef 4) = Some [("model", VStr "a")] /\
  items_of (st_heap out.2) (VRef 12)
  = Some [("model", VStr "a"); ("temperature", VFloat 0.5%float);
          ("seen", VBool true)].
Proof. repeat split; vm_compute; reflexivity. Qed.

(** The merge is shallow: under the shared key ["opts"] the merged
    configuration holds the override's nested mapping [{"b": 3}] itself, and
    the key ["a"] of the base's nested mapping is gone from that view. *)
Example nested_mapping_is_replaced :
  let out := TestRunner_merge_configs VNone (VRef 3) (VRef 7)
               Doubles.state_nested in
  out.1 = Ok (VRef 10) /\
  items_of (st_heap out.2) (VRef 8)
  = Some [("opts", VRef 4); ("model", VStr "m")] /\
  items_of (st_heap out.2) (VRef 4) = Some [("b", VInt 3)] /\
  items_of (st_heap out.2) (VRef 0) = Some [("a", VInt 1); ("b", VInt 2)].
Proof. repeat split; vm_compute; reflexivity. Qed.

Example constructor_accepts_dict :
  (new_PromptExecutorBase (VRef 0) Doubles.state0).1 = Ok (VRef 11) /\
  (new_MetricEvaluatorBase (VRef 2) Doubles.state0).1 = Ok (VRef 11).
Proof. split; vm_compute; reflexivity. Qed.

Example constructor_rejects_non_dict :
  (new_PromptExecutorBase VNone Doubles.state0).1
  = Raise (ValueError "Config schema must be a dictionary") /\
  (new_MetricEvaluatorBase (VStr "cfg") Doubles.state0).1
  = Raise (ValueError "Config must be a dictionary") /\
  (new_PromptExecutorBase Doubles.base Doubles.state0).1
  = Raise (ValueError "Config schema must be a dictionary").
Proof. repeat split; vm_compute; reflexivity. Qed.

Example runner_rejects_wrong_components :
  (new_TestRunner Doubles.evaluator Doubles.evaluator Doubles.base
     Doubles.state0).1
  = Raise (ValueError "Executor must be an instance of PromptExecutorBase") /\
  (new_TestRunner Doubles.executor Doubles.executor Doubles.base
     Doubles.state0).1
  = Raise (ValueError "Evaluator must be an instance of MetricEvaluatorBase") /\
  (new_TestRunner Doubles.executor Doubles.evaluator (VRef 4)
     Doubles.state0).1
  = Raise (ValueError "Config must be an instance of TestConfig").
Proof. repeat split; vm_compute; reflexivity. Qed.

(** A subclass that does not define [execute] inherits the abstract one. *)
Example subclass_inherits_abstract_execute :
  ((m <- getmethod Doubles.methods (VRef 13) "execute" ;;
    call_method m [VStr "hello"; VRef 4] []) Doubles.state_abstract).1
  = Raise NotImplementedError.
Proof. vm_compute; reflexivity. Qed.

(** A call that does not fit the signature fails before the body runs. *)
Example abstract_execute_wrong_arity :
  exists msg,
    ((m <- getmethod Doubles.methods (VRef 11) "execute" ;;
      call_method m [VStr "hello"] []) Doubles.state_abstract).1
    = Raise (TypeError msg).
Proof. eexists. vm_compute; reflexivity. Qed.

(** ** Dictionaries: order of the keys and algebra of the update *)

Module DictAlgebra.
Import Dict.

Lemma mem_keys k d : mem k d = true <-> k ∈ keys d.
Proof.
  unfold mem. destruct (get k d) as [v|] eqn:E.
  - split; [intros _; by eapply DictFacts.get_Some_keys | done].
  - apply DictFacts.get_None in E. split; [done | by intros ?].
Qed.

Lemma mem_set k k0 v d : mem k (set k0 v d) = String.eqb k k0 || mem k d.
Proof.
  unfold mem. destruct (String.eqb_spec k k0) as [->|Hne].
  - by rewrite DictFacts.get_set_same.
  - by rewrite DictFacts.get_set_other.
Qed.

(** Writing a key the dictionary lacks appends it. *)
Lemma set_absent k v d : k ∉ keys d -> set k v d = d ++ [(k, v)].
Proof.
  induction d as [|[k1 v1] d IH]; simpl; [done|].
  intros [Hne Hk]%not_elem_of_cons.
  destruct (String.eqb_spec k k1); [done|]. by rewrite IH.
Qed.

(** Writing a key the dictionary has leaves every key where it is. *)
Lemma keys_set_present k v d : k ∈ keys d -> keys (set k v d) = keys d.
Proof.
  induction d as [|[k1 v1] d IH]; simpl.
  - by intros ?%elem_of_nil.
  - destruct (String.eqb_spec k k1) as [->|Hne]; [done|].
    intros [?|Hk]%elem_of_cons; [done|]. simpl. f_equal. by apply IH.
Qed.

Lemma keys_set_absent k v d : k ∉ keys d -> keys (set k v d) = keys d ++ [k].
Proof.
  intros Hk. rewrite set_absent by done. unfold keys. by rewrite map_app.
Qed.

(** The keys after an update: those of the target, in place, then the new
    ones in the order of the source. *)
Lemma keys_update_order d src :
  NoDup (keys src) ->
  keys (update d src)
  = keys d ++ List.filter (fun k => negb (mem k d)) (keys src).
Proof.
  unfold update. revert d.
  induction src as [|[k0 v0] src IH]; intros d Hs; simpl.
  - by rewrite app_nil_r.
  - apply NoDup_cons in Hs as [Hk0 Hs]. rewrite IH by done.
    assert (List.filter (fun k => negb (mem k (set k0 v0 d))) (keys src)
            = List.filter (fun k => negb (mem k d)) (keys src)) as ->.
    { apply List.filter_ext_in. intros k Hk. rewrite mem_set.
      destruct (String.eqb_spec k k0) as [->|]; [|done].
      destruct Hk0. by apply list_elem_of_In. }
    destruct (mem k0 d) eqn:Em; simpl.
    + apply mem_keys in Em. by rewrite keys_set_present.
    + assert (k0 ∉ keys d) as Hk.
      { intros Hk%mem_keys. congruence. }
      rewrite keys_set_absent by done. by rewrite <- app_assoc.
Qed.

Lemma set_set k v v' d : set k v (set k v' d) = set k v d.
Proof.
  induction d as [|[k1 v1] d IH]; simpl.
  - by rewrite String.eqb_refl.
  - destruct (String.eqb_spec k k1) as [->|Hne]; simpl.
    + by rewrite String.eqb_refl.
    + destruct (String.eqb_spec k k1); [done|]. by rewrite IH.
Qed.

(** Two writes commute when the first key written is already there: its
    place is fixed, whatever happens to the other. *)
Lemma set_comm k k1 v v1 d :
  k ∈ keys d -> k <> k1 -> set k v (set k1 v1 d) = set k1 v1 (set k v d).
Proof.
  intros Hk Hne. induction d as [|[k2 v2] d IH]; simpl.
  - by apply elem_of_nil in Hk.
  - destruct (String.eqb_spec k1 k2) as [->|H12];
      destruct (String.eqb_spec k k2) as [->|H2]; simpl;
      rewrite ?String.eqb_refl; try done.
    + destruct (String.eqb_spec k k2); [done|].
      by destruct (String.eqb_spec k2 k2).
    + destruct (String.eqb_spec k1 k2); [done|].
      by destruct (String.eqb_spec k2 k2).
    + destruct (String.eqb_spec k k2); [done|].
      destruct (String.eqb_spec k1 k2); [done|].
      simpl in Hk. apply elem_of_cons in Hk as [?|Hk]; [done|].
      by rewrite IH.
Qed.

Lemma set_update_comm k v d src :
  k ∈ keys d -> k ∉ keys src ->
  set k v (update d src) = update (set k v d) src.
Proof.
  unfold update. revert d.
  induction src as [|[k1 v1] src IH]; intros d Hk Hs; simpl; [done|].
  simpl in Hs. apply not_elem_of_cons in Hs as [Hne Hs].
  rewrite IH; [|apply DictFacts.keys_set; by right|done].
  by rewrite set_comm.
Qed.

Lemma update_snoc d src k v :
  update d (src ++ [(k, v)]) = set k v (update d src).
Proof. unfold update. by rewrite fold_left_app. Qed.

(** Updating from a source in which [k] was written last is updating from
    the source and then writing [k]. *)
Lemma update_set d k v b :
  NoDup (keys b) -> update d (set k v b) = set k v (update d b).
Proof.
  revert d. induction b as [|[k0 v0] b IH]; intros d Hb; [done|].
  apply NoDup_cons in Hb as [Hk0 Hb]. simpl.
  destruct (String.eqb_spec k k0) as [->|Hne].
  - change (update d ((k0, v) :: b)) with (update (set k0 v d) b).
    change (update d ((k0, v0) :: b)) with (update (set k0 v0 d) b).
    rewrite set_update_comm; [|apply DictFacts.keys_set; by left|done].
    by rewrite set_set.
  - change (update d ((k0, v0) :: set k v b))
      with (update (set k0 v0 d) (set k v b)).
    by rewrite IH.
Qed.

Lemma update_assoc a b c :
  NoDup (keys b) -> update (update a b) c = update a (update b c).
Proof.
  intros Hb. induction c as [|[k v] c IH] using rev_ind; [done|].
  rewrite !update_snoc, IH.
  rewrite update_set; [done | by apply DictFacts.wf_update].
Qed.

(** Writing what is already there changes nothing. *)
Lemma set_same k v d : NoDup (keys d) -> (k, v) ∈ d -> set k v d = d.
Proof.
  induction d as [|[k1 v1] d IH]; simpl.
  - by intros _ ?%elem_of_nil.
  - intros [Hk1 Hd]%NoDup_cons [[= -> ->]|Hin]%elem_of_cons.
    + by rewrite String.eqb_refl.
    + destruct (String.eqb_spec k k1) as [->|Hne].
      * destruct Hk1. by apply (list_elem_of_fmap_2 fst) in Hin.
      * by rewrite IH.
Qed.

Lemma update_same d src :
  NoDup (keys d) -> (forall kv, kv ∈ src -> kv ∈ d) -> update d src = d.
Proof.
  intros Hd. unfold update.
  induction src as [|[k v] src IH]; intros Hsub; simpl; [done|].
  rewrite set_same; [|done|apply Hsub; left].
  apply IH. intros kv Hkv. apply Hsub. by right.
Qed.

Lemma unpack2_update a b : NoDup (keys a) -> unpack2 a b = update a b.
Proof. intros Ha. unfold unpack2. by rewrite DictFacts.update_empty. Qed.

Lemma keys_unpack2 a b :
  NoDup (keys a) -> NoDup (keys b) ->
  keys (unpack2 a b)
  = keys a ++ List.filter (fun k => negb (mem k a)) (keys b).
Proof.
  intros Ha Hb. rewrite unpack2_update by done. by apply keys_update_order.
Qed.

Lemma unpack2_assoc a b c :
  NoDup (keys a) -> NoDup (keys b) ->
  unpack2 (unpack2 a b) c = unpack2 a (unpack2 b c).
Proof.
  intros Ha Hb.
  rewrite (unpack2_update a b), (unpack2_update b c) by done.
  rewrite !unpack2_update; [by apply update_assoc | done |].
  by apply DictFacts.wf_update.
Qed.

Lemma unpack2_empty_r a : NoDup (keys a) -> unpack2 a [] = a.
Proof. intros Ha. by rewrite unpack2_update. Qed.

Lemma unpack2_self a : NoDup (keys a) -> unpack2 a a = a.
Proof. intros Ha. rewrite unpack2_update by done. by apply update_same. Qed.

Lemma unpack2_again a b :
  NoDup (keys a) -> NoDup (keys b) -> unpack2 (unpack2 a b) b = unpack2 a b.
Proof. intros Ha Hb. by rewrite unpack2_assoc, (unpack2_self b). Qed.

End DictAlgebra.

(** ** Further properties of validation *)

Lemma validate_type_class v c s :
  validate_type v (VClass c) s =
    if is_instance (st_heap s) v c then (Ok v, s)
    else (Raise (TypeError ("Expected type " +:+ c +:+ ", got "
                            +:+ type_name (st_heap s) v)), s).
Proof.
  unfold validate_type. simpl.
  rewrite (bind_step _ _ _ _ _ (isinstance_spec _ _ _)).
  by destruct (is_instance (st_heap s) v c).
Qed.

Lemma validate_type_not_class v t s :
  (forall c, t <> VClass c) ->
  exists msg, validate_type v t s = (Raise (TypeError msg), s).
Proof.
  intros Ht. unfold validate_type.
  destruct (isinstance_val_cases v t s) as [(c & -> & _)|(_ & msg & Hi)].
  - by destruct (Ht c).
  - rewrite (bind_raise _ _ _ _ _ Hi). by eexists.
Qed.

Lemma validate_type_ok v t s :
  validate_type v t s = (Ok v, s) <->
  exists c, t = VClass c /\ is_instance (st_heap s) v c = true.
Proof.
  split.
  - intros H.
    assert ((exists c, t = VClass c) \/ (forall c, t <> VClass c))
      as [[c ->]|Ht] by (destruct t; eauto).
    + rewrite validate_type_class in H.
      destruct (is_instance (st_heap s) v c) eqn:E; [eauto | discriminate].
    + destruct (validate_type_not_class v t s Ht) as [msg Hm].
      rewrite Hm in H. discriminate.
  - intros (c & -> & Hi). by rewrite validate_type_class, Hi.
Qed.

(** X1: [validate_type(value, expected_type)] changes nothing and, when it
    returns, returns [value] itself.  It returns exactly when
    [isinstance(value, expected_type)] answers [True], and an exception of
    [isinstance] is the exception of the call.  When [expected_type] is a
    class, [value] is not itself a class object and [isinstance] answers
    [False], it raises the [TypeError] that names the expected class and the
    class of the value. *)
Theorem validate_type_returns_its_argument v t s :
  (validate_type v t s).2 = s /\
  (forall r, (validate_type v t s).1 = Ok r -> r = v) /\
  (validate_type v t s = (Ok v, s) <-> isinstance_val v t s = (Ok true, s)) /\
  (forall e, isinstance_val v t s = (Raise e, s) ->
     validate_type v t s = (Raise e, s)) /\
  (forall c, t = VClass c -> (forall c', v <> VClass c') ->
     isinstance_val v t s = (Ok false, s) ->
     validate_type v t s
     = (Raise (TypeError ("Expected type " +:+ c +:+ ", got "
                          +:+ type_name (st_heap s) v)), s)).
Proof.
  destruct (isinstance_val_cases v t s) as [(c & -> & Hi)|(Ht & msg & Hi)].
  - rewrite validate_type_class, Hi.
    destruct (is_instance (st_heap s) v c) eqn:E; simpl.
    + split; [done|]. split; [by intros r [= <-]|]. split; [done|].
      split; [intros e [=] | intros c' _ _ [=]].
    + split; [done|]. split; [by intros r [=]|].
      split; [split; intros [=]|].
      split; [intros e [=] | by intros c' [= <-] _ _].
  - destruct (validate_type_not_class v t s Ht) as [msg' Hm].
    assert (validate_type v t s = (Raise (TypeError msg), s)) as Hv.
    { unfold validate_type. by rewrite (bind_raise _ _ _ _ _ Hi). }
    rewrite Hv, Hi. simpl.
    split; [done|]. split; [by intros r [=]|].
    split; [split; intros [=]|].
    split; [by intros e [= <-] | intros c ->; by destruct (Ht c)].
Qed.

Lemma conforms_validate_type h config key t clock calls :
  conforms h config (key, t) <->
  exists v, Dict.get key config = Some v /\
    validate_type v t (State h clock calls) = (Ok v, State h clock calls).
Proof.
  unfold conforms. simpl. split.
  - intros (v & c & Hv & -> & Hi). exists v. split; [done|].
    apply validate_type_ok. eauto.
  - intros (v & Hv & (c & -> & Hi)%validate_type_ok). eauto.
Qed.

(** X2: [validate_config_schema] accepts a configuration exactly when, for
    every entry of the schema, the key is in the configuration and
    [validate_type] accepts its value for the declared type. *)
Theorem validate_config_schema_is_validate_type_per_key config schema s :
  validate_config_schema config schema s = (Ok tt, s) <->
  forall key t, (key, t) ∈ schema ->
    exists v, Dict.get key config = Some v /\ validate_type v t s = (Ok v, s).
Proof.
  unfold validate_config_schema. rewrite validate_items_ok, Forall_forall.
  destruct s as [h clock calls]. split.
  - intros H key t Hin. by apply conforms_validate_type, H.
  - intros H [key t] Hin. eapply conforms_validate_type, H, Hin.
Qed.

(** X3: acceptance does not depend on the order of the schema (which error
    is raised does): a configuration accepted for a schema is accepted for
    every reordering of it, and for every schema made of some of its
    entries. *)
Theorem validate_config_schema_subschema config schema schema' s :
  (forall entry, entry ∈ schema' -> entry ∈ schema) ->
  validate_config_schema config schema s = (Ok tt, s) ->
  validate_config_schema config schema' s = (Ok tt, s).
Proof.
  unfold validate_config_schema. rewrite !validate_items_ok, !Forall_forall.
  intros Hsub H entry Hin. by apply H, Hsub.
Qed.

Lemma validate_config_schema_subschema_witness :
  validate_config_schema [("model", VStr "a"); ("n", VInt 3)]
    [("n", VClass "int"); ("model", VClass "str")] Doubles.state0
  = (Ok tt, Doubles.state0).
Proof.
  apply (validate_config_schema_subschema
           [("model", VStr "a"); ("n", VInt 3)]
           [("model", VClass "str"); ("n", VClass "int")]).
  - intros entry. rewrite !elem_of_cons. tauto.
  - vm_compute; reflexivity.
Defined.

(** The loop over a schema in two parts is the loop over the first part and
    then, when that went through, the loop over the second. *)
Lemma validate_items_app config a b s :
  validate_items config (a ++ b) s
  = (validate_items config a ;;; validate_items config b) s.
Proof.
  revert s. induction a as [|[key t] a IH]; intros s; [done|].
  simpl. unfold Dict.mem.
  destruct (Dict.get key config) as [v|]; simpl; [|done].
  unfold bind. destruct (isinstance_val v t s) as [[[|]|e] s1]; simpl.
  - apply IH.
  - by destruct t.
  - done.
Qed.

(** X4: for two schemas with no key in common, validating against the merged
    schema [{**schema1, **schema2}] is validating against [schema1] and, when
    that is accepted, against [schema2]: the first error met in that order is
    the one raised. *)
Theorem validate_config_schema_merged_schema config schema1 schema2 s :
  wf_dict (schema1 ++ schema2) ->
  validate_config_schema config (Dict.unpack2 schema1 schema2) s
  = (validate_config_schema config schema1 ;;;
     validate_config_schema config schema2) s.
Proof.
  intros Hwf. unfold validate_config_schema.
  assert (wf_dict schema1) as H1.
  { unfold wf_dict, Dict.keys in *. rewrite map_app in Hwf.
    by apply NoDup_app in Hwf as (? & _). }
  rewrite DictAlgebra.unpack2_update by done.
  rewrite DictFacts.update_onto by done.
  apply validate_items_app.
Qed.

Lemma validate_config_schema_merged_schema_witness :
  validate_config_schema [("model", VStr "a")]
    (Dict.unpack2 [("model", VClass "str")] [("n", VClass "int")])
    Doubles.state0
  = (Raise (ValueError "Missing required config key: n"), Doubles.state0).
Proof.
  rewrite (validate_config_schema_merged_schema [("model", VStr "a")]
             [("model", VClass "str")] [("n", VClass "int")] Doubles.state0).
  - vm_compute; reflexivity.
  - wf_dict_tac.
Defined.
(** ** Constructing a runner *)

Lemma new_PromptExecutorBase_spec v s :
  new_PromptExecutorBase v s
  = (if is_instance (st_heap s) v "dict" then Ok (VRef (length (st_heap s)))
     else Raise (ValueError "Config schema must be a dictionary"),
     State (st_heap s ++
              [OInstance PromptExecutorBase_mro [("config_schema", v)]])
           (st_clock s) (st_calls s)).
Proof.
  unfold new_PromptExecutorBase.
  rewrite (bind_step _ _ _ _ _ (alloc_spec _ _)).
  unfold bind. rewrite PromptExecutorBase_init_fresh.
  by destruct (is_instance (st_heap s) v "dict").
Qed.

Lemma new_MetricEvaluatorBase_spec v s :
  new_MetricEvaluatorBase v s
  = (if is_instance (st_heap s) v "dict" then Ok (VRef (length (st_heap s)))
     else Raise (ValueError "Config must be a dictionary"),
     State (st_heap s ++ [OInstance MetricEvaluatorBase_mro [("config", v)]])
           (st_clock s) (st_calls s)).
Proof.
  unfold new_MetricEvaluatorBase.
  rewrite (bind_step _ _ _ _ _ (alloc_spec _ _)).
  unfold bind. rewrite MetricEvaluatorBase_init_fresh.
  by destruct (is_instance (st_heap s) v "dict").
Qed.

Lemma new_TestRunner_spec executor evaluator config s :
  new_TestRunner executor evaluator config s
  = (if negb (is_instance (st_heap s) executor "PromptExecutorBase") then
       Raise (ValueError "Executor must be an instance of PromptExecutorBase")
     else if negb (is_instance (st_heap s) evaluator "MetricEvaluatorBase") then
       Raise (ValueError "Evaluator must be an instance of MetricEvaluatorBase")
     else if negb (is_instance (st_heap s) config "TestConfig") then
       Raise (ValueError "Config must be an instance of TestConfig")
     else Ok (VRef (length (st_heap s))),
     State (st_heap s ++ [TestRunner_obj executor evaluator config])
           (st_clock s) (st_calls s)).
Proof.
  unfold new_TestRunner. rewrite (bind_step _ _ _ _ _ (alloc_spec _ _)).
  unfold bind. rewrite TestRunner_init_fresh.
  destruct (is_instance (st_heap s) executor "PromptExecutorBase"); [|done].
  destruct (is_instance (st_heap s) evaluator "MetricEvaluatorBase"); [|done].
  by destruct (is_instance (st_heap s) config "TestConfig").
Qed.

Lemma new_TestRunner_Ok executor evaluator config s runner s1 :
  new_TestRunner executor evaluator config s = (Ok runner, s1) ->
  is_instance (st_heap s) executor "PromptExecutorBase" = true /\
  is_instance (st_heap s) evaluator "MetricEvaluatorBase" = true /\
  is_instance (st_heap s) config "TestConfig" = true /\
  runner = VRef (length (st_heap s)) /\
  s1 = State (st_heap s ++ [TestRunner_obj executor evaluator config])
         (st_clock s) (st_calls s).
Proof.
  rewrite new_TestRunner_spec.
  destruct (is_instance (st_heap s) executor "PromptExecutorBase"); [|done].
  destruct (is_instance (st_heap s) evaluator "MetricEvaluatorBase"); [|done].
  destruct (is_instance (st_heap s) config "TestConfig"); [|done].
  by intros [= <- <-].
Qed.

(** X5: [TestRunner(executor, evaluator, config)] checks its components in
    the order executor, evaluator, configuration, and the [ValueError] names
    the first one that fails, whatever the later ones are.  Whether it returns
    or raises, no object of the store is changed and no method is called. *)
Theorem TestRunner_reports_first_bad_component executor evaluator config s :
  let h := st_heap s in
  let out := new_TestRunner executor evaluator config s in
  out.1 =
    (if negb (is_instance h executor "PromptExecutorBase") then
       Raise (ValueError "Executor must be an instance of PromptExecutorBase")
     else if negb (is_instance h evaluator "MetricEvaluatorBase") then
       Raise (ValueError "Evaluator must be an instance of MetricEvaluatorBase")
     else if negb (is_instance h config "TestConfig") then
       Raise (ValueError "Config must be an instance of TestConfig")
     else Ok (VRef (length h))) /\
  extends h (st_heap out.2) /\
  st_calls out.2 = st_calls s /\ st_clock out.2 = st_clock s.
Proof.
  intros h out. subst h out. rewrite new_TestRunner_spec. simpl.
  split; [done|]. split; [apply extends_app | done].
Qed.

(** ** Readings of the clock *)

Create HintDb clocked.

Lemma clocked_still {A} (m : M A) :
  (forall s, st_clock (m s).2 = st_clock s) -> clocked 0 m.
Proof. intros H s. rewrite H. by destruct (m s).1. Qed.

Lemma clocked_ret {A} (a : A) : clocked 0 (ret a).
Proof. by apply clocked_still. Qed.

Lemma clocked_raise {A} e : clocked 0 (@raise A e).
Proof. by apply clocked_still. Qed.

Lemma clocked_bind {A B} n (m : M A) (k : A -> M B) (P : A -> Prop) :
  clocked 0 m ->
  (forall s a s1, m s = (Ok a, s1) -> P a) ->
  (forall a, P a -> clocked n (k a)) ->
  clocked n (bind m k).
Proof.
  intros Hm HP Hk s. unfold bind. specialize (Hm s).
  destruct (m s) as [[a|e] s1] eqn:E; simpl in *; [|done].
  rewrite (Hk a (HP _ _ _ E) s1). by rewrite Hm.
Qed.

Lemma clocked_seq {A B} n (m : M A) (k : A -> M B) :
  clocked 0 m -> (forall a, clocked n (k a)) -> clocked n (bind m k).
Proof. intros Hm Hk. apply (clocked_bind n m k (fun _ => True)); auto. Qed.

(** A step that reads the clock, followed by steps that always return. *)
Lemma clocked_then_total {A B} n n' (m : M A) (k : A -> M B) :
  clocked n m ->
  (forall a, clocked n' (k a)) ->
  (forall a s, exists b, (k a s).1 = Ok b) ->
  clocked (n + n') (bind m k).
Proof.
  intros Hm Hk Htotal s. unfold bind. specialize (Hm s).
  destruct (m s) as [[a|e] s1]; simpl in *; [|done].
  rewrite (Hk a s1). destruct (Htotal a s1) as [b ->]. lia.
Qed.

Lemma clocked_get_heap : clocked 0 get_heap.
Proof. by apply clocked_still. Qed.

Lemma clocked_alloc o : clocked 0 (alloc o).
Proof. by apply clocked_still. Qed.

Lemma clocked_no_attribute {A} v name : clocked 0 (@no_attribute A v name).
Proof. by apply clocked_still. Qed.

Lemma clocked_getattr v name : clocked 0 (getattr v name).
Proof.
  apply clocked_still. intros s. destruct (getattr v name s) as [r s'] eqn:E.
  by apply getattr_cases in E as [-> _].
Qed.

Lemma clocked_truthy v : clocked 0 (truthy v).
Proof. by apply clocked_still. Qed.

Lemma clocked_isinstance v c : clocked 0 (isinstance v c).
Proof. by apply clocked_still. Qed.

Lemma clocked_class_name_of v : clocked 0 (class_name_of v).
Proof. by apply clocked_still. Qed.

Lemma clocked_if {A} n (b : bool) (m1 m2 : M A) :
  clocked n m1 -> clocked n m2 -> clocked n (if b then m1 else m2).
Proof. by destruct b. Qed.

#[local] Hint Resolve clocked_ret clocked_raise clocked_get_heap clocked_alloc
  clocked_no_attribute clocked_getattr clocked_truthy clocked_isinstance
  clocked_class_name_of clocked_if : clocked.

Ltac clocked_tac :=
  repeat first
    [ solve [eauto with clocked]
    | apply clocked_seq; [|intros ?]
    | match goal with
      | |- clocked _ (match ?x with _ => _ end) => destruct x
      end ].

Lemma clocked_unpack_into acc v : clocked 0 (unpack_into acc v).
Proof. unfold unpack_into, not_a_mapping. clocked_tac. Qed.
#[local] Hint Resolve clocked_unpack_into : clocked.

Lemma clocked_merged_dict a b name : clocked 0 (merged_dict a b name).
Proof. unfold merged_dict. clocked_tac. Qed.
#[local] Hint Resolve clocked_merged_dict : clocked.

Lemma clocked_merge_configs self base override :
  clocked 0 (TestRunner_merge_configs self base override).
Proof. unfold TestRunner_merge_configs, new_TestConfig. clocked_tac. Qed.

Lemma clocked_or_empty_dict v : clocked 0 (or_empty_dict v).
Proof. unfold or_empty_dict. clocked_tac. Qed.
#[local] Hint Resolve clocked_merge_configs clocked_or_empty_dict : clocked.

(** ** Calls that return and calls that raise *)

Lemma quiet_orderly {A} (m : M A) : quiet m -> orderly m.
Proof.
  intros Hq s. destruct (Hq s) as [_ Hc]. exists [].
  split; [by rewrite Hc, app_nil_r | left; constructor].
Qed.

Lemma orderly_bind {A B} (m : M A) (k : A -> M B) (P : A -> Prop) :
  orderly m ->
  (forall s a s1, m s = (Ok a, s1) -> P a) ->
  (forall a, P a -> orderly (k a)) ->
  orderly (bind m k).
Proof.
  intros Hm HP Hk s. unfold bind. destruct (Hm s) as (cs1 & Hc1 & H1).
  destruct (m s) as [[a|e] s1] eqn:E; simpl in *.
  2: { exists cs1. split; [exact Hc1|].
       destruct H1 as [?|(cs' & c & e0 & ? & ? & ? & [= <-] & ?)]; [by left|].
       right. by exists cs', c, e. }
  destruct (Hk a (HP _ _ _ E) s1) as (cs2 & Hc2 & H2).
  assert (Forall returned cs1) as Hr1.
  { by destruct H1 as [?|(cs' & c & e & _ & _ & _ & [=] & _)]. }
  exists (cs1 ++ cs2). split; [by rewrite Hc2, Hc1, app_assoc|].
  destruct H2 as [H2|(cs' & c & e & -> & Hr & Hres & Hout & Hheap)].
  - left. by apply Forall_app.
  - right. exists (cs1 ++ cs'), c, e. rewrite app_assoc.
    repeat split; try done. by apply Forall_app.
Qed.

Section PackageProperties.

Variable user_method : class_name -> string -> option user_code.
Variable wall_clock : nat -> Z.
Variable isoformat : Z -> string.

Local Abbreviation run := (TestRunner_run user_method wall_clock isoformat).
Local Abbreviation get_metadata :=
  (TestRunner_get_metadata wall_clock isoformat).

(** A method body, wherever it comes from, does not read the runner's
    clock. *)
Lemma method_clock f self args kw s :
  origin user_method f -> st_clock (f self args kw s).2 = st_clock s.
Proof.
  intros [->| ->|c name u _ ->].
  - by destruct (base_execute_raises self args kw s) as (e & -> & _).
  - by destruct (base_evaluate_raises self args kw s) as (e & -> & _).
  - unfold run_user. by destruct (u self args kw (st_heap s)).
Qed.

Lemma clocked_getmethod recv name :
  clocked 0 (getmethod user_method recv name).
Proof.
  apply clocked_still. intros s.
  destruct (getmethod user_method recv name s) as [r s'] eqn:E.
  by apply getmethod_cases in E as [-> _].
Qed.

Lemma clocked_call_method b args kw :
  origin user_method (bm_func b) -> clocked 0 (call_method b args kw).
Proof.
  intros Ho. apply clocked_still. intros s.
  destruct (call_method b args kw s) as [r t] eqn:E.
  apply call_method_cases in E as (s' & Hbody & ->).
  pose proof (method_clock _ (bm_self b) args kw s Ho) as Hclock.
  by rewrite Hbody in Hclock.
Qed.

Lemma orderly_call_method b args kw :
  origin user_method (bm_func b) -> orderly (call_method b args kw).
Proof.
  intros Ho s. destruct (call_method b args kw s) as [r t] eqn:E.
  apply call_method_cases in E as (s' & Hbody & ->).
  pose proof (method_calls user_method _ (bm_self b) args kw s Ho) as Hcalls.
  rewrite Hbody in Hcalls. simpl in *.
  eexists [_]. split; [by rewrite Hcalls|].
  destruct r as [x|e].
  - left. constructor; [by exists x | constructor].
  - right. by eexists [], _, e.
Qed.

(** *** [_get_metadata] *)

Lemma get_metadata_spec self s :
  match field (st_heap s) self "executor",
        field (st_heap s) self "evaluator" with
  | Some e, Some v =>
      get_metadata self s
      = (Ok (VRef (length (st_heap s))),
         State (st_heap s ++
                  [ODict (metadata_items (st_heap s) e v
                            (isoformat (wall_clock (st_clock s))))])
               (S (st_clock s)) (st_calls s))
  | _, _ => exists msg, get_metadata self s = (Raise (AttributeError msg), s)
  end.
Proof.
  unfold TestRunner_get_metadata.
  pose proof (getattr_spec self "executor" s) as He.
  pose proof (getattr_spec self "evaluator" s) as Hv.
  destruct (field (st_heap s) self "executor") as [e|].
  - rewrite (bind_step _ _ _ _ _ He).
    rewrite (bind_step _ _ _ _ _
               (eq_refl : class_name_of e s
                          = (Ok (type_name (st_heap s) e), s))).
    destruct (field (st_heap s) self "evaluator") as [v|].
    + rewrite (bind_step _ _ _ _ _ Hv). done.
    + destruct Hv as [msg Hv]. rewrite (bind_raise _ _ _ _ _ Hv). by exists msg.
  - destruct He as [msg He]. rewrite (bind_raise _ _ _ _ _ He). by exists msg.
Qed.

Lemma get_metadata_Ok self s md s5 :
  get_metadata self s = (Ok md, s5) ->
  exists e v,
    field (st_heap s) self "executor" = Some e /\
    field (st_heap s) self "evaluator" = Some v /\
    md = VRef (length (st_heap s)) /\
    s5 = State (st_heap s ++
                  [ODict (metadata_items (st_heap s) e v
                            (isoformat (wall_clock (st_clock s))))])
           (S (st_clock s)) (st_calls s).
Proof.
  intros H. pose proof (get_metadata_spec self s) as Hs.
  destruct (field (st_heap s) self "executor") as [e|];
    [destruct (field (st_heap s) self "evaluator") as [v|]|].
  - rewrite Hs in H. injection H as <- <-. by exists e, v.
  - destruct Hs as [msg Hs]. congruence.
  - destruct Hs as [msg Hs]. congruence.
Qed.

Lemma clocked_get_metadata self : clocked 1 (get_metadata self).
Proof.
  intros s. pose proof (get_metadata_spec self s) as Hs.
  destruct (field (st_heap s) self "executor") as [e|];
    [destruct (field (st_heap s) self "evaluator") as [v|]|].
  - by rewrite Hs.
  - destruct Hs as [msg ->]. done.
  - destruct Hs as [msg ->]. done.
Qed.

(** X6: [_get_metadata] returns a new dictionary with the keys
    [executor_type], [evaluator_type] and [timestamp], in that order: the
    names of the classes of the runner's executor and evaluator (the class of
    the object itself, first in its MRO, not the base class it derives from)
    and the clock in ISO format.  The clock is read once, no other object is
    touched and nothing is called.  On an object without an [executor] or an
    [evaluator] attribute it raises [AttributeError], the clock unread. *)
Theorem get_metadata_describes_components self s :
  match field (st_heap s) self "executor",
        field (st_heap s) self "evaluator" with
  | Some e, Some v =>
      get_metadata self s
      = (Ok (VRef (length (st_heap s))),
         State (st_heap s ++
                  [ODict [("executor_type", VStr (type_name (st_heap s) e));
                          ("evaluator_type", VStr (type_name (st_heap s) v));
                          ("timestamp",
                           VStr (isoformat (wall_clock (st_clock s))))]])
               (S (st_clock s)) (st_calls s))
  | _, _ => exists msg, get_metadata self s = (Raise (AttributeError msg), s)
  end /\
  (forall x c rest, mro_of (st_heap s) x = c :: rest ->
     type_name (st_heap s) x = c).
Proof.
  split; [apply get_metadata_spec|].
  intros x c rest Hx. unfold type_name. by rewrite Hx.
Qed.

(** *** The run as a whole *)

Lemma quiet_new_TestResult a b c d e : quiet (new_TestResult a b c d e).
Proof. unfold new_TestResult. quiet_tac. Qed.

(** Every action of [run] other than the two calls is quiet. *)
Ltac run_quiet :=
  first [ apply quiet_getmethod | apply quiet_get_metadata
        | apply quiet_datetime_now | apply quiet_new_TestResult
        | quiet_tac ].

Lemma run_orderly self input_data evaluation_params override_config :
  orderly (run self input_data evaluation_params override_config).
Proof.
  unfold TestRunner_run.
  repeat first
    [ solve [apply quiet_orderly; run_quiet]
    | apply (orderly_bind (getmethod user_method _ _) _
               (fun b => origin user_method (bm_func b)));
      [ apply quiet_orderly; run_quiet
      | intros ? ? ?; apply getmethod_origin
      | intros ? ? ]
    | apply (orderly_bind (call_method _ _ _) _ (fun _ => True));
      [ by apply orderly_call_method | done | intros ? _ ]
    | apply (orderly_bind _ _ (fun _ => True));
      [ apply quiet_orderly; run_quiet | done | intros ? _ ] ].
Qed.

Lemma run_clocked self input_data evaluation_params override_config :
  clocked 2 (run self input_data evaluation_params override_config).
Proof.
  unfold TestRunner_run.
  repeat first
    [ apply (clocked_then_total 1 1 (get_metadata self));
      [ apply clocked_get_metadata
      | intros ? ?; reflexivity
      | intros ? ?; by eexists ]
    | apply (clocked_bind _ (getmethod user_method _ _) _
               (fun b => origin user_method (bm_func b)));
      [ apply clocked_getmethod
      | intros ? ? ?; apply getmethod_origin
      | intros ? ? ]
    | apply (clocked_bind _ (call_method _ _ _) _ (fun _ => True));
      [ by apply clocked_call_method | done | intros ? _ ]
    | apply (clocked_bind _ _ _ (fun _ => True));
      [ solve [clocked_tac] | done | intros ? _ ] ].
Qed.


(** *** A run that returns *)

(** The steps of a run that returned, with the two calls it made, the store
    it ends in and the readings of the clock. *)
Lemma run_ok_anatomy
    self input_data evaluation_params override_config s res s' :
  run self input_data evaluation_params override_config s = (Ok res, s') ->
  exists base eff s1 executor ec out s2 evaluator executor' ec' tc params s3
         m s4 e v c1 c2,
    field (st_heap s) self "config" = Some base /\
    TestRunner_merge_configs self base override_config s = (Ok eff, s1) /\
    field (st_heap s1) self "executor" = Some executor /\
    field (st_heap s1) eff "executor_config" = Some ec /\
    c1 = Call executor "execute" [input_data; ec] []
           (st_heap s1) (Ok out) (st_heap s2) /\
    field (st_heap s2) self "evaluator" = Some evaluator /\
    field (st_heap s2) self "executor" = Some executor' /\
    field (st_heap s2) eff "executor_config" = Some ec' /\
    field (st_heap s2) eff "metric_config" = Some tc /\
    or_empty_dict evaluation_params (recorded s2 c1) = (Ok params, s3) /\
    c2 = Call evaluator "evaluate" []
           (evaluate_kwargs executor' input_data out ec' tc params)
           (st_heap s3) (Ok m) (st_heap s4) /\
    field (st_heap s4) self "executor" = Some e /\
    field (st_heap s4) self "evaluator" = Some v /\
    new_calls s s' = [c1; c2] /\
    res = VRef (S (length (st_heap s4))) /\
    st_heap s' =
      st_heap s4 ++
        [ODict (metadata_items (st_heap s4) e v
                  (isoformat (wall_clock (st_clock s))));
         TestResult_obj m out eff (VRef (length (st_heap s4)))
           (VDatetime (wall_clock (S (st_clock s))))] /\
    st_clock s' = S (S (st_clock s)).
Proof.
  intros Hrun. apply run_ok_iff in Hrun.
  destruct Hrun
    as [base eff s1 executor f ec out s2 evaluator g executor' ec' tc params s3
          m s4 md s5 Hbase Hmerge Hex Hf Hec Hcall c1 Hev Hg Hex' Hec'
          Htc Hep kw Hcall2 c2 Hmeta].
  apply get_metadata_Ok in Hmeta as (e & v & He & Hv & -> & ->).
  cbn [recorded st_heap st_clock st_calls] in *.
  (* the clock is not read before the metadata is built *)
  pose proof (clocked_merge_configs self base override_config s) as K1.
  rewrite Hmerge in K1.
  pose proof (method_clock f executor [input_data; ec] [] s1
                (find_method_origin _ _ _ _ Hf)) as K2.
  rewrite Hcall in K2.
  pose proof (clocked_or_empty_dict evaluation_params (recorded s2 c1)) as K3.
  rewrite Hep in K3.
  pose proof (method_clock g evaluator [] kw s3
                (find_method_origin _ _ _ _ Hg)) as K4.
  rewrite Hcall2 in K4.
  assert (st_clock s4 = st_clock s) as K by (simpl in *; congruence).
  (* the trace *)
  pose proof (quiet_merge_configs self base override_config s) as [_ T1].
  rewrite Hmerge in T1.
  pose proof (method_calls user_method f executor [input_data; ec] [] s1
                (find_method_origin _ _ _ _ Hf)) as T2.
  rewrite Hcall in T2.
  pose proof (quiet_or_empty_dict evaluation_params (recorded s2 c1))
    as [_ T3].
  rewrite Hep in T3.
  pose proof (method_calls user_method g evaluator [] kw s3
                (find_method_origin _ _ _ _ Hg)) as T4.
  rewrite Hcall2 in T4. simpl in T1, T2, T3, T4.
  exists base, eff, s1, executor, ec, out, s2, evaluator, executor', ec', tc,
    params, s3, m, s4, e, v, c1, c2.
  rewrite K in *.
  repeat split; try done.
  - apply new_calls_app. simpl. rewrite T4, T3, T2, T1.
    by rewrite <- app_assoc.
  - by rewrite length_app, Nat.add_1_r.
  - simpl. by rewrite <- app_assoc.
Qed.

(** X7: the record a returning [run] builds.  Its [metric_output] is what
    the [evaluate] call returned; its [metadata] is a new dictionary naming
    the classes of the runner's executor and evaluator as they are once
    [evaluate] has returned, with the first reading of the clock in ISO
    format; its [timestamp] is the second reading of the clock, so the two
    time stamps of a result come from different readings.  The clock is read
    exactly twice, and the store the run ends in is the store [evaluate] left
    plus these two objects. *)
Theorem run_fills_the_result
    self input_data evaluation_params override_config s res s' :
  run self input_data evaluation_params override_config s = (Ok res, s') ->
  exists c1 c2 m e v md,
    new_calls s s' = [c1; c2] /\ meth c2 = "evaluate" /\ result c2 = Ok m /\
    is_instance (st_heap s') res "TestResult" = true /\
    field (st_heap s') res "metric_output" = Some m /\
    field (st_heap s') res "metadata" = Some md /\
    field (heap_after c2) self "executor" = Some e /\
    field (heap_after c2) self "evaluator" = Some v /\
    items_of (st_heap s') md =
      Some [("executor_type", VStr (type_name (heap_after c2) e));
            ("evaluator_type", VStr (type_name (heap_after c2) v));
            ("timestamp", VStr (isoformat (wall_clock (st_clock s))))] /\
    field (st_heap s') res "timestamp"
      = Some (VDatetime (wall_clock (S (st_clock s)))) /\
    st_clock s' = S (S (st_clock s)) /\
    md = VRef (length (heap_after c2)) /\
    res = VRef (S (length (heap_after c2))) /\
    extends (heap_after c2) (st_heap s') /\
    length (st_heap s') = 2 + length (heap_after c2).
Proof.
  intros Hrun. apply run_ok_anatomy in Hrun
    as (base & eff & s1 & executor & ec & out & s2 & evaluator & executor'
        & ec' & tc & params & s3 & m & s4 & e & v & c1 & c2 & _ & _ & _ & _
        & _ & _ & _ & _ & _ & _ & -> & He & Hv & Hcalls & -> & Hheap & Hclock).
  eexists c1, _, m, e, v, (VRef (length (st_heap s4))).
  split; [exact Hcalls|].
  cbn [meth result heap_after]. rewrite Hheap.
  pose proof (lookup_fresh (st_heap s4)
                [ODict (metadata_items (st_heap s4) e v
                          (isoformat (wall_clock (st_clock s))));
                 TestResult_obj m out eff (VRef (length (st_heap s4)))
                   (VDatetime (wall_clock (S (st_clock s))))]) as Hl.
  pose proof (Hl 0) as Hl0. pose proof (Hl 1) as Hl1.
  rewrite Nat.add_0_r in Hl0. rewrite Nat.add_1_r in Hl1.
  simpl in Hl0, Hl1.
  repeat split; try done.
  - unfold is_instance. simpl. by rewrite Hl1.
  - unfold field. by rewrite Hl1.
  - unfold field. by rewrite Hl1.
  - unfold items_of. by rewrite Hl0.
  - unfold field. by rewrite Hl1.
  - apply extends_app.
  - rewrite length_app. simpl. lia.
Qed.

(** X8: the [evaluate] call of a returning run.  It is made by keyword
    only, with exactly the six parameters of the abstract signature; the
    input is the one [execute] got and [base_output] is what [execute]
    returned.  The executor, the [executor_config] and the [test_config] are
    read again, from the runner and from the effective configuration, once
    [execute] has returned; when [execute] left those two objects alone,
    [evaluate] gets the very executor that was called and the very
    [executor_config] it was called with. *)
Theorem evaluate_gets_what_execute_got
    self input_data evaluation_params override_config s res s' :
  run self input_data evaluation_params override_config s = (Ok res, s') ->
  exists c1 c2 effective executor ec tc params out,
    new_calls s s' = [c1; c2] /\
    meth c2 = "evaluate" /\ args c2 = [] /\
    kwargs c2 =
      [("executor", executor); ("input_data", input_data);
       ("base_output", out); ("executor_config", ec); ("test_config", tc);
       ("evaluation_params", params)] /\
    bind_params evaluate_params (args c2) (kwargs c2)
      = Some [executor; input_data; out; ec; tc; params] /\
    result c1 = Ok out /\
    field (st_heap s') res "configs_used" = Some effective /\
    field (heap_after c1) self "evaluator" = Some (callee c2) /\
    field (heap_after c1) self "executor" = Some executor /\
    field (heap_after c1) effective "executor_config" = Some ec /\
    field (heap_after c1) effective "metric_config" = Some tc /\
    ((forall l o, self = VRef l \/ effective = VRef l -> call_keeps l o c1) ->
     callee c1 = executor /\ args c1 = [input_data; ec]).
Proof.
  intros Hrun. apply run_ok_anatomy in Hrun
    as (base & eff & s1 & executor0 & ec0 & out & s2 & evaluator & executor
        & ec & tc & params & s3 & m & s4 & e & v & c1 & c2 & _ & _ & Hex0
        & Hec0 & -> & Hev & Hex & Hec & Htc & _ & -> & _ & _ & Hcalls & ->
        & Hheap & _).
  eexists _, _, eff, executor, ec, tc, params, out.
  split; [exact Hcalls|].
  cbn [meth args kwargs result callee heap_after at_heap].
  do 5 (split; [done|]). split.
  { rewrite Hheap. unfold field.
    replace (S (length (st_heap s4))) with (length (st_heap s4) + 1) by lia.
    by rewrite lookup_fresh. }
  do 4 (split; [done|]).
  intros Hkeep.
  assert (forall x name y, x = self \/ x = eff ->
            field (st_heap s1) x name = Some y ->
            field (st_heap s2) x name = Some y) as Hkept.
  { intros x name y Hx Hy.
    destruct (field_is_instance _ _ _ _ Hy) as (l & mro & attrs & -> & Hl).
    unfold field in *. rewrite Hl in Hy.
    assert (st_heap s2 !! l = Some (OInstance mro attrs)) as ->; [|done].
    apply (Hkeep l (OInstance mro attrs)); [|done].
    destruct Hx as [<-| <-]; auto. }
  split.
  - apply (Hkept self) in Hex0; [|by left]. congruence.
  - apply (Hkept eff) in Hec0; [|by right]. congruence.
Qed.

(** *** A run that raises *)

Ltac orderly_tac :=
  repeat first
    [ solve [apply quiet_orderly; run_quiet]
    | apply (orderly_bind (getmethod user_method _ _) _
               (fun b => origin user_method (bm_func b)));
      [ apply quiet_orderly; run_quiet
      | intros ? ? ?; apply getmethod_origin
      | intros ? ? ]
    | apply (orderly_bind (call_method _ _ _) _ (fun _ => True));
      [ by apply orderly_call_method | done | intros ? _ ]
    | apply (orderly_bind _ _ (fun _ => True));
      [ apply quiet_orderly; run_quiet | done | intros ? _ ] ].

(** X9: a call that raises ends the run.  The run raises the same exception,
    it makes no call after that one (so [evaluate] is not called when
    [execute] raised), it does nothing to the store after the call, and it
    does not read the clock: no metadata and no result are built.  A run that
    raises never reads the clock; a run that returns read it twice and every
    call it made returned. *)
Theorem run_stops_at_first_error
    self input_data evaluation_params override_config s r s' :
  run self input_data evaluation_params override_config s = (r, s') ->
  (forall c e, c ∈ new_calls s s' -> result c = Raise e ->
     r = Raise e /\ last (new_calls s s') = Some c /\
     st_heap s' = heap_after c) /\
  (forall c e, c ∈ new_calls s s' -> meth c = "execute" ->
     result c = Raise e -> new_calls s s' = [c]) /\
  (forall e, r = Raise e -> st_clock s' = st_clock s) /\
  (forall res, r = Ok res ->
     Forall returned (new_calls s s') /\ st_clock s' = 2 + st_clock s).
Proof.
  intros Hrun.
  destruct (run_orderly self input_data evaluation_params override_config s)
    as (cs & Hcs & Hshape).
  pose proof (run_clocked self input_data evaluation_params override_config s)
    as Hclock.
  rewrite Hrun in Hcs, Hshape, Hclock. simpl in Hcs, Hshape, Hclock.
  rewrite (new_calls_app _ _ _ Hcs).
  assert (forall c e, c ∈ cs -> result c = Raise e ->
            r = Raise e /\ last cs = Some c /\ st_heap s' = heap_after c)
    as Hfirst.
  { intros c e Hin Hres.
    destruct Hshape as [Hall|(cs' & c0 & e0 & -> & Hall & Hres0 & -> & Hheap)].
    - rewrite Forall_forall in Hall. destruct (Hall c Hin) as [x Hx].
      congruence.
    - apply elem_of_app in Hin as [Hin|Hin%list_elem_of_singleton].
      + rewrite Forall_forall in Hall. destruct (Hall c Hin) as [x Hx].
        congruence.
      + subst c0. rewrite last_snoc. split; [congruence | done]. }
  split; [exact Hfirst|]. split; [|split].
  - intros c e Hin Hmeth Hres.
    destruct (Hfirst c e Hin Hres) as (_ & Hlast & _).
    apply run_calls in Hrun as Hcalls.
    rewrite (new_calls_app _ _ _ Hcs) in Hcalls.
    destruct Hcalls as [->|[(c1 & -> & _)
                           |(c1 & c2 & ? & ? & ? & -> & _ & Hm2 & _)]].
    + by apply elem_of_nil in Hin.
    + by injection Hlast as <-.
    + injection Hlast as <-. congruence.
  - by intros e ->.
  - intros res ->. split; [|done].
    by destruct Hshape as [?|(? & ? & ? & _ & _ & _ & [=] & _)].
Qed.

(** X10: what [evaluate] gets as [evaluation_params] is decided by the truth
    value of what the caller passed.  A true value is handed over as it is,
    whatever its type.  A false one ([None], [False], [0], the empty string,
    an empty dictionary) is replaced by a new empty dictionary: when the
    caller passes an empty dictionary, [evaluate] does not get that
    dictionary but another one. *)
Theorem false_evaluation_params_are_replaced
    self input_data evaluation_params override_config s r s' :
  run self input_data evaluation_params override_config s = (r, s') ->
  forall c, c ∈ new_calls s s' -> meth c = "evaluate" ->
    (truth (at_heap c) evaluation_params = true ->
     Dict.get "evaluation_params" (kwargs c) = Some evaluation_params) /\
    (truth (at_heap c) evaluation_params = false ->
     exists p,
       Dict.get "evaluation_params" (kwargs c) = Some (VRef p) /\
       VRef p <> evaluation_params /\ at_heap c !! p = Some (ODict [])) /\
    (evaluation_params ∈ [VNone; VBool false; VInt 0; VStr ""] \/
     items_of (at_heap c) evaluation_params = Some [] ->
     truth (at_heap c) evaluation_params = false).
Proof.
  intros Hrun c Hin Hmeth. apply run_calls in Hrun.
  destruct Hrun as [Hc|[(c1 & Hc & Hm1)
                       |(c1 & c2 & s2 & params & s3 & Hc & Hm1 & Hm2 & Hp
                         & Hat & Hkw)]];
    rewrite Hc in Hin.
  { by apply elem_of_nil in Hin. }
  { apply list_elem_of_singleton in Hin as ->. congruence. }
  apply elem_of_cons in Hin as [->|Hin]; [congruence|].
  apply list_elem_of_singleton in Hin as ->.
  rewrite or_empty_dict_spec in Hp. rewrite Hat, Hkw. clear Hat Hkw.
  assert (truth (st_heap s2) evaluation_params = false ->
          forall ext, truth (st_heap s2 ++ ext) evaluation_params = false)
    as Hstays.
  { intros Ht ext. destruct evaluation_params as [| | | | | | | |l]; try done.
    simpl in *. destruct (st_heap s2 !! l) as [o|] eqn:E; [|done].
    by rewrite (lookup_app_l_Some _ _ _ _ E). }
  destruct (truth (st_heap s2) evaluation_params) eqn:Ht;
    injection Hp as <- <-; cbn [st_heap].
  - split; [done|]. split; [congruence|].
    intros [Hv|Hd].
    + rewrite !elem_of_cons, elem_of_nil in Hv.
      destruct Hv as [->|[->|[->|[->|[]]]]]; done.
    + unfold items_of in Hd. destruct evaluation_params; try done.
      simpl in *. by destruct (st_heap s2 !! l) as [[[|]|]|].
  - split; [|split].
    + rewrite Hstays; done.
    + intros _. exists (length (st_heap s2)). split; [done|]. split.
      * intros <-. simpl in Ht.
        by rewrite lookup_ge_None_2 in Ht by lia.
      * by rewrite list_lookup_middle.
    + intros _. by apply Hstays.
Qed.

(** *** From the constructor to the first call *)

(** An instance of [PromptExecutorBase] has an [execute] method, its own or
    the abstract one; an instance of [MetricEvaluatorBase] an [evaluate]. *)
Lemma find_method_execute mro :
  in_mro "PromptExecutorBase" mro = true ->
  exists f, find_method user_method mro "execute" = Some f.
Proof.
  induction mro as [|c mro IH]; [done|].
  unfold in_mro. cbn [existsb find_method].
  destruct (class_method user_method c "execute") as [f|] eqn:E; [eauto|].
  destruct (String.eqb_spec "PromptExecutorBase" c) as [<-|Hne]; [done|].
  apply IH.
Qed.

Lemma find_method_evaluate mro :
  in_mro "MetricEvaluatorBase" mro = true ->
  exists g, find_method user_method mro "evaluate" = Some g.
Proof.
  induction mro as [|c mro IH]; [done|].
  unfold in_mro. cbn [existsb find_method].
  destruct (class_method user_method c "evaluate") as [g|] eqn:E; [eauto|].
  destruct (String.eqb_spec "MetricEvaluatorBase" c) as [<-|Hne]; [done|].
  apply IH.
Qed.

Lemma mro_of_extends h h' v c :
  extends h h' -> is_instance h v c = true -> mro_of h' v = mro_of h v.
Proof.
  intros He Hi. destruct v as [| | | | | | | |l]; try done.
  unfold is_instance in Hi. simpl in *.
  destruct (h !! l) as [o|] eqn:E; [|done].
  by rewrite (extends_lookup _ _ _ _ He E).
Qed.

(** A run without override on a runner whose executor has an [execute]
    method gets as far as calling it, with the input and the base's own
    [executor_config]; when that call raises, so does the run, at once. *)
Lemma run_until_execute
    self input_data evaluation_params base executor f ec s r s' :
  field (st_heap s) self "config" = Some base ->
  field (st_heap s) self "executor" = Some executor ->
  find_method user_method (mro_of (st_heap s) executor) "execute" = Some f ->
  field (st_heap s) base "executor_config" = Some ec ->
  run self input_data evaluation_params VNone s = (r, s') ->
  exists r1 s2 rest,
    f executor [input_data; ec] [] s = (r1, s2) /\
    new_calls s s' =
      Call executor "execute" [input_data; ec] [] (st_heap s) r1 (st_heap s2)
      :: rest /\
    (forall e, r1 = Raise e ->
       r = Raise e /\ rest = [] /\
       s' = recorded s2
              (Call executor "execute" [input_data; ec] [] (st_heap s)
                 (Raise e) (st_heap s2))).
Proof.
  intros Hcfg Hex Hf Hec Hrun. unfold TestRunner_run in Hrun.
  rewrite (bind_step _ _ _ _ _ (getattr_field _ _ _ _ Hcfg)) in Hrun.
  rewrite (bind_step _ _ _ _ _ (merge_configs_none self base s)) in Hrun.
  rewrite (bind_step _ _ _ _ _ (getattr_field _ _ _ _ Hex)) in Hrun.
  rewrite (bind_step _ _ _ _ _ (getmethod_found _ _ _ _ _ Hf)) in Hrun.
  rewrite (bind_step _ _ _ _ _ (getattr_field _ _ _ _ Hec)) in Hrun.
  destruct (f executor [input_data; ec] [] s) as [r1 s2] eqn:Hbody.
  pose proof (method_calls user_method f executor [input_data; ec] [] s
                (find_method_origin _ _ _ _ Hf)) as Hcalls.
  rewrite Hbody in Hcalls. simpl in Hcalls.
  pose proof (call_method_body _ "execute" _ _ _ _ _ _ Hbody) as Hcall.
  exists r1, s2. destruct r1 as [out|e].
  - rewrite (bind_step _ _ _ _ _ Hcall) in Hrun.
    match type of Hrun with
    | ?m ?t = _ => assert (orderly m) as Ho by orderly_tac;
                   destruct (Ho t) as (cs & Hcs & _)
    end.
    rewrite Hrun in Hcs. simpl in Hcs. exists cs. split; [done|].
    split; [|done]. apply new_calls_app.
    by rewrite Hcs, Hcalls, <- app_assoc.
  - rewrite (bind_raise _ _ _ _ _ Hcall) in Hrun. injection Hrun as <- <-.
    exists []. split; [done|]. split.
    + apply new_calls_app. simpl. by rewrite Hcalls.
    + by intros e' [= <-].
Qed.

(** X11: the components a runner was constructed with resolve their
    methods: [executor.execute] and [evaluator.evaluate] are found, so the
    constructor's checks rule out an [AttributeError] at these two places.
    A run without override on the new runner gets as far as calling
    [execute] on that executor, with the input and the [executor_config] of
    the configuration the runner was given. *)
Theorem constructed_runner_reaches_execute
    executor evaluator config s runner s1 :
  new_TestRunner executor evaluator config s = (Ok runner, s1) ->
  (exists f, getmethod user_method executor "execute" s1
             = (Ok (Bound executor "execute" f), s1)) /\
  (exists g, getmethod user_method evaluator "evaluate" s1
             = (Ok (Bound evaluator "evaluate" g), s1)) /\
  forall ec input_data evaluation_params r s',
    field (st_heap s) config "executor_config" = Some ec ->
    run runner input_data evaluation_params VNone s1 = (r, s') ->
    exists c1 rest,
      new_calls s1 s' = c1 :: rest /\ callee c1 = executor /\
      meth c1 = "execute" /\ args c1 = [input_data; ec] /\ kwargs c1 = [] /\
      at_heap c1 = st_heap s1.
Proof.
  intros (Hx & Hv & Hc & -> & ->)%new_TestRunner_Ok.
  set (h := st_heap s) in *.
  set (s1 := State (h ++ [TestRunner_obj executor evaluator config])
               (st_clock s) (st_calls s)).
  assert (extends h (st_heap s1)) as He by apply extends_app.
  destruct (find_method_execute _ Hx) as [f Hf].
  destruct (find_method_evaluate _ Hv) as [g Hg].
  rewrite <- (mro_of_extends _ _ _ _ He Hx) in Hf.
  rewrite <- (mro_of_extends _ _ _ _ He Hv) in Hg.
  split; [exists f; by apply getmethod_found|].
  split; [exists g; by apply getmethod_found|].
  intros ec input_data evaluation_params r s' Hec Hrun.
  destruct (run_until_execute (VRef (length h)) input_data evaluation_params
              config executor f ec s1 r s')
    as (r1 & s2 & rest & _ & Hcalls & _); try done.
  - apply field_last.
  - apply field_last.
  - by eapply extends_field.
  - by eexists _, rest.
Qed.

(** X12: with the two base classes alone nothing can be run.  A runner built
    from a [PromptExecutorBase], a [MetricEvaluatorBase] and a [TestConfig]
    is accepted by every constructor; its [run] calls [execute], which raises
    [NotImplementedError], and that is how the run ends: [evaluate] is not
    called, the clock is not read, and the store stays as the constructors
    left it. *)
Theorem base_classes_alone_cannot_run a b x y input_data evaluation_params s :
  is_instance (st_heap s) a "dict" = true ->
  is_instance (st_heap s) b "dict" = true ->
  exists s' c1,
    (executor <- new_PromptExecutorBase a ;;
     evaluator <- new_MetricEvaluatorBase b ;;
     config <- new_TestConfig x y ;;
     runner <- new_TestRunner executor evaluator config ;;
     run runner input_data evaluation_params VNone) s
    = (Raise NotImplementedError, s') /\
    new_calls s s' = [c1] /\
    callee c1 = VRef (length (st_heap s)) /\ meth c1 = "execute" /\
    args c1 = [input_data; x] /\ result c1 = Raise NotImplementedError /\
    heap_after c1 = at_heap c1 /\ st_heap s' = at_heap c1 /\
    length (st_heap s') = 4 + length (st_heap s) /\
    st_clock s' = st_clock s.
Proof.
  intros Ha Hb. destruct s as [h clock calls]. cbn [st_heap st_clock] in *.
  set (o1 := OInstance PromptExecutorBase_mro [("config_schema", a)]).
  set (o2 := OInstance MetricEvaluatorBase_mro [("config", b)]).
  set (e := VRef (length h)).
  set (v := VRef (length (h ++ [o1]))).
  set (c := VRef (length ((h ++ [o1]) ++ [o2]))).
  set (o3 := OInstance ["TestConfig"; "object"]
               [("executor_config", x); ("metric_config", y)]).
  set (h3 := ((h ++ [o1]) ++ [o2]) ++ [o3]).
  set (h4 := h3 ++ [TestRunner_obj e v c]).
  assert (h3 !! length h = Some o1) as L1.
  { do 2 apply lookup_app_l_Some. apply list_lookup_middle; done. }
  assert (h3 !! length (h ++ [o1]) = Some o2) as L2.
  { apply lookup_app_l_Some. apply list_lookup_middle; done. }
  assert (h3 !! length ((h ++ [o1]) ++ [o2]) = Some o3) as L3.
  { apply list_lookup_middle; done. }
  (* the constructors *)
  pose proof (new_PromptExecutorBase_spec a (State h clock calls)) as H1.
  cbn [st_heap st_clock st_calls] in H1. rewrite Ha in H1.
  rewrite (bind_step _ _ _ _ _ H1).
  pose proof (new_MetricEvaluatorBase_spec b
                (State (h ++ [o1]) clock calls)) as H2.
  cbn [st_heap st_clock st_calls] in H2.
  assert (is_instance (h ++ [o1]) b "dict" = true) as Hb1
    by (unfold o1; by rewrite is_instance_fresh).
  rewrite Hb1 in H2.
  rewrite (bind_step _ _ _ _ _ H2).
  unfold new_TestConfig. rewrite (bind_step _ _ _ _ _ (alloc_spec _ _)).
  cbn [st_heap st_clock st_calls]. fold o3 c h3.
  pose proof (new_TestRunner_spec e v c (State h3 clock calls)) as H4.
  cbn [st_heap st_clock st_calls] in H4.
  assert (is_instance h3 e "PromptExecutorBase" = true) as I1
    by (unfold is_instance, mro_of, e; by rewrite L1).
  assert (is_instance h3 v "MetricEvaluatorBase" = true) as I2
    by (unfold is_instance, mro_of, v; by rewrite L2).
  assert (is_instance h3 c "TestConfig" = true) as I3
    by (unfold is_instance, mro_of, c; by rewrite L3).
  rewrite I1, I2, I3 in H4. cbn [negb] in H4.
  rewrite (bind_step _ _ _ _ _ H4). fold h4.
  (* the run *)
  destruct (run (VRef (length h3)) input_data evaluation_params VNone
              (State h4 clock calls)) as [r s'] eqn:Hrun.
  destruct (run_until_execute (VRef (length h3)) input_data evaluation_params
              c e PromptExecutorBase_execute_method x
              (State h4 clock calls) r s')
    as (r1 & s2 & rest & Hbody & Hcalls & Hraise); try done.
  - apply field_last.
  - apply field_last.
  - cbn [st_heap]. unfold mro_of, e, h4.
    by rewrite (lookup_app_l_Some _ _ _ _ L1).
  - cbn [st_heap]. unfold field, c, h4.
    by rewrite (lookup_app_l_Some _ _ _ _ L3).
  - injection Hbody as <- <-.
    destruct (Hraise _ eq_refl) as (-> & -> & ->).
    eexists _, _. split; [done|].
    unfold new_calls, recorded. cbn [st_calls st_heap st_clock].
    rewrite drop_app_length. repeat split; try done.
    unfold h4, h3. rewrite !length_app. simpl. lia.
Qed.

(** *** Overrides that are not configurations *)

Lemma merge_configs_falsy self base override s :
  truth (st_heap s) override = false ->
  TestRunner_merge_configs self base override s = (Ok base, s).
Proof.
  intros Ht. unfold TestRunner_merge_configs.
  rewrite (bind_step _ _ _ _ _ (truthy_spec _ _)). by rewrite Ht.
Qed.

(** X13: an override with a false truth value is no override.  [None] is
    one such value, and so are [False], [0], the empty string and an empty
    dictionary: for each of them the merge returns the base configuration
    itself and changes nothing, and the run is, step for step, the run
    without override. *)
Theorem false_override_is_no_override
    self base override input_data evaluation_params s :
  truth (st_heap s) override = false ->
  TestRunner_merge_configs self base override s = (Ok base, s) /\
  run self input_data evaluation_params override s
  = run self input_data evaluation_params VNone s.
Proof.
  intros Ht. split; [by apply merge_configs_falsy|].
  unfold TestRunner_run.
  destruct (getattr self "config" s) as [[b|e] s1] eqn:E.
  - apply getattr_Ok in E as E'. destruct E' as [-> _].
    rewrite !(bind_step _ _ _ _ _ E).
    rewrite (bind_step _ _ _ _ _ (merge_configs_falsy self b override s Ht)).
    by rewrite (bind_step _ _ _ _ _ (merge_configs_none self b s)).
  - by rewrite !(bind_raise _ _ _ _ _ E).
Qed.

(** X14: an override that is true but has no [executor_config] attribute, a
    plain dictionary of settings for instance, is rejected with
    [AttributeError] while the first dictionary is merged: nothing is added to
    the store, and a run with such an override raises before any call is
    made. *)
Theorem override_without_fields_is_rejected
    self base override eb mb input_data evaluation_params s :
  TestConfig_at (st_heap s) base eb mb ->
  truth (st_heap s) override = true ->
  field (st_heap s) override "executor_config" = None ->
  (exists msg,
     TestRunner_merge_configs self base override s
     = (Raise (AttributeError msg), s)) /\
  (field (st_heap s) self "config" = Some base ->
   exists msg,
     run self input_data evaluation_params override s
     = (Raise (AttributeError msg), s)).
Proof.
  intros [_ (x & Hx & Hd) _ _ _] Ht Hnone.
  assert (exists msg,
            merged_dict base override "executor_config" s
            = (Raise (AttributeError msg), s)) as [msg Hd1].
  { unfold merged_dict.
    rewrite (bind_step _ _ _ _ _ (getattr_field _ _ _ _ Hx)).
    rewrite (bind_step _ _ _ _ _ (unpack_into_dict [] _ _ _ Hd)).
    pose proof (getattr_spec override "executor_config" s) as Ho.
    rewrite Hnone in Ho. destruct Ho as [msg Ho].
    exists msg. by rewrite (bind_raise _ _ _ _ _ Ho). }
  assert (TestRunner_merge_configs self base override s
          = (Raise (AttributeError msg), s)) as Hm.
  { unfold TestRunner_merge_configs.
    rewrite (bind_step _ _ _ _ _ (truthy_spec _ _)). rewrite Ht. cbn [negb].
    by rewrite (bind_raise _ _ _ _ _ Hd1). }
  split; [by exists msg|].
  intros Hcfg. exists msg. unfold TestRunner_run.
  rewrite (bind_step _ _ _ _ _ (getattr_field _ _ _ _ Hcfg)).
  by rewrite (bind_raise _ _ _ _ _ Hm).
Qed.

(** *** Configurations whose fields are not mappings *)

Lemma unpack_into_not_mapping acc v s :
  items_of (st_heap s) v = None ->
  exists msg, unpack_into acc v s = (Raise (TypeError msg), s).
Proof.
  unfold items_of, unpack_into, not_a_mapping, bind, get_heap, raise.
  destruct v; try (by eexists).
  destruct (st_heap s !! l) as [[items|]|]; try done; by eexists.
Qed.

(** X19: the fields of a [TestConfig] are checked by nobody.  The dataclass
    stores what it is given and the runner's constructor only asks for a
    [TestConfig]: a configuration whose [executor_config] is [None], say, is
    accepted.  The error comes late: a run with an override on such a runner
    raises [TypeError] when the base's [executor_config] is unpacked, before
    the override's is looked at and before any call is made. *)
Theorem config_fields_are_not_checked executor evaluator x y s :
  is_instance (st_heap s) executor "PromptExecutorBase" = true ->
  is_instance (st_heap s) evaluator "MetricEvaluatorBase" = true ->
  exists runner config s1,
    (config <- new_TestConfig x y ;;
     new_TestRunner executor evaluator config) s = (Ok runner, s1) /\
    field (st_heap s1) runner "config" = Some config /\
    field (st_heap s1) config "executor_config" = Some x /\
    field (st_heap s1) config "metric_config" = Some y /\
    forall override input_data evaluation_params,
      items_of (st_heap s1) x = None ->
      truth (st_heap s1) override = true ->
      exists msg,
        TestRunner_merge_configs runner config override s1
        = (Raise (TypeError msg), s1) /\
        run runner input_data evaluation_params override s1
        = (Raise (TypeError msg), s1).
Proof.
  intros Hx Hv. destruct s as [h clock calls]. cbn [st_heap] in *.
  set (o := OInstance ["TestConfig"; "object"]
              [("executor_config", x); ("metric_config", y)]).
  set (c := VRef (length h)).
  unfold new_TestConfig. rewrite (bind_step _ _ _ _ _ (alloc_spec _ _)).
  cbn [st_heap st_clock st_calls]. fold o c.
  pose proof (new_TestRunner_spec executor evaluator c
                (State (h ++ [o]) clock calls)) as Hnew.
  cbn [st_heap st_clock st_calls] in Hnew.
  assert (is_instance (h ++ [o]) executor "PromptExecutorBase" = true) as I1
    by (unfold o; by rewrite is_instance_fresh).
  assert (is_instance (h ++ [o]) evaluator "MetricEvaluatorBase" = true) as I2
    by (unfold o; by rewrite is_instance_fresh).
  assert ((h ++ [o]) !! length h = Some o) as Lc
    by (by apply list_lookup_middle).
  assert (is_instance (h ++ [o]) c "TestConfig" = true) as I3
    by (unfold is_instance, mro_of, c; by rewrite Lc).
  rewrite I1, I2, I3 in Hnew. cbn [negb] in Hnew.
  set (s1 := State ((h ++ [o]) ++ [TestRunner_obj executor evaluator c])
               clock calls) in *.
  assert (field (st_heap s1) c "executor_config" = Some x) as Fx.
  { unfold field, c. cbn [st_heap s1].
    by rewrite (lookup_app_l_Some _ _ _ _ Lc). }
  assert (field (st_heap s1) c "metric_config" = Some y) as Fy.
  { unfold field, c. cbn [st_heap s1].
    by rewrite (lookup_app_l_Some _ _ _ _ Lc). }
  assert (field (st_heap s1) (VRef (length (h ++ [o]))) "config" = Some c)
    as Fc by apply field_last.
  exists (VRef (length (h ++ [o]))), c, s1.
  split; [exact Hnew|]. split; [exact Fc|]. split; [exact Fx|].
  split; [exact Fy|].
  intros override input_data evaluation_params Hnot Ht.
  destruct (unpack_into_not_mapping [] x s1 Hnot) as [msg Hu].
  assert (merged_dict c override "executor_config" s1
          = (Raise (TypeError msg), s1)) as Hd.
  { unfold merged_dict.
    rewrite (bind_step _ _ _ _ _ (getattr_field _ _ _ _ Fx)).
    by rewrite (bind_raise _ _ _ _ _ Hu). }
  assert (TestRunner_merge_configs (VRef (length (h ++ [o]))) c override s1
          = (Raise (TypeError msg), s1)) as Hm.
  { unfold TestRunner_merge_configs.
    rewrite (bind_step _ _ _ _ _ (truthy_spec _ _)). rewrite Ht. cbn [negb].
    by rewrite (bind_raise _ _ _ _ _ Hd). }
  exists msg. split; [exact Hm|]. unfold TestRunner_run.
  rewrite (bind_step _ _ _ _ _ (getattr_field _ _ _ _ Fc)).
  by rewrite (bind_raise _ _ _ _ _ Hm).
Qed.

End PackageProperties.

(** ** The algebra of merging *)

Lemma TestConfig_at_extends h h' v ec mc :
  extends h h' -> TestConfig_at h v ec mc -> TestConfig_at h' v ec mc.
Proof.
  intros He Hat. eapply TestConfig_at_stable; [done|].
  intros l o _. by apply extends_lookup.
Qed.

(** What the merge of two configurations returns: a configuration whose
    dictionaries are the two unpackings, in a store that is only extended. *)
Lemma merge_configs_result self base override eb mb eo mo s :
  TestConfig_at (st_heap s) base eb mb ->
  TestConfig_at (st_heap s) override eo mo ->
  exists s1,
    TestRunner_merge_configs self base override s
    = (Ok (VRef (S (S (length (st_heap s))))), s1) /\
    st_heap s1 =
      st_heap s ++ [ODict (Dict.unpack2 eb eo); ODict (Dict.unpack2 mb mo);
                    merged_TestConfig (st_heap s)] /\
    extends (st_heap s) (st_heap s1) /\
    TestConfig_at (st_heap s1) (VRef (S (S (length (st_heap s)))))
      (Dict.unpack2 eb eo) (Dict.unpack2 mb mo).
Proof.
  intros Hb Ho. eexists. split; [by eapply merge_configs_spec|].
  cbn [st_heap]. split; [done|]. split; [apply extends_app|].
  set (h := st_heap s).
  pose proof (lookup_fresh h [ODict (Dict.unpack2 eb eo);
                ODict (Dict.unpack2 mb mo); merged_TestConfig h]) as Hl.
  pose proof (Hl 0) as Hl0. pose proof (Hl 1) as Hl1. pose proof (Hl 2) as Hl2.
  rewrite Nat.add_0_r in Hl0. rewrite Nat.add_1_r in Hl1.
  replace (length h + 2) with (S (S (length h))) in Hl2 by lia.
  simpl in Hl0, Hl1, Hl2. destruct Hb as [_ _ _ Hwe Hwm].
  split.
  - unfold is_instance. simpl. by rewrite Hl2.
  - exists (VRef (length h)). unfold field, items_of. by rewrite Hl2, Hl0.
  - exists (VRef (S (length h))). unfold field, items_of. by rewrite Hl2, Hl1.
  - by apply wf_unpack2.
  - by apply wf_unpack2.
Qed.

(** X15: the order of the keys of a merged dictionary.  The keys of the base
    come first, in the order of the base, each at the place it had whether or
    not the override has it too; the keys that only the override has follow,
    in the order of the override. *)
Theorem merged_config_key_order self base override eb mb eo mo s :
  TestConfig_at (st_heap s) base eb mb ->
  TestConfig_at (st_heap s) override eo mo ->
  exists effective s1 em mm,
    TestRunner_merge_configs self base override s = (Ok effective, s1) /\
    TestConfig_at (st_heap s1) effective em mm /\
    Dict.keys em
    = Dict.keys eb ++
      List.filter (fun k => negb (Dict.mem k eb)) (Dict.keys eo) /\
    Dict.keys mm
    = Dict.keys mb ++
      List.filter (fun k => negb (Dict.mem k mb)) (Dict.keys mo).
Proof.
  intros Hb Ho.
  destruct (merge_configs_result self base override eb mb eo mo s Hb Ho)
    as (s1 & Hm & _ & _ & Hat).
  eexists _, s1, _, _. split; [exact Hm|]. split; [exact Hat|].
  destruct Hb as [_ _ _ Hwe Hwm]. destruct Ho as [_ _ _ Hwe' Hwm'].
  split; by apply DictAlgebra.keys_unpack2.
Qed.

(** X16: merging is associative.  Overriding a base by a first override and
    the result by a second one gives a configuration with the same two
    dictionaries (same keys, in the same order, with the same values) as
    overriding the base by the merge of the two overrides. *)
Theorem merge_configs_associative self base o1 o2 eb mb e1 m1 e2 m2 s :
  TestConfig_at (st_heap s) base eb mb ->
  TestConfig_at (st_heap s) o1 e1 m1 ->
  TestConfig_at (st_heap s) o2 e2 m2 ->
  exists cl sl cr sr em mm,
    (c <- TestRunner_merge_configs self base o1 ;;
     TestRunner_merge_configs self c o2) s = (Ok cl, sl) /\
    (c <- TestRunner_merge_configs self o1 o2 ;;
     TestRunner_merge_configs self base c) s = (Ok cr, sr) /\
    TestConfig_at (st_heap sl) cl em mm /\
    TestConfig_at (st_heap sr) cr em mm.
Proof.
  intros Hb H1 H2.
  (* base, then the first override, then the second *)
  destruct (merge_configs_result self base o1 eb mb e1 m1 s Hb H1)
    as (sa & Hma & _ & Hea & Hata).
  destruct (merge_configs_result self _ o2 _ _ e2 m2 sa Hata
              (TestConfig_at_extends _ _ _ _ _ Hea H2))
    as (sl & Hml & _ & _ & Hatl).
  (* the two overrides, then the base by their merge *)
  destruct (merge_configs_result self o1 o2 e1 m1 e2 m2 s H1 H2)
    as (sb & Hmb & _ & Heb & Hatb).
  destruct (merge_configs_result self base _ eb mb _ _ sb
              (TestConfig_at_extends _ _ _ _ _ Heb Hb) Hatb)
    as (sr & Hmr & _ & _ & Hatr).
  eexists _, sl, _, sr, _, _.
  split; [by rewrite (bind_step _ _ _ _ _ Hma)|].
  split; [by rewrite (bind_step _ _ _ _ _ Hmb)|].
  split; [exact Hatl|].
  destruct Hb as [_ _ _ Hwe Hwm]. destruct H1 as [_ _ _ Hwe1 Hwm1].
  by rewrite !DictAlgebra.unpack2_assoc.
Qed.

(** X17: merging again changes nothing more.  Overriding the merged
    configuration once more by the same override gives a configuration with
    the same two dictionaries; and overriding a configuration by itself gives
    a copy of it. *)
Theorem merge_configs_idempotent self base override eb mb eo mo s :
  TestConfig_at (st_heap s) base eb mb ->
  TestConfig_at (st_heap s) override eo mo ->
  (exists once s1 twice s2 em mm,
     TestRunner_merge_configs self base override s = (Ok once, s1) /\
     TestRunner_merge_configs self once override s1 = (Ok twice, s2) /\
     TestConfig_at (st_heap s1) once em mm /\
     TestConfig_at (st_heap s2) twice em mm) /\
  (exists copy s1,
     TestRunner_merge_configs self base base s = (Ok copy, s1) /\
     copy <> base /\ TestConfig_at (st_heap s1) copy eb mb).
Proof.
  intros Hb Ho. split.
  - destruct (merge_configs_result self base override eb mb eo mo s Hb Ho)
      as (s1 & Hm1 & _ & He1 & Hat1).
    destruct (merge_configs_result self _ override _ _ eo mo s1 Hat1
                (TestConfig_at_extends _ _ _ _ _ He1 Ho))
      as (s2 & Hm2 & _ & _ & Hat2).
    eexists _, s1, _, s2, _, _.
    split; [exact Hm1|]. split; [exact Hm2|]. split; [exact Hat1|].
    destruct Hb as [_ _ _ Hwe Hwm]. destruct Ho as [_ _ _ Hwe' Hwm'].
    by rewrite !DictAlgebra.unpack2_again in Hat2.
  - destruct (merge_configs_result self base base eb mb eb mb s Hb Hb)
      as (s1 & Hm1 & _ & _ & Hat1).
    eexists _, s1. split; [exact Hm1|]. split.
    + intros <-. destruct Hb as [Hi _ _ _ _].
      unfold is_instance in Hi. simpl in Hi.
      by rewrite lookup_ge_None_2 in Hi by lia.
    + destruct Hb as [_ _ _ Hwe Hwm].
      by rewrite !DictAlgebra.unpack2_self in Hat1.
Qed.

(** X18: an override with two empty dictionaries is an override all the
    same.  Unlike [None] it makes the merge build a new configuration: a copy
    of the base, with the base's keys and values in two new dictionaries at
    locations that were free, so that what is done to the copy is not done to
    the base. *)
Theorem empty_override_copies_base self base override eb mb s :
  TestConfig_at (st_heap s) base eb mb ->
  TestConfig_at (st_heap s) override [] [] ->
  exists l x y s1,
    TestRunner_merge_configs self base override s = (Ok (VRef l), s1) /\
    TestConfig_at (st_heap s1) (VRef l) eb mb /\
    field (st_heap s1) (VRef l) "executor_config" = Some (VRef x) /\
    field (st_heap s1) (VRef l) "metric_config" = Some (VRef y) /\
    st_heap s !! l = None /\ st_heap s !! x = None /\ st_heap s !! y = None /\
    TestConfig_at (st_heap s1) base eb mb.
Proof.
  intros Hb Ho.
  destruct (merge_configs_result self base override eb mb [] [] s Hb Ho)
    as (s1 & Hm & Hheap & He & Hat).
  exists (S (S (length (st_heap s)))), (length (st_heap s)),
    (S (length (st_heap s))), s1.
  split; [exact Hm|].
  pose proof Hb as [_ _ _ Hwe Hwm].
  rewrite !DictAlgebra.unpack2_empty_r in Hat, Hheap by done.
  split; [exact Hat|].
  assert (st_heap s1 !! S (S (length (st_heap s)))
          = Some (merged_TestConfig (st_heap s))) as Hl.
  { rewrite Hheap.
    replace (S (S (length (st_heap s)))) with (length (st_heap s) + 2) by lia.
    by rewrite lookup_fresh. }
  split; [unfold field; by rewrite Hl|].
  split; [unfold field; by rewrite Hl|].
  do 3 (split; [apply lookup_ge_None_2; lia|]).
  by eapply TestConfig_at_extends.
Qed.

(** ** The further properties at the test doubles *)

Lemma run_half :
  Doubles.run Corners.runner_half (VStr "hello") VNone VNone Corners.state_half
  = (Raise NotImplementedError, Corners.state_half_run).
Proof. vm_compute; reflexivity. Qed.

Lemma run_empty_params :
  Doubles.run Doubles.runner (VStr "hello") Corners.empty_params VNone
    Doubles.state1
  = (Ok (VRef 17), Corners.state_empty_params).
Proof. vm_compute; reflexivity. Qed.

Lemma new_runner :
  new_TestRunner Doubles.executor Doubles.evaluator Doubles.base Doubles.state0
  = (Ok Doubles.runner, Doubles.state1).
Proof. vm_compute; reflexivity. Qed.

Lemma base_is_TestConfig_still :
  TestConfig_at (st_heap Corners.state_empty_override) Doubles.base
    [("model", VStr "a")] [].
Proof. TestConfig_at_tac. Qed.

Lemma empty_override_is_TestConfig :
  TestConfig_at (st_heap Corners.state_empty_override) Corners.empty_override
    [] [].
Proof. TestConfig_at_tac. Qed.

(** The result of the end-to-end scenario: its metadata, its time stamps. *)
Lemma run_fills_the_result_witness :
  exists c1 c2 m e v md,
    new_calls Doubles.state1 Doubles.state2 = [c1; c2] /\
    meth c2 = "evaluate" /\ result c2 = Ok m /\
    is_instance (st_heap Doubles.state2) (VRef 17) "TestResult" = true /\
    field (st_heap Doubles.state2) (VRef 17) "metric_output" = Some m /\
    field (st_heap Doubles.state2) (VRef 17) "metadata" = Some md /\
    field (heap_after c2) Doubles.runner "executor" = Some e /\
    field (heap_after c2) Doubles.runner "evaluator" = Some v /\
    items_of (st_heap Doubles.state2) md =
      Some [("executor_type", VStr (type_name (heap_after c2) e));
            ("evaluator_type", VStr (type_name (heap_after c2) v));
            ("timestamp",
             VStr (Doubles.iso (Doubles.clock (st_clock Doubles.state1))))] /\
    field (st_heap Doubles.state2) (VRef 17) "timestamp"
      = Some (VDatetime (Doubles.clock (S (st_clock Doubles.state1)))) /\
    st_clock Doubles.state2 = S (S (st_clock Doubles.state1)) /\
    md = VRef (length (heap_after c2)) /\
    VRef 17 = VRef (S (length (heap_after c2))) /\
    extends (heap_after c2) (st_heap Doubles.state2) /\
    length (st_heap Doubles.state2) = 2 + length (heap_after c2).
Proof.
  exact (run_fills_the_result Doubles.methods Doubles.clock Doubles.iso
           Doubles.runner (VStr "hello") VNone VNone Doubles.state1 (VRef 17)
           Doubles.state2 run_hello).
Defined.

Lemma evaluate_gets_what_execute_got_witness :
  exists c1 c2 executor ec,
    new_calls Doubles.state1 Doubles.state2_override = [c1; c2] /\
    Dict.keys (kwargs c2) = evaluate_params /\
    Dict.get "executor" (kwargs c2) = Some executor /\
    Dict.get "executor_config" (kwargs c2) = Some ec /\
    callee c1 = executor /\ args c1 = [VStr "hello"; ec].
Proof.
  destruct (evaluate_gets_what_execute_got Doubles.methods Doubles.clock
              Doubles.iso Doubles.runner (VStr "hello") VNone Doubles.override
              Doubles.state1 (VRef 20) Doubles.state2_override
              run_hello_override)
    as (c1 & c2 & effective & executor & ec & tc & params & out & Hcalls & _
        & _ & Hkw & _ & _ & _ & _ & _ & _ & _ & Hsame).
  exists c1, c2, executor, ec. rewrite Hkw.
  split; [exact Hcalls|]. do 3 (split; [reflexivity|]).
  apply Hsame. intros l o _.
  destruct doubles_calls_keep with (l := l) (o := o) as [_ Hkeep].
  rewrite Hcalls in Hkeep. by apply Forall_cons in Hkeep as [? _].
Defined.

(** The run whose [evaluate] raises: [execute] returned, the run raises what
    [evaluate] raised, the clock is where it was. *)
Lemma run_stops_at_first_error_witness :
  (forall c e, c ∈ new_calls Corners.state_half Corners.state_half_run ->
     result c = Raise e ->
     @Raise pyval NotImplementedError = Raise e /\
     last (new_calls Corners.state_half Corners.state_half_run) = Some c /\
     st_heap Corners.state_half_run = heap_after c) /\
  (forall c e, c ∈ new_calls Corners.state_half Corners.state_half_run ->
     meth c = "execute" -> result c = Raise e ->
     new_calls Corners.state_half Corners.state_half_run = [c]) /\
  (forall e, @Raise pyval NotImplementedError = Raise e ->
     st_clock Corners.state_half_run = st_clock Corners.state_half) /\
  (forall res, @Raise pyval NotImplementedError = Ok res ->
     Forall returned (new_calls Corners.state_half Corners.state_half_run) /\
     st_clock Corners.state_half_run = 2 + st_clock Corners.state_half).
Proof.
  exact (run_stops_at_first_error Doubles.methods Doubles.clock Doubles.iso
           Corners.runner_half (VStr "hello") VNone VNone Corners.state_half
           (Raise NotImplementedError) Corners.state_half_run run_half).
Defined.

(** The caller's empty dictionary, at location 5, is not what [evaluate]
    gets. *)
Lemma false_evaluation_params_are_replaced_witness :
  exists c p,
    c ∈ new_calls Doubles.state1 Corners.state_empty_params /\
    meth c = "evaluate" /\
    Dict.get "evaluation_params" (kwargs c) = Some (VRef p) /\
    VRef p <> Corners.empty_params /\ at_heap c !! p = Some (ODict []).
Proof.
  assert (exists c, c ∈ new_calls Doubles.state1 Corners.state_empty_params /\
            meth c = "evaluate" /\
            truth (at_heap c) Corners.empty_params = false)
    as (c & Hin & Hm & Ht).
  { eexists. split; [|split].
    - vm_compute. apply list_elem_of_further, list_elem_of_here.
    - reflexivity.
    - reflexivity. }
  destruct (false_evaluation_params_are_replaced Doubles.methods Doubles.clock
              Doubles.iso Doubles.runner (VStr "hello") Corners.empty_params
              VNone Doubles.state1 _ _ run_empty_params c Hin Hm)
    as (_ & Hfalse & _).
  destruct (Hfalse Ht) as (p & Hp). by exists c, p.
Defined.

Lemma constructed_runner_reaches_execute_witness :
  (exists f, getmethod Doubles.methods Doubles.executor "execute" Doubles.state1
             = (Ok (Bound Doubles.executor "execute" f), Doubles.state1)) /\
  (exists g, getmethod Doubles.methods Doubles.evaluator "evaluate"
               Doubles.state1
             = (Ok (Bound Doubles.evaluator "evaluate" g), Doubles.state1)) /\
  exists c1 rest,
    new_calls Doubles.state1 Doubles.state2 = c1 :: rest /\
    callee c1 = Doubles.executor /\ meth c1 = "execute" /\
    args c1 = [VStr "hello"; VRef 4] /\ kwargs c1 = [] /\
    at_heap c1 = st_heap Doubles.state1.
Proof.
  destruct (constructed_runner_reaches_execute Doubles.methods Doubles.clock
              Doubles.iso Doubles.executor Doubles.evaluator Doubles.base
              Doubles.state0 Doubles.runner Doubles.state1 new_runner)
    as (Hf & Hg & Hrun).
  split; [exact Hf|]. split; [exact Hg|].
  exact (Hrun (VRef 4) (VStr "hello") VNone _ _ eq_refl run_hello).
Defined.

Lemma base_classes_alone_cannot_run_witness :
  exists s' c1,
    (executor <- new_PromptExecutorBase (VRef 0) ;;
     evaluator <- new_MetricEvaluatorBase (VRef 2) ;;
     config <- new_TestConfig (VRef 4) (VRef 5) ;;
     runner <- new_TestRunner executor evaluator config ;;
     Doubles.run runner (VStr "hello") VNone VNone) Doubles.state0
    = (Raise NotImplementedError, s') /\
    new_calls Doubles.state0 s' = [c1] /\
    callee c1 = VRef (length (st_heap Doubles.state0)) /\
    meth c1 = "execute" /\ args c1 = [VStr "hello"; VRef 4] /\
    result c1 = Raise NotImplementedError /\
    heap_after c1 = at_heap c1 /\ st_heap s' = at_heap c1 /\
    length (st_heap s') = 4 + length (st_heap Doubles.state0) /\
    st_clock s' = st_clock Doubles.state0.
Proof.
  exact (base_classes_alone_cannot_run Doubles.methods Doubles.clock
           Doubles.iso (VRef 0) (VRef 2) (VRef 4) (VRef 5) (VStr "hello") VNone
           Doubles.state0 eq_refl eq_refl).
Defined.

(** An empty dictionary handed over as override: the run is the run without
    override. *)
Lemma false_override_is_no_override_witness :
  TestRunner_merge_configs Doubles.runner Doubles.base (VRef 5) Doubles.state1
  = (Ok Doubles.base, Doubles.state1) /\
  Doubles.run Doubles.runner (VStr "hello") VNone (VRef 5) Doubles.state1
  = Doubles.run Doubles.runner (VStr "hello") VNone VNone Doubles.state1.
Proof.
  exact (false_override_is_no_override Doubles.methods Doubles.clock
           Doubles.iso Doubles.runner Doubles.base (VRef 5) (VStr "hello")
           VNone Doubles.state1 eq_refl).
Defined.

(** The dictionary [{"model": "a"}] handed over as override, in place of a
    [TestConfig]. *)
Lemma override_without_fields_is_rejected_witness :
  (exists msg,
     TestRunner_merge_configs Doubles.runner Doubles.base (VRef 4)
       Doubles.state1
     = (Raise (AttributeError msg), Doubles.state1)) /\
  (exists msg,
     Doubles.run Doubles.runner (VStr "hello") VNone (VRef 4) Doubles.state1
     = (Raise (AttributeError msg), Doubles.state1)).
Proof.
  destruct (override_without_fields_is_rejected Doubles.methods Doubles.clock
              Doubles.iso Doubles.runner Doubles.base (VRef 4)
              [("model", VStr "a")] [] (VStr "hello") VNone Doubles.state1
              base_is_TestConfig eq_refl eq_refl) as [Hm Hrun].
  split; [exact Hm | exact (Hrun eq_refl)].
Defined.

Lemma merged_config_key_order_witness :
  exists effective s1 em mm,
    TestRunner_merge_configs Doubles.runner Doubles.base Doubles.override
      Doubles.state1 = (Ok effective, s1) /\
    TestConfig_at (st_heap s1) effective em mm /\
    Dict.keys em
    = Dict.keys [("model", VStr "a")] ++
      List.filter (fun k => negb (Dict.mem k [("model", VStr "a")]))
        (Dict.keys [("temperature", VFloat 0.5%float)]) /\
    Dict.keys mm
    = Dict.keys [] ++
      List.filter (fun k => negb (Dict.mem k [])) (Dict.keys []).
Proof.
  exact (merged_config_key_order Doubles.runner Doubles.base Doubles.override
           [("model", VStr "a")] [] [("temperature", VFloat 0.5%float)] []
           Doubles.state1 base_is_TestConfig override_is_TestConfig).
Defined.

Lemma merge_configs_associative_witness :
  exists cl sl cr sr em mm,
    (c <- TestRunner_merge_configs Doubles.runner Doubles.base
            Doubles.override ;;
     TestRunner_merge_configs Doubles.runner c Doubles.base) Doubles.state1
    = (Ok cl, sl) /\
    (c <- TestRunner_merge_configs Doubles.runner Doubles.override
            Doubles.base ;;
     TestRunner_merge_configs Doubles.runner Doubles.base c) Doubles.state1
    = (Ok cr, sr) /\
    TestConfig_at (st_heap sl) cl em mm /\
    TestConfig_at (st_heap sr) cr em mm.
Proof.
  exact (merge_configs_associative Doubles.runner Doubles.base Doubles.override
           Doubles.base [("model", VStr "a")] []
           [("temperature", VFloat 0.5%float)] [] [("model", VStr "a")] []
           Doubles.state1 base_is_TestConfig override_is_TestConfig
           base_is_TestConfig).
Defined.

Lemma merge_configs_idempotent_witness :
  (exists once s1 twice s2 em mm,
     TestRunner_merge_configs Doubles.runner Doubles.base Doubles.override
       Doubles.state1 = (Ok once, s1) /\
     TestRunner_merge_configs Doubles.runner once Doubles.override s1
     = (Ok twice, s2) /\
     TestConfig_at (st_heap s1) once em mm /\
     TestConfig_at (st_heap s2) twice em mm) /\
  (exists copy s1,
     TestRunner_merge_configs Doubles.runner Doubles.base Doubles.base
       Doubles.state1 = (Ok copy, s1) /\
     copy <> Doubles.base /\
     TestConfig_at (st_heap s1) copy [("model", VStr "a")] []).
Proof.
  exact (merge_configs_idempotent Doubles.runner Doubles.base Doubles.override
           [("model", VStr "a")] [] [("temperature", VFloat 0.5%float)] []
           Doubles.state1 base_is_TestConfig override_is_TestConfig).
Defined.

Lemma empty_override_copies_base_witness :
  exists l x y s1,
    TestRunner_merge_configs Doubles.runner Doubles.base Corners.empty_override
      Corners.state_empty_override = (Ok (VRef l), s1) /\
    TestConfig_at (st_heap s1) (VRef l) [("model", VStr "a")] [] /\
    field (st_heap s1) (VRef l) "executor_config" = Some (VRef x) /\
    field (st_heap s1) (VRef l) "metric_config" = Some (VRef y) /\
    st_heap Corners.state_empty_override !! l = None /\
    st_heap Corners.state_empty_override !! x = None /\
    st_heap Corners.state_empty_override !! y = None /\
    TestConfig_at (st_heap s1) Doubles.base [("model", VStr "a")] [].
Proof.
  exact (empty_override_copies_base Doubles.runner Doubles.base
           Corners.empty_override [("model", VStr "a")] []
           Corners.state_empty_override base_is_TestConfig_still
           empty_override_is_TestConfig).
Defined.

(** ** Further scenarios *)

(** The metadata of the end-to-end scenario names the classes of the
    doubles, not the base classes they derive from. *)
Example metadata_scenario :
  (TestRunner_get_metadata Doubles.clock Doubles.iso Doubles.runner
     Doubles.state1).1 = Ok (VRef 12) /\
  items_of
    (st_heap (TestRunner_get_metadata Doubles.clock Doubles.iso Doubles.runner
                Doubles.state1).2) (VRef 12)
  = Some [("executor_type", VStr "EchoExecutor");
          ("evaluator_type", VStr "PassEvaluator");
          ("timestamp", VStr "2023-11-14T22:13:20")].
Proof. split; vm_compute; reflexivity. Qed.

(** [validate_type] on a few values: [bool] is an [int], a string is not,
    the class of the class [MetricStatus] is its metaclass, and a second
    argument that is not a class is an error of its own. *)
Example validate_type_scenario :
  validate_type (VBool true) (VClass "int") Doubles.state0
  = (Ok (VBool true), Doubles.state0) /\
  validate_type (VStr "3") (VClass "int") Doubles.state0
  = (Raise (TypeError "Expected type int, got str"), Doubles.state0) /\
  validate_type (VClass "MetricStatus") (VClass "int") Doubles.state0
  = (Raise (TypeError "Expected type int, got EnumType"), Doubles.state0) /\
  validate_type (VInt 3) (VStr "int") Doubles.state0
  = (Raise (TypeError
       "isinstance() arg 2 must be a type, a tuple of types, or a union"),
     Doubles.state0).
Proof. repeat split; vm_compute; reflexivity. Qed.

(** With both the executor and the configuration wrong, the error is about
    the executor. *)
Example first_bad_component_scenario :
  (new_TestRunner Doubles.evaluator Doubles.evaluator (VRef 4)
     Doubles.state0).1
  = Raise (ValueError "Executor must be an instance of PromptExecutorBase").
Proof. vm_compute; reflexivity. Qed.

(** The merged dictionary keeps the base's keys where they were: merging
    [{"a": 1, "b": 2}] with [{"c": 3, "a": 4}] gives [a, b, c] in that order,
    with the override's value for [a]. *)
Example key_order_scenario :
  Dict.unpack2 [("a", VInt 1); ("b", VInt 2)] [("c", VInt 3); ("a", VInt 4)]
  = [("a", VInt 4); ("b", VInt 2); ("c", VInt 3)].
Proof. vm_compute; reflexivity. Qed.

(** [TestRunner(executor, evaluator, TestConfig(None, None))] is built, and
    its run with the override of the scenario fails on the first
    unpacking. *)
Lemma config_fields_are_not_checked_witness :
  exists runner config s1 msg,
    (config <- new_TestConfig VNone VNone ;;
     new_TestRunner Doubles.executor Doubles.evaluator config) Doubles.state0
    = (Ok runner, s1) /\
    field (st_heap s1) config "executor_config" = Some VNone /\
    Doubles.run runner (VStr "hello") VNone Doubles.override s1
    = (Raise (TypeError msg), s1).
Proof.
  destruct (config_fields_are_not_checked Doubles.methods Doubles.clock
              Doubles.iso Doubles.executor Doubles.evaluator VNone VNone
              Doubles.state0 eq_refl eq_refl)
    as (runner & config & s1 & Hnew & _ & Hx & _ & Hrun).
  destruct (Hrun Doubles.override (VStr "hello") VNone eq_refl)
    as (msg & _ & H).
  - injection Hnew as _ <-. reflexivity.
  - by exists runner, config, s1, msg.
Defined.
